(** * Taskprocessor: a shallow embedding of [main/taskprocessor.c]

    The development follows the C file function by function.  Objects that
    the C code reaches through pointers live in two stores (taskprocessors
    and listeners), both reference counted the way astobj2 counts them; the
    functions of the file are written in a small state-and-fault monad over
    these stores, and the sections of code that run under the processor's
    lock are separate definitions, so that the interleavings of concurrent
    callers can be stated as sequences of such sections. *)

From Stdlib Require Import ZArith List String Ascii Bool Lia.
From stdpp Require Import base option list gmap.

Local Open Scope Z_scope.

(** ** C integers *)

(** Two's complement value of [z] in a signed type of [w] bits. *)
Definition wrap_signed (w z : Z) : Z := (z + 2 ^ (w - 1)) mod 2 ^ w - 2 ^ (w - 1).

(** [int], [long] and [unsigned long] of an LP64 platform. *)
Definition to_int (z : Z) : Z := wrap_signed 32 z.
Definition to_long (z : Z) : Z := wrap_signed 64 z.
Definition to_ulong (z : Z) : Z := z mod 2 ^ 64.

Definition INT_MAX : Z := 2 ^ 31 - 1.
Definition LONG_MAX : Z := 2 ^ 63 - 1.
Definition ULONG_MAX : Z := 2 ^ 64 - 1.

(** ** C strings *)

Definition tolower (c : ascii) : ascii :=
  let n := nat_of_ascii c in
  if (65 <=? n)%nat && (n <=? 90)%nat then ascii_of_nat (n + 32) else c.

(** [strcasecmp] of the C library: the difference of the first pair of
    characters that differ after folding to lower case, 0 when none does. *)
Fixpoint strcasecmp (a b : string) : Z :=
  match a, b with
  | EmptyString, EmptyString => 0
  | EmptyString, String d _ => - Z.of_nat (nat_of_ascii (tolower d))
  | String c _, EmptyString => Z.of_nat (nat_of_ascii (tolower c))
  | String c a', String d b' =>
      if Ascii.eqb (tolower c) (tolower d) then strcasecmp a' b'
      else Z.of_nat (nat_of_ascii (tolower c)) - Z.of_nat (nat_of_ascii (tolower d))
  end.

(** [ast_strlen_zero]: a null pointer or an empty string. *)
Definition ast_strlen_zero (s : option string) : bool :=
  match s with
  | None => true
  | Some EmptyString => true
  | Some _ => false
  end.

(** Addresses of reference-counted objects; a null pointer is [None]. *)
Definition handle := positive.

Definition TPS_MAX_BUCKETS : Z := 7.

(** Modelled from the spec: [enum ast_tps_options] of taskprocessor.h, the
    two lookup modes "create if missing" and "only if exists". *)
Definition TPS_REF_DEFAULT : Z := 0.
Definition TPS_REF_IF_EXISTS : Z := 1.

(** Modelled from the spec: the flags and results of astobj2 callbacks
    (astobj2.h), as far as this file uses them. *)
Definition OBJ_POINTER : Z := 8.
Definition OBJ_KEY : Z := 64.
Definition CMP_MATCH : Z := 1.
Definition CMP_STOP : Z := 2.

(** ** The monad

    A computation reads and writes the state and returns a value, or faults
    ([None]) where the C program dereferences a null or dangling pointer. *)

Definition M (S A : Type) : Type := S -> option (A * S).

Definition ret {S A : Type} (a : A) : M S A := fun s => Some (a, s).

Definition bind {S A B : Type} (m : M S A) (k : A -> M S B) : M S B :=
  fun s => match m s with
           | Some (a, s') => k a s'
           | None => None
           end.

Definition fault {S A : Type} : M S A := fun _ => None.

Definition gets {S A : Type} (f : S -> A) : M S A := fun s => Some (f s, s).

Definition modify {S : Type} (f : S -> S) : M S unit := fun s => Some (tt, f s).

Declare Scope tps_scope.
Delimit Scope tps_scope with tps.
Notation "x <- m ;; k" := (bind m (fun x => k))
  (at level 100, m at next level, right associativity) : tps_scope.
Notation "m ;; k" := (bind m (fun _ => k))
  (at level 100, right associativity) : tps_scope.
Local Open Scope tps_scope.

(** Modelled from the spec: an astobj2 object, a reference count in front of
    the user data. *)
Record ao2 (A : Type) : Type := {
  ref_counter : Z;
  user_data : A
}.
Arguments ref_counter {A} _.
Arguments user_data {A} _.

Section Taskprocessor.

(** The memory a task callback works on, and the type of the private data of
    the listeners of the system. *)
Context {W : Type} {P : Type}.

(** Modelled from the spec: [ast_str_case_hash] of strings.h, the
    case-insensitive string hash the container is indexed by. *)
Variable ast_str_case_hash : string -> Z.

(** The type of the [execute] function pointer of a task: a callback gets
    the data pointer, works on the memory and returns an [int] status. *)
Definition task_callback : Type := Z -> W -> W * Z.

(** [struct tps_task]; the list entry is the position in the queue. *)
Record tps_task : Type := {
  execute : task_callback;
  datap : Z
}.

(** [struct tps_taskprocessor_stats], both fields [unsigned long]. *)
Record tps_taskprocessor_stats : Type := {
  max_qsize : Z;
  _tasks_processed_count : Z
}.

(** Modelled from the spec: [struct ast_taskprocessor_listener_callbacks] of
    taskprocessor.h, the six operations of an execution policy.  A callback
    works on the private data of its listener; [alloc] and [start] may fail
    and read the answers of the environment (see [oracle] below). *)
Record ast_taskprocessor_listener_callbacks : Type := {
  alloc : list bool -> option P * list bool;
  start : P -> list bool -> (Z * P) * list bool;
  task_pushed : P -> Z -> P;
  emptied : P -> P;
  shutdown : P -> P;
  destroy : P -> unit
}.

(** Modelled from the spec: [struct ast_taskprocessor_listener] of
    taskprocessor.h.  [private_data] is null until [alloc] has run. *)
Record ast_taskprocessor_listener : Type := {
  callbacks : ast_taskprocessor_listener_callbacks;
  tps : option handle;
  private_data : option P
}.

(** [struct ast_taskprocessor]. *)
Record ast_taskprocessor : Type := {
  name : option string;
  stats : option tps_taskprocessor_stats;
  tps_queue_size : Z;
  tps_queue : list tps_task;
  listener : option handle;
  shutting_down : bool
}.

(** The state of the program. *)
Record state : Type := {
  (** live [ast_taskprocessor] objects *)
  processors : gmap handle (ao2 ast_taskprocessor);
  (** live [ast_taskprocessor_listener] objects *)
  listeners : gmap handle (ao2 ast_taskprocessor_listener);
  (** the next address the allocator hands out *)
  next_handle : handle;
  (** [tps_singletons]: the buckets of the container, null before
      [ast_tps_init] *)
  tps_singletons : option (list (list handle));
  (** number of [tps_task] envelopes allocated and not yet freed *)
  task_envelopes : Z;
  (** the memory the task callbacks work on *)
  world : W;
  (** answers of the environment to the calls that can fail
      (allocation, linking, thread creation), in order; when the list is
      exhausted the calls succeed *)
  oracle : list bool
}.

(** A zero-filled [struct ast_taskprocessor], as [ao2_alloc] returns it. *)
Definition zeroed_taskprocessor : ast_taskprocessor :=
  {| name := None; stats := None; tps_queue_size := 0; tps_queue := [];
     listener := None; shutting_down := false |}.

(** *** Field updates *)

Definition set_ref_counter {A : Type} (n : Z) (o : ao2 A) : ao2 A :=
  {| ref_counter := n; user_data := user_data o |}.

Definition set_user_data {A : Type} (a : A) (o : ao2 A) : ao2 A :=
  {| ref_counter := ref_counter o; user_data := a |}.

Definition set_name (n : option string) (p : ast_taskprocessor) : ast_taskprocessor :=
  {| name := n; stats := stats p; tps_queue_size := tps_queue_size p;
     tps_queue := tps_queue p; listener := listener p;
     shutting_down := shutting_down p |}.

Definition set_stats (st : option tps_taskprocessor_stats) (p : ast_taskprocessor)
  : ast_taskprocessor :=
  {| name := name p; stats := st; tps_queue_size := tps_queue_size p;
     tps_queue := tps_queue p; listener := listener p;
     shutting_down := shutting_down p |}.

Definition set_queue (q : list tps_task) (n : Z) (p : ast_taskprocessor)
  : ast_taskprocessor :=
  {| name := name p; stats := stats p; tps_queue_size := n;
     tps_queue := q; listener := listener p;
     shutting_down := shutting_down p |}.

Definition set_listener (l : option handle) (p : ast_taskprocessor) : ast_taskprocessor :=
  {| name := name p; stats := stats p; tps_queue_size := tps_queue_size p;
     tps_queue := tps_queue p; listener := l;
     shutting_down := shutting_down p |}.

Definition set_tps (t : option handle) (l : ast_taskprocessor_listener)
  : ast_taskprocessor_listener :=
  {| callbacks := callbacks l; tps := t; private_data := private_data l |}.

Definition set_private_data (d : option P) (l : ast_taskprocessor_listener)
  : ast_taskprocessor_listener :=
  {| callbacks := callbacks l; tps := tps l; private_data := d |}.

Definition with_processors (m : gmap handle (ao2 ast_taskprocessor)) (s : state) : state :=
  {| processors := m; listeners := listeners s; next_handle := next_handle s;
     tps_singletons := tps_singletons s; task_envelopes := task_envelopes s;
     world := world s; oracle := oracle s |}.

Definition with_listeners (m : gmap handle (ao2 ast_taskprocessor_listener)) (s : state)
  : state :=
  {| processors := processors s; listeners := m; next_handle := next_handle s;
     tps_singletons := tps_singletons s; task_envelopes := task_envelopes s;
     world := world s; oracle := oracle s |}.

Definition with_next_handle (h : handle) (s : state) : state :=
  {| processors := processors s; listeners := listeners s; next_handle := h;
     tps_singletons := tps_singletons s; task_envelopes := task_envelopes s;
     world := world s; oracle := oracle s |}.

Definition with_tps_singletons (c : option (list (list handle))) (s : state) : state :=
  {| processors := processors s; listeners := listeners s;
     next_handle := next_handle s; tps_singletons := c;
     task_envelopes := task_envelopes s; world := world s; oracle := oracle s |}.

Definition with_task_envelopes (n : Z) (s : state) : state :=
  {| processors := processors s; listeners := listeners s;
     next_handle := next_handle s; tps_singletons := tps_singletons s;
     task_envelopes := n; world := world s; oracle := oracle s |}.

Definition with_world (w : W) (s : state) : state :=
  {| processors := processors s; listeners := listeners s;
     next_handle := next_handle s; tps_singletons := tps_singletons s;
     task_envelopes := task_envelopes s; world := w; oracle := oracle s |}.

Definition with_oracle (o : list bool) (s : state) : state :=
  {| processors := processors s; listeners := listeners s;
     next_handle := next_handle s; tps_singletons := tps_singletons s;
     task_envelopes := task_envelopes s; world := world s; oracle := o |}.

(** ** Primitive accesses *)

Definition St : Type -> Type := M state.

(** The next answer of the environment to a call that can fail. *)
Definition ask_oracle : St bool :=
  fun s => Some (hd true (oracle s), with_oracle (tl (oracle s)) s).

Definition fresh_handle : St handle :=
  fun s => Some (next_handle s, with_next_handle (Pos.succ (next_handle s)) s).

(** Reading and writing through a pointer to a taskprocessor; a null or
    dangling pointer faults. *)
Definition load_tps (p : option handle) : St (ao2 ast_taskprocessor) :=
  fun s => match p with
           | Some h => match processors s !! h with
                       | Some o => Some (o, s)
                       | None => None
                       end
           | None => None
           end.

Definition store_tps (h : handle) (o : ao2 ast_taskprocessor) : St unit :=
  modify (fun s => with_processors (<[h := o]> (processors s)) s).

Definition load_listener (l : option handle) : St (ao2 ast_taskprocessor_listener) :=
  fun s => match l with
           | Some h => match listeners s !! h with
                       | Some o => Some (o, s)
                       | None => None
                       end
           | None => None
           end.

Definition store_listener (h : handle) (o : ao2 ast_taskprocessor_listener) : St unit :=
  modify (fun s => with_listeners (<[h := o]> (listeners s)) s).

(** A section of code that holds the lock of [p] ([ao2_lock] ... [ao2_unlock],
    [SCOPED_AO2LOCK]): it reads and writes the fields of the object in one
    indivisible step. *)
Definition locked {A : Type} (p : option handle)
    (f : ast_taskprocessor -> A * ast_taskprocessor) : St A :=
  o <- load_tps p ;;
  match p with
  | Some h =>
      let '(a, t) := f (user_data o) in
      store_tps h (set_user_data t o) ;; ret a
  | None => fault
  end.

(** A write to the fields of the object [p] points to, [p->field = ...]. *)
Definition update_tps (p : option handle) (g : ast_taskprocessor -> ast_taskprocessor)
  : St unit :=
  locked p (fun t => (tt, g t)).

Definition update_listener (l : option handle)
    (g : ast_taskprocessor_listener -> ast_taskprocessor_listener) : St unit :=
  o <- load_listener l ;;
  match l with
  | Some h => store_listener h (set_user_data (g (user_data o)) o)
  | None => fault
  end.

(** Modelled from the spec: [ao2_alloc] of astobj2 for a taskprocessor, a new
    zero-filled object with one reference, or null. *)
Definition ao2_alloc_tps : St (option handle) :=
  ok <- ask_oracle ;;
  if ok then
    h <- fresh_handle ;;
    store_tps h {| ref_counter := 1; user_data := zeroed_taskprocessor |} ;;
    ret (Some h)
  else ret None.

(** Modelled from the spec: [ao2_alloc] of astobj2 for a listener.  The
    object is created with its callbacks set, which the C code does right
    after the allocation (line 488). *)
Definition ao2_alloc_listener (cbs : ast_taskprocessor_listener_callbacks)
  : St (option handle) :=
  ok <- ask_oracle ;;
  if ok then
    l <- fresh_handle ;;
    store_listener l {| ref_counter := 1;
                        user_data := {| callbacks := cbs; tps := None;
                                        private_data := None |} |} ;;
    ret (Some l)
  else ret None.

(** Calling a callback of the listener [l] that works on its private data:
    [l->callbacks->f(l, ...)]. *)
Definition call_listener (l : option handle)
    (f : ast_taskprocessor_listener_callbacks -> P -> P) : St unit :=
  o <- load_listener l ;;
  match l, private_data (user_data o) with
  | Some h, Some d =>
      store_listener h
        (set_user_data (set_private_data (Some (f (callbacks (user_data o)) d))
                                         (user_data o)) o)
  | _, _ => fault
  end.

(** ** Reference counting of the two kinds of objects *)

(** [listener_destroy] (lines 466-471), the destructor of a listener. *)
Definition listener_destroy (obj : ast_taskprocessor_listener) : St unit :=
  match private_data obj with
  | Some d => match destroy (callbacks obj) d with tt => ret tt end
  | None => fault
  end.

(** Modelled from the spec: [ao2_ref] of astobj2 on a listener.  It adds
    [delta] to the reference count and returns the count as it was before
    (the comment of lines 593-597 counts "the reference we just got rid of"
    in the result); an object whose count reaches zero is destroyed and
    released.  On a null pointer it does nothing and returns -1. *)
Definition ao2_ref_listener (l : option handle) (delta : Z) : St Z :=
  match l with
  | None => ret (-1)
  | Some h =>
      o <- load_listener l ;;
      let current_value := to_int (ref_counter o + delta) in
      (if current_value <=? 0
       then listener_destroy (user_data o) ;;
            modify (fun s => with_listeners (delete h (listeners s)) s)
       else store_listener h (set_ref_counter current_value o)) ;;
      ret (ref_counter o)
  end.

(** [tps_taskprocessor_destroy] (lines 410-433), the destructor of a
    taskprocessor. *)
Definition tps_taskprocessor_destroy (p : option handle) : St unit :=
  match p with
  | None => ret tt
  | Some _ =>
      update_tps p (set_stats None) ;;
      o <- load_tps p ;;
      match listener (user_data o) with
      | Some l =>
          ao2_ref_listener (Some l) (-1) ;;
          update_tps p (set_listener None)
      | None => ret tt
      end
  end.

(** Modelled from the spec: [ao2_ref] of astobj2 on a taskprocessor. *)
Definition ao2_ref_tps (p : option handle) (delta : Z) : St Z :=
  match p with
  | None => ret (-1)
  | Some h =>
      o <- load_tps p ;;
      let current_value := to_int (ref_counter o + delta) in
      store_tps h (set_ref_counter current_value o) ;;
      (if current_value <=? 0
       then tps_taskprocessor_destroy p ;;
            modify (fun s => with_processors (delete h (processors s)) s)
       else ret tt) ;;
      ret (ref_counter o)
  end.

(** Modelled from the spec: [ao2_cleanup], the release that [RAII_VAR] runs
    when the variable goes out of scope. *)
Definition ao2_cleanup_tps (p : option handle) : St unit :=
  match p with
  | None => ret tt
  | Some _ => ao2_ref_tps p (-1) ;; ret tt
  end.

Definition ao2_cleanup_listener (l : option handle) : St unit :=
  match l with
  | None => ret tt
  | Some _ => ao2_ref_listener l (-1) ;; ret tt
  end.

(** ** The container of singletons *)

(** The argument of a container callback: a search key or an object. *)
Inductive ao2_arg : Type :=
  | ArgKey (key : string)
  | ArgObj (obj : ast_taskprocessor).

(** [tps_hash_cb] (lines 392-398); [None] when the argument is not what the
    flags say, or the object has no name. *)
Definition tps_hash_cb (obj : ao2_arg) (flags : Z) : option Z :=
  let nm := if Z.land flags OBJ_KEY =? 0
            then match obj with ArgObj t => name t | ArgKey _ => None end
            else match obj with ArgKey k => Some k | ArgObj _ => None end in
  match nm with
  | Some n => Some (ast_str_case_hash n)
  | None => None
  end.

(** [tps_cmp_cb] (lines 401-407). *)
Definition tps_cmp_cb (obj : ast_taskprocessor) (arg : ao2_arg) (flags : Z) : option Z :=
  let rhsname := if Z.land flags OBJ_KEY =? 0
                 then match arg with ArgObj rhs => name rhs | ArgKey _ => None end
                 else match arg with ArgKey k => Some k | ArgObj _ => None end in
  match name obj, rhsname with
  | Some l, Some r =>
      Some (if strcasecmp l r =? 0 then Z.lor CMP_MATCH CMP_STOP else 0)
  | _, _ => None
  end.

(** Modelled from the spec: the bucket of a hash value, [abs(hash)] modulo
    the number of buckets. *)
Definition bucket_index (buckets : list (list handle)) (hash : Z) : nat :=
  Z.to_nat (Z.abs hash mod Z.of_nat (length buckets)).

(** Modelled from the spec: the walk of [ao2_find] through one bucket; the
    first object the compare callback matches is returned with one more
    reference. *)
Fixpoint bucket_find (key : string) (flags : Z) (bucket : list handle)
  : St (option handle) :=
  match bucket with
  | [] => ret None
  | h :: rest =>
      o <- load_tps (Some h) ;;
      match tps_cmp_cb (user_data o) (ArgKey key) flags with
      | None => fault
      | Some r =>
          if Z.land r CMP_MATCH =? 0
          then (if Z.land r CMP_STOP =? 0 then bucket_find key flags rest else ret None)
          else ao2_ref_tps (Some h) 1 ;; ret (Some h)
      end
  end.

(** Modelled from the spec: [ao2_find(tps_singletons, key, flags)] with a
    key. *)
Definition ao2_find (key : string) (flags : Z) : St (option handle) :=
  c <- gets tps_singletons ;;
  match c with
  | None => ret None
  | Some buckets =>
      match tps_hash_cb (ArgKey key) flags with
      | None => fault
      | Some hash => bucket_find key flags (nth (bucket_index buckets hash) buckets [])
      end
  end.

(** Modelled from the spec: [ao2_link(tps_singletons, p)]; the object goes to
    the tail of its bucket and the container takes a reference.  The result
    says whether the object was linked. *)
Definition ao2_link (p : option handle) : St bool :=
  c <- gets tps_singletons ;;
  match c, p with
  | Some buckets, Some h =>
      ok <- ask_oracle ;;
      if ok then
        o <- load_tps p ;;
        match tps_hash_cb (ArgObj (user_data o)) OBJ_POINTER with
        | None => fault
        | Some hash =>
            modify (with_tps_singletons
                      (Some (alter (fun b => b ++ [h]) (bucket_index buckets hash) buckets))) ;;
            ao2_ref_tps p 1 ;;
            ret true
        end
      else ret false
  | _, _ => ret false
  end.

(** The list without the first occurrence of [h]. *)
Fixpoint remove_first (h : handle) (b : list handle) : list handle :=
  match b with
  | [] => []
  | x :: rest => if Pos.eqb x h then rest else x :: remove_first h rest
  end.

(** Modelled from the spec: [ao2_unlink(tps_singletons, p)]; the object is
    searched by address in its bucket, and when it is there it is removed and
    the reference of the container is released. *)
Definition ao2_unlink (p : option handle) : St unit :=
  c <- gets tps_singletons ;;
  match c, p with
  | Some buckets, Some h =>
      o <- load_tps p ;;
      match tps_hash_cb (ArgObj (user_data o)) OBJ_POINTER with
      | None => fault
      | Some hash =>
          let i := bucket_index buckets hash in
          if existsb (Pos.eqb h) (nth i buckets [])
          then modify (with_tps_singletons (Some (alter (remove_first h) i buckets))) ;;
               ao2_ref_tps p (-1) ;;
               ret tt
          else ret tt
      end
  | _, _ => ret tt
  end.

(** [ast_tps_init] (lines 234-248), without the registration of the CLI
    commands. *)
Definition ast_tps_init : St Z :=
  ok <- ask_oracle ;;
  if ok
  then modify (with_tps_singletons (Some (repeat [] (Z.to_nat TPS_MAX_BUCKETS)))) ;; ret 0
  else ret (-1).

(** ** Tasks *)

(** [tps_task_alloc] (lines 251-259); null when [ast_calloc] fails. *)
Definition tps_task_alloc (task_exe : task_callback) (d : Z) : St (option tps_task) :=
  ok <- ask_oracle ;;
  if ok
  then modify (fun s => with_task_envelopes (task_envelopes s + 1) s) ;;
       ret (Some {| execute := task_exe; datap := d |})
  else ret None.

(** [tps_task_free] (lines 262-268). *)
Definition tps_task_free (task : option tps_task) : St unit :=
  match task with
  | Some _ => modify (fun s => with_task_envelopes (task_envelopes s - 1) s)
  | None => ret tt
  end.

(** The call [t->execute(t->datap)]; the result is the status the callback
    returns. *)
Definition call_execute (t : tps_task) : St Z :=
  w <- gets world ;;
  let '(w', status) := execute t (datap t) w in
  modify (with_world w') ;;
  ret status.

(** ** The queue *)

(** The body of [tps_taskprocessor_pop] (lines 441-448), run under the lock. *)
Definition pop_locked (t : ast_taskprocessor) : option tps_task * ast_taskprocessor :=
  if shutting_down t then (None, t)
  else match tps_queue t with
       | task :: rest => (Some task, set_queue rest (to_long (tps_queue_size t - 1)) t)
       | [] => (None, t)
       end.

(** [tps_taskprocessor_pop] (lines 436-449). *)
Definition tps_taskprocessor_pop (p : option handle) : St (option tps_task) :=
  locked p pop_locked.

(** [tps_taskprocessor_depth] (lines 451-454), on the object the pointer
    refers to; the result is an [int]. *)
Definition tps_taskprocessor_depth (t : option ast_taskprocessor) : Z :=
  match t with
  | Some t => to_int (tps_queue_size t)
  | None => -1
  end.

(** [ast_taskprocessor_name] (lines 457-464). *)
Definition ast_taskprocessor_name (t : option ast_taskprocessor) : option string :=
  match t with
  | Some t => name t
  | None => None
  end.

(** The depth and the statistics of the processor at [h], as a caller that
    holds a reference reads them. *)
Definition depth_of (h : handle) (s : state) : Z :=
  tps_taskprocessor_depth (user_data <$> processors s !! h).

(** The section of [ast_taskprocessor_push] under the lock (lines 620-623);
    the result is [previous_size], an [int]. *)
Definition push_locked (task : tps_task) (t : ast_taskprocessor) : Z * ast_taskprocessor :=
  (to_int (tps_queue_size t),
   set_queue (tps_queue t ++ [task]) (to_long (tps_queue_size t + 1)) t).

(** The call of line 624, [tps->listener->callbacks->task_pushed]. *)
Definition notify_task_pushed (p : option handle) (previous_size : Z) : St unit :=
  o <- load_tps p ;;
  call_listener (listener (user_data o))
                (fun cbs d => task_pushed cbs d (if previous_size =? 0 then 1 else 0)).

(** [ast_taskprocessor_push] (lines 607-626).  The message of line 617 reads
    the name of the processor. *)
Definition ast_taskprocessor_push (p : option handle) (task_exe : option task_callback)
    (d : Z) : St Z :=
  match p, task_exe with
  | Some _, Some f =>
      t <- tps_task_alloc f d ;;
      match t with
      | None => load_tps p ;; ret (-1)
      | Some task =>
          previous_size <- locked p (push_locked task) ;;
          notify_task_pushed p previous_size ;;
          ret 0
      end
  | _, _ => ret (-1)
  end.

(** The section of [ast_taskprocessor_execute] under the lock
    (lines 641-649); the result is [size].  The comparison of line 645 is
    between an [int] and an [unsigned long], so [size] is converted. *)
Definition stats_locked (t : ast_taskprocessor) : Z * ast_taskprocessor :=
  let size := tps_taskprocessor_depth (Some t) in
  match stats t with
  | Some st =>
      let count := to_ulong (_tasks_processed_count st + 1) in
      let mx := if to_ulong size >? max_qsize st then to_ulong size else max_qsize st in
      (size, set_stats (Some {| max_qsize := mx; _tasks_processed_count := count |}) t)
  | None => (size, t)
  end.

(** The end of [ast_taskprocessor_execute] (lines 651-655). *)
Definition notify_emptied (p : option handle) (size : Z) : St Z :=
  if size =? 0
  then o <- load_tps p ;;
       call_listener (listener (user_data o)) emptied ;;
       ret 0
  else ret 1.

(** [ast_taskprocessor_execute] (lines 628-656). *)
Definition ast_taskprocessor_execute (p : option handle) : St Z :=
  t <- tps_taskprocessor_pop p ;;
  match t with
  | None => ret 0
  | Some task =>
      call_execute task ;;
      tps_task_free (Some task) ;;
      size <- locked p stats_locked ;;
      notify_emptied p size
  end.

(** ** Listeners and the registry *)

(** [listener_shutdown] (lines 473-478). *)
Definition listener_shutdown (l : option handle) : St unit :=
  call_listener l shutdown ;;
  o <- load_listener l ;;
  ao2_ref_tps (tps (user_data o)) (-1) ;;
  update_listener l (set_tps None).

(** [ast_taskprocessor_listener_alloc] (lines 480-496).  The last
    [ao2_cleanup_listener] of each branch is the one of [RAII_VAR]. *)
Definition ast_taskprocessor_listener_alloc (cbs : ast_taskprocessor_listener_callbacks)
  : St (option handle) :=
  l <- ao2_alloc_listener cbs ;;
  match l with
  | None => ret None
  | Some _ =>
      orc <- gets oracle ;;
      let '(d, orc') := alloc cbs orc in
      modify (with_oracle orc') ;;
      update_listener l (set_private_data d) ;;
      match d with
      | None => ao2_cleanup_listener l ;; ret None
      | Some _ =>
          ao2_ref_listener l 1 ;;
          ao2_cleanup_listener l ;;
          ret l
      end
  end.

(** The call [p->listener->callbacks->start(p->listener)] of line 568. *)
Definition call_start (l : option handle) : St Z :=
  o <- load_listener l ;;
  match private_data (user_data o) with
  | Some d =>
      orc <- gets oracle ;;
      let '((r, d'), orc') := start (callbacks (user_data o)) d orc in
      modify (with_oracle orc') ;;
      update_listener l (set_private_data (Some d')) ;;
      ret r
  | None => fault
  end.

(** [ast_taskprocessor_unreference] (lines 582-604); the result is the
    pointer it returns. *)
Definition ast_taskprocessor_unreference (p : option handle) : St (option handle) :=
  match p with
  | None => ret None
  | Some _ =>
      old <- ao2_ref_tps p (-1) ;;
      if old >? 3 then ret None
      else
        ao2_unlink p ;;
        o <- load_tps p ;;
        let l := listener (user_data o) in
        update_tps p (set_listener None) ;;
        listener_shutdown l ;;
        ao2_ref_listener l (-1) ;;
        ret None
  end.

(** [ast_taskprocessor_create_with_listener] (lines 537-579).  The
    [ao2_cleanup_tps] that ends each path after the allocation is the one of
    [RAII_VAR]. *)
Definition ast_taskprocessor_create_with_listener (nm : string) (l : option handle)
  : St (option handle) :=
  p <- ao2_alloc_tps ;;
  match p with
  | None => ret None
  | Some _ =>
      ok_stats <- ask_oracle ;;
      if ok_stats then
        update_tps p (set_stats (Some {| max_qsize := 0; _tasks_processed_count := 0 |})) ;;
        ok_name <- ask_oracle ;;
        if ok_name then
          update_tps p (set_name (Some nm)) ;;
          ao2_ref_listener l 1 ;;
          update_tps p (set_listener l) ;;
          ao2_ref_tps p 1 ;;
          update_listener l (set_tps p) ;;
          linked <- ao2_link p ;;
          if linked then
            o <- load_tps p ;;
            r <- call_start (listener (user_data o)) ;;
            if r =? 0 then
              ao2_ref_tps p 1 ;;
              ao2_cleanup_tps p ;;
              ret p
            else
              ast_taskprocessor_unreference p ;;
              ao2_cleanup_tps p ;;
              ret None
          else ao2_cleanup_tps p ;; ret None
        else ao2_ref_tps p (-1) ;; ao2_cleanup_tps p ;; ret None
      else ao2_cleanup_tps p ;; ret None
  end.

(** ** Drivers

    Callers of the two operations: a producer that pushes a list of tasks one
    after the other, and a consumer that calls [ast_taskprocessor_execute] a
    number of times. *)

Fixpoint push_all (p : option handle) (ts : list tps_task) : St (list Z) :=
  match ts with
  | [] => ret []
  | t :: rest =>
      r <- ast_taskprocessor_push p (Some (execute t)) (datap t) ;;
      rs <- push_all p rest ;;
      ret (r :: rs)
  end.

Fixpoint execute_times (n : nat) (p : option handle) : St (list Z) :=
  match n with
  | O => ret []
  | S n' =>
      r <- ast_taskprocessor_execute p ;;
      rs <- execute_times n' p ;;
      ret (r :: rs)
  end.

(** The effect of running the callbacks of [ts] on the memory, first to
    last. *)
Definition run_callbacks (ts : list tps_task) (w : W) : W :=
  fold_left (fun w t => fst (execute t (datap t) w)) ts w.

(** ** States and runs the properties are about *)

(** The processor at [h] is live with contents [t], and it is bound to the
    live listener at [l], whose callbacks are [cbs] and whose private data is
    [d]. *)
Definition bound (s : state) (h : handle) (t : ast_taskprocessor) (l : handle)
    (cbs : ast_taskprocessor_listener_callbacks) (d : P) : Prop :=
  exists o lo,
    processors s !! h = Some o /\ user_data o = t /\ listener t = Some l /\
    listeners s !! l = Some lo /\ callbacks (user_data lo) = cbs /\
    private_data (user_data lo) = Some d.

(** A processor as [ast_taskprocessor_create_with_listener] leaves it: no
    task queued, no task processed, not shutting down. *)
Definition fresh (t : ast_taskprocessor) : Prop :=
  tps_queue t = [] /\ tps_queue_size t = 0 /\
  stats t = Some {| max_qsize := 0; _tasks_processed_count := 0 |} /\
  shutting_down t = false.

(** The environment lets the next [n] fallible calls succeed. *)
Definition granted (n : nat) (s : state) : Prop :=
  forallb (fun b => b) (firstn n (oracle s)) = true.

(** Every object linked in the container is a live processor with a name, as
    [ast_taskprocessor_create_with_listener] links them. *)
Definition container_ok (s : state) : Prop :=
  forall buckets bucket h,
    tps_singletons s = Some buckets -> In bucket buckets -> In h bucket ->
    exists o n, processors s !! h = Some o /\ name (user_data o) = Some n.

(** A processor is registered under [nm], whatever the case of the letters. *)
Definition registered (s : state) (nm : string) : Prop :=
  exists buckets bucket h o n,
    tps_singletons s = Some buckets /\ In bucket buckets /\ In h bucket /\
    processors s !! h = Some o /\ name (user_data o) = Some n /\
    strcasecmp n nm = 0.

(** The processor [o] at [h] is registered and served: it is linked in the
    bucket [i] of the container, the bucket of its name, it is bound to the
    listener [lo] at [l], and the listener refers back to it. *)
Definition served (s : state) (h l : handle) (o : ao2 ast_taskprocessor)
    (lo : ao2 ast_taskprocessor_listener) (d : P) (buckets : list (list handle))
    (i : nat) : Prop :=
  processors s !! h = Some o /\ listeners s !! l = Some lo /\
  listener (user_data o) = Some l /\ tps (user_data lo) = Some h /\
  private_data (user_data lo) = Some d /\
  tps_singletons s = Some buckets /\
  (exists n, name (user_data o) = Some n /\
             i = bucket_index buckets (ast_str_case_hash n)) /\
  In h (nth i buckets []).

(** The steps of concurrent callers of [ast_taskprocessor_push] and
    [ast_taskprocessor_execute] on the processor at [h].  A step is a piece of
    one of the two functions that runs without interruption: a section under
    the lock, or what a function does between two such sections.  The label
    says what the step did to the queue. *)
Inductive label : Type :=
  | PushSection
  | PopTask
  | PopNothing
  | StatsSection
  | Unlocked.

Inductive step (h : handle) : label -> state -> state -> Prop :=
  | step_alloc f d t s s' :
      tps_task_alloc f d s = Some (t, s') -> step h Unlocked s s'
  | step_push task previous_size s s' :
      locked (Some h) (push_locked task) s = Some (previous_size, s') ->
      step h PushSection s s'
  | step_task_pushed previous_size s s' :
      notify_task_pushed (Some h) previous_size s = Some (tt, s') ->
      step h Unlocked s s'
  | step_pop task s s' :
      tps_taskprocessor_pop (Some h) s = Some (Some task, s') ->
      step h PopTask s s'
  | step_pop_nothing s s' :
      tps_taskprocessor_pop (Some h) s = Some (None, s') ->
      step h PopNothing s s'
  | step_callback task status s s' :
      call_execute task s = Some (status, s') -> step h Unlocked s s'
  | step_free task s s' :
      tps_task_free task s = Some (tt, s') -> step h Unlocked s s'
  | step_stats size s s' :
      locked (Some h) stats_locked s = Some (size, s') ->
      step h StatsSection s s'
  | step_emptied size r s s' :
      notify_emptied (Some h) size s = Some (r, s') -> step h Unlocked s s'.

(** A run: the labels of its steps, first to last. *)
Inductive steps (h : handle) : list label -> state -> state -> Prop :=
  | steps_nil s : steps h [] s s
  | steps_snoc ls lb s s' s'' :
      steps h ls s s' -> step h lb s' s'' -> steps h (ls ++ [lb]) s s''.

Definition label_eqb (a b : label) : bool :=
  match a, b with
  | PushSection, PushSection
  | PopTask, PopTask
  | PopNothing, PopNothing
  | StatsSection, StatsSection
  | Unlocked, Unlocked => true
  | _, _ => false
  end.

Fixpoint count_label (lb : label) (ls : list label) : nat :=
  match ls with
  | [] => O
  | x :: rest => ((if label_eqb x lb then 1 else 0) + count_label lb rest)%nat
  end.

Definition completed (ls : list label) : Z := Z.of_nat (count_label StatsSection ls).

(** One call of a function of the file that works on the objects of the
    system, or one step of such a call. *)
Inductive call : state -> state -> Prop :=
  | call_step h lb s s' :
      step h lb s s' -> call s s'
  | call_push p f d r s s' :
      ast_taskprocessor_push p f d s = Some (r, s') -> call s s'
  | call_execute_one p r s s' :
      ast_taskprocessor_execute p s = Some (r, s') -> call s s'
  | call_unreference p r s s' :
      ast_taskprocessor_unreference p s = Some (r, s') -> call s s'
  | call_listener_alloc cbs r s s' :
      ast_taskprocessor_listener_alloc cbs s = Some (r, s') -> call s s'
  | call_create_with_listener nm l r s s' :
      ast_taskprocessor_create_with_listener nm l s = Some (r, s') -> call s s'
  | call_tps_init r s s' :
      ast_tps_init s = Some (r, s') -> call s s'.

(** Between [s] and [s'] no processor that was allocated in [s] had its flag
    changed: a processor of [s'] at an address the allocator had handed out
    in [s] is a processor of [s] with the same flag. *)
Definition flags_kept (s s' : state) : Prop :=
  (next_handle s <= next_handle s')%positive /\
  forall h o',
    (h < next_handle s)%positive ->
    processors s' !! h = Some o' ->
    exists o, processors s !! h = Some o /\
              shutting_down (user_data o') = shutting_down (user_data o).

(** A computation that keeps the flags, from whatever state it runs. *)
Definition respects {A : Type} (m : St A) : Prop :=
  forall s a s', m s = Some (a, s') -> flags_kept s s'.

End Taskprocessor.

(** ** The default listener *)

(** [struct default_taskprocessor_listener_pvt].  [poll_thread] says whether
    the field holds a worker thread ([false] is [AST_PTHREADT_NULL]); the
    mutex and the condition variable have no state of their own. *)
Record default_taskprocessor_listener_pvt : Type := {
  poll_thread : bool;
  wake_up : Z;
  dead : Z
}.

(** [default_tps_wake_up] (lines 129-135). *)
Definition default_tps_wake_up (pvt : default_taskprocessor_listener_pvt) (should_die : Z)
  : default_taskprocessor_listener_pvt :=
  {| poll_thread := poll_thread pvt; wake_up := 1; dead := should_die |}.

(** [default_tps_idle] (lines 137-145); [None] while the worker waits on the
    condition variable. *)
Definition default_tps_idle (pvt : default_taskprocessor_listener_pvt)
  : option (Z * default_taskprocessor_listener_pvt) :=
  if wake_up pvt =? 0 then None
  else Some (dead pvt, {| poll_thread := poll_thread pvt; wake_up := 0; dead := dead pvt |}).

(** [default_listener_alloc] (lines 163-175). *)
Definition default_listener_alloc (orc : list bool)
  : option default_taskprocessor_listener_pvt * list bool :=
  let fresh := {| poll_thread := false; wake_up := 0; dead := 0 |} in
  match orc with
  | [] => (Some fresh, [])
  | ok :: rest => (if ok then Some fresh else None, rest)
  end.

(** [default_listener_start] (lines 177-186); the environment says whether
    [ast_pthread_create] succeeds. *)
Definition default_listener_start (pvt : default_taskprocessor_listener_pvt)
    (orc : list bool) : (Z * default_taskprocessor_listener_pvt) * list bool :=
  let started := {| poll_thread := true; wake_up := wake_up pvt; dead := dead pvt |} in
  match orc with
  | [] => ((0, started), [])
  | ok :: rest => (if ok then (0, started) else (-1, pvt), rest)
  end.

(** [default_task_pushed] (lines 188-195). *)
Definition default_task_pushed (pvt : default_taskprocessor_listener_pvt) (was_empty : Z)
  : default_taskprocessor_listener_pvt :=
  if was_empty =? 0 then pvt else default_tps_wake_up pvt 0.

(** [default_emptied] (lines 197-200). *)
Definition default_emptied (pvt : default_taskprocessor_listener_pvt)
  : default_taskprocessor_listener_pvt := pvt.

(** [default_listener_shutdown] (lines 202-208).  The call wakes the worker
    with the order to die and waits for it in [pthread_join]; the result is
    the private data as the call leaves it, and [None] when the call does not
    return.  [pthread_join] reads through [pvt->poll_thread]: on
    [AST_PTHREADT_NULL], a thread that was never created, it faults.  On a
    thread it returns when the worker has left [tps_processing_function],
    which the worker does from [default_tps_idle], where it takes the wake-up
    and finds [dead] set.  The tasks a worker that is not idle runs before it
    gets there are no part of the private data. *)
Definition default_listener_shutdown (pvt : default_taskprocessor_listener_pvt)
  : option default_taskprocessor_listener_pvt :=
  let woken := default_tps_wake_up pvt 1 in
  if poll_thread woken then
    match default_tps_idle woken with
    | Some (is_dead, taken) =>
        if is_dead =? 0 then None
        else Some {| poll_thread := false; wake_up := wake_up taken; dead := dead taken |}
    | None => None
    end
  else None.

(** [default_listener_destroy] (lines 210-216). *)
Definition default_listener_destroy (pvt : default_taskprocessor_listener_pvt) : unit := tt.

(** [default_listener_callbacks] (lines 218-225).  The entries of the table
    are functions of the private data.  The entry for [shutdown] is
    [default_listener_shutdown] where that call returns; where it does not
    return, the entry leaves the private data as the wake-up left it, and a
    release that goes through such a call is outside the model. *)
Definition default_listener_callbacks
  : @ast_taskprocessor_listener_callbacks default_taskprocessor_listener_pvt :=
  {| alloc := default_listener_alloc;
     start := default_listener_start;
     task_pushed := default_task_pushed;
     emptied := default_emptied;
     shutdown := fun pvt => match default_listener_shutdown pvt with
                            | Some joined => joined
                            | None => default_tps_wake_up pvt 1
                            end;
     destroy := default_listener_destroy |}.

Section Registry.

Context {W : Type}.
Variable ast_str_case_hash : string -> Z.

(** [ast_taskprocessor_get] (lines 501-535).  [ao2_unlock] on the container
    (line 512) changes nothing in the state. *)
Definition ast_taskprocessor_get (nm : option string) (create : Z)
  : @St W default_taskprocessor_listener_pvt (option handle) :=
  match nm with
  | Some n =>
      if ast_strlen_zero nm then ret None
      else
        p <- ao2_find ast_str_case_hash n OBJ_KEY ;;
        match p with
        | Some _ => ret p
        | None =>
            if Z.land create TPS_REF_IF_EXISTS =? 0 then
              l <- ast_taskprocessor_listener_alloc default_listener_callbacks ;;
              match l with
              | None => ret None
              | Some _ =>
                  p <- ast_taskprocessor_create_with_listener ast_str_case_hash n l ;;
                  match p with
                  | None => ao2_ref_listener l (-1) ;; ret None
                  | Some _ => ao2_ref_listener l (-1) ;; ret p
                  end
              end
            else ret None
        end
  | None => ret None
  end.

(** How a run of the worker thread ended: it left its loop, it waits on the
    condition variable, or it was still in the loop when the run was cut. *)
Inductive worker : Type :=
  | WorkerExited
  | WorkerWaiting
  | WorkerRunning.

(** The loop of [tps_processing_function] (lines 155-159), cut after [fuel]
    iterations; [p] is the local variable [tps]. *)
Fixpoint worker_loop (fuel : nat) (p l : option handle)
  : @St W default_taskprocessor_listener_pvt worker :=
  match fuel with
  | O => ret WorkerRunning
  | S fuel' =>
      r <- ast_taskprocessor_execute p ;;
      if r =? 0 then
        lo <- load_listener l ;;
        match private_data (user_data lo) with
        | Some pvt =>
            match default_tps_idle pvt with
            | Some (is_dead, pvt') =>
                update_listener l (set_private_data (Some pvt')) ;;
                if is_dead =? 0 then worker_loop fuel' p l else ret WorkerExited
            | None => ret WorkerWaiting
            end
        | None => fault
        end
      else worker_loop fuel' p l
  end.

(** [tps_processing_function] (lines 148-161), the worker of the default
    listener [l]. *)
Definition tps_processing_function (fuel : nat) (l : option handle)
  : @St W default_taskprocessor_listener_pvt worker :=
  lo <- load_listener l ;;
  worker_loop fuel (tps (user_data lo)) l.

End Registry.

(** ** A concrete system

    A processor named "x" with the default listener, and tasks that append
    their data to a log. *)

(** A hash that does not look at the case of the letters. *)
Definition length_hash (s : string) : Z := Z.of_nat (String.length s).

Definition log_callback (status : Z) : @task_callback (list Z) :=
  fun d w => (w ++ [d], status).

Definition log_task (n : Z) : @tps_task (list Z) :=
  {| execute := log_callback 0; datap := n |}.

Definition empty_state : @state (list Z) default_taskprocessor_listener_pvt :=
  {| processors := ∅; listeners := ∅; next_handle := 1%positive;
     tps_singletons := None; task_envelopes := 0; world := []; oracle := [] |}.

(** The processor "x" as [ast_taskprocessor_get] creates it: the caller, the
    container and the listener hold one reference each. *)
Definition x_processor : @ast_taskprocessor (list Z) :=
  {| name := Some "x"%string;
     stats := Some {| max_qsize := 0; _tasks_processed_count := 0 |};
     tps_queue_size := 0; tps_queue := [];
     listener := Some 1%positive; shutting_down := false |}.

Definition x_pvt : default_taskprocessor_listener_pvt :=
  {| poll_thread := true; wake_up := 0; dead := 0 |}.

(** The system with the processor "x" at address 2 and its listener at
    address 1. *)
Definition x_system (t : @ast_taskprocessor (list Z))
    (pvt : default_taskprocessor_listener_pvt) (envelopes : Z) (w : list Z)
    (orc : list bool) : @state (list Z) default_taskprocessor_listener_pvt :=
  {| processors := {[ 2%positive := {| ref_counter := 3; user_data := t |} ]};
     listeners :=
       {[ 1%positive :=
            {| ref_counter := 1;
               user_data := {| callbacks := default_listener_callbacks;
                               tps := Some 2%positive;
                               private_data := Some pvt |} |} ]};
     next_handle := 3%positive;
     tps_singletons := Some [[]; [2%positive]; []; []; []; []; []];
     task_envelopes := envelopes; world := w; oracle := orc |}.

Definition x_state : @state (list Z) default_taskprocessor_listener_pvt :=
  x_system x_processor x_pvt 0 [] [].

(** The processor "x" with the tasks [ts] queued. *)
Definition x_queued (ts : list (@tps_task (list Z))) : @ast_taskprocessor (list Z) :=
  {| name := Some "x"%string;
     stats := Some {| max_qsize := 0; _tasks_processed_count := 0 |};
     tps_queue_size := Z.of_nat (length ts); tps_queue := ts;
     listener := Some 1%positive; shutting_down := false |}.

Definition x_woken : default_taskprocessor_listener_pvt :=
  {| poll_thread := true; wake_up := 1; dead := 0 |}.

(** The state after one task has been pushed onto the fresh processor. *)
Definition x_state_one : @state (list Z) default_taskprocessor_listener_pvt :=
  x_system (x_queued [log_task 10]) x_woken 1 [] [].

(** The processor "x" with one task queued and the flag set. *)
Definition x_shutting_down : @ast_taskprocessor (list Z) :=
  {| name := Some "x"%string;
     stats := Some {| max_qsize := 0; _tasks_processed_count := 0 |};
     tps_queue_size := 1; tps_queue := [log_task 10];
     listener := Some 1%positive; shutting_down := true |}.

Definition x_state_shutting_down : @state (list Z) default_taskprocessor_listener_pvt :=
  x_system x_shutting_down x_woken 1 [] [].

(** ** Runs with their tasks, and sequences of calls *)

Section Runs.

Context {W P : Type}.

(** A run of steps on the processor at [h], with the tasks its push
    sections appended and the tasks its pops returned, both in the order of
    the steps. *)
Inductive trace (h : handle)
  : list (@tps_task W) -> list (@tps_task W) -> @state W P -> @state W P -> Prop :=
  | trace_nil s : trace h [] [] s s
  | trace_push pushed popped task previous_size s s' s'' :
      trace h pushed popped s s' ->
      locked (Some h) (push_locked task) s' = Some (previous_size, s'') ->
      trace h (pushed ++ [task]) popped s s''
  | trace_pop pushed popped task s s' s'' :
      trace h pushed popped s s' ->
      tps_taskprocessor_pop (Some h) s' = Some (Some task, s'') ->
      trace h pushed (popped ++ [task]) s s''
  | trace_other pushed popped lb s s' s'' :
      trace h pushed popped s s' ->
      step h lb s' s'' -> lb <> PushSection -> lb <> PopTask ->
      trace h pushed popped s s''.

(** A call of one of the two operations on a processor. *)
Inductive op : Type :=
  | OpPush (task_exe : option (@task_callback W)) (d : Z)
  | OpExecute.

(** A caller that makes the calls [ops] one after the other; the result is
    the list of the values they return. *)
Fixpoint run_ops (p : option handle) (ops : list op) : @St W P (list Z) :=
  match ops with
  | [] => ret []
  | OpPush task_exe d :: rest =>
      r <- ast_taskprocessor_push p task_exe d ;;
      rs <- run_ops p rest ;;
      ret (r :: rs)
  | OpExecute :: rest =>
      r <- ast_taskprocessor_execute p ;;
      rs <- run_ops p rest ;;
      ret (r :: rs)
  end.

End Runs.

(** The processor "x" after its one task has been executed, and the state
    then. *)
Definition x_done : @ast_taskprocessor (list Z) :=
  {| name := Some "x"%string;
     stats := Some {| max_qsize := 0; _tasks_processed_count := 1 |};
     tps_queue_size := 0; tps_queue := [];
     listener := Some 1%positive; shutting_down := false |}.

Definition x_state_done : @state (list Z) default_taskprocessor_listener_pvt :=
  x_system x_done x_woken 0 [10] [].

(** The labels of a push followed by an execution that finds a task. *)
Definition push_then_execute : list label :=
  [Unlocked; PushSection; Unlocked; PopTask; Unlocked; Unlocked; StatsSection; Unlocked].

(** A caller of "x": a push, two executions and a push without a callback. *)
Definition x_calls : list (@op (list Z)) :=
  [OpPush (Some (log_callback 0)) 10; OpExecute; OpExecute; OpPush None 0].

(** Reading the fields of a state or of an object that is written out. *)
Ltac fields :=
  cbn [processors listeners next_handle tps_singletons task_envelopes world oracle
       with_processors with_listeners with_next_handle with_tps_singletons
       with_task_envelopes with_world with_oracle
       ref_counter user_data set_ref_counter set_user_data
       name stats tps_queue_size tps_queue listener shutting_down
       set_name set_stats set_queue set_listener zeroed_taskprocessor
       callbacks tps private_data set_tps set_private_data
       fst snd ret modify gets].

(** ** Completion of a processor name on the command line *)

(** [strncasecmp] of the C library: as [strcasecmp], on the first [n]
    characters at most. *)
Fixpoint strncasecmp (a b : string) (n : nat) : Z :=
  match n with
  | O => 0
  | S n' =>
      match a, b with
      | EmptyString, EmptyString => 0
      | EmptyString, String d _ => - Z.of_nat (nat_of_ascii (tolower d))
      | String c _, EmptyString => Z.of_nat (nat_of_ascii (tolower c))
      | String c a', String d b' =>
          if Ascii.eqb (tolower c) (tolower d) then strncasecmp a' b' n'
          else Z.of_nat (nat_of_ascii (tolower c)) - Z.of_nat (nat_of_ascii (tolower d))
      end
  end.

Section Cli.

Context {W P : Type}.

(** Modelled from the spec: the objects that [ao2_iterator_next] hands out
    for the container, one call after the other: those of the first bucket in
    the order they were linked, then those of the second bucket, and so on. *)
Definition ao2_iterator_objects (c : option (list (list handle))) : list handle :=
  match c with
  | Some buckets => concat buckets
  | None => []
  end.

(** The loop of [tps_taskprocessor_tab_complete] (lines 283-290) over the
    objects the iterator has left; [ao2_iterator_next] hands out each object
    with one more reference.  [n] is [a->n]. *)
Fixpoint tab_complete_loop (word : string) (tklen : Z) (n : Z) (wordnum : Z)
    (objs : list handle) : @St W P (option string) :=
  match objs with
  | [] => ret None
  | h :: rest =>
      ao2_ref_tps (Some h) 1 ;;
      o <- load_tps (Some h) ;;
      match name (user_data o) with
      | None => fault
      | Some nm =>
          if strncasecmp word nm (Z.to_nat (to_ulong tklen)) =? 0 then
            let wordnum' := to_int (wordnum + 1) in
            if wordnum' >? n then
              ok <- ask_oracle ;;
              ao2_ref_tps (Some h) (-1) ;;
              ret (if ok then Some nm else None)
            else
              ao2_ref_tps (Some h) (-1) ;;
              tab_complete_loop word tklen n wordnum' rest
          else
            ao2_ref_tps (Some h) (-1) ;;
            tab_complete_loop word tklen n wordnum rest
      end
  end.

(** [tps_taskprocessor_tab_complete] (lines 271-293); [pos], [word] and [n]
    are the fields of [a] the function reads.  The result is the string it
    returns, null when there is none. *)
Definition tps_taskprocessor_tab_complete (pos : Z) (word : string) (n : Z)
  : @St W P (option string) :=
  if pos =? 3 then
    let tklen := to_int (Z.of_nat (String.length word)) in
    c <- gets tps_singletons ;;
    tab_complete_loop word tklen n 0 (ao2_iterator_objects c)
  else ret None.

End Cli.

(** ** The report on the command line *)

(** Modelled from the spec: the commands a handler of the command line
    interface is called with, and the results it returns (the null pointer
    and the constants of the interface). *)
Inductive cli_command : Type :=
  | CLI_INIT
  | CLI_GENERATE
  | CLI_HANDLER.

Inductive cli_result : Type :=
  | CLI_NULL
  | CLI_SUCCESS
  | CLI_SHOWUSAGE
  | CLI_FAILURE.

(** What [cli_tps_report] hands to [ast_cli], call by call: the header, one
    row for a processor with its name and the three numbers, and the footer
    with the number of processors. *)
Inductive report_line : Type :=
  | ReportHeader
  | ReportRow (name : string) (processed qsize maxqsize : Z)
  | ReportFooter (tcount : Z).

(** Modelled from the spec: [ast_copy_string], which copies at most
    [size - 1] characters. *)
Definition ast_copy_string (src : string) (size : nat) : string :=
  String.substring 0 (size - 1) src.

Section Report.

Context {W P : Type}.

(** The body of the loop of [cli_tps_report] (lines 377-382) for one
    processor; the three numbers are [unsigned long]. *)
Definition report_row (t : @ast_taskprocessor W) : option report_line :=
  match name t, stats t with
  | Some nm, Some st =>
      Some (ReportRow (ast_copy_string nm 256)
                      (_tasks_processed_count st)
                      (to_ulong (tps_queue_size t))
                      (max_qsize st))
  | _, _ => None
  end.

(** The loop of [cli_tps_report] (lines 376-383) over the objects the
    iterator has left. *)
Fixpoint report_loop (objs : list handle) : @St W P (list report_line) :=
  match objs with
  | [] => ret []
  | h :: rest =>
      ao2_ref_tps (Some h) 1 ;;
      o <- load_tps (Some h) ;;
      match report_row (user_data o) with
      | Some row =>
          ao2_ref_tps (Some h) (-1) ;;
          rows <- report_loop rest ;;
          ret (row :: rows)
      | None => fault
      end
  end.

(** [cli_tps_report] (lines 351-389); [argc] is [a->argc] and [args] is
    [e->args].  The result is the value the function returns with the lines
    it has handed to [ast_cli]; the strings it stores in [e] on [CLI_INIT]
    are left out.  [ao2_container_count] is the number of objects linked. *)
Definition cli_tps_report (cmd : cli_command) (argc args : Z)
  : @St W P (cli_result * list report_line) :=
  match cmd with
  | CLI_INIT => ret (CLI_NULL, [])
  | CLI_GENERATE => ret (CLI_NULL, [])
  | CLI_HANDLER =>
      if argc =? args then
        c <- gets tps_singletons ;;
        rows <- report_loop (ao2_iterator_objects c) ;;
        c' <- gets tps_singletons ;;
        let tcount := to_int (Z.of_nat (length (ao2_iterator_objects c'))) in
        ret (CLI_SUCCESS, ReportHeader :: rows ++ [ReportFooter tcount])
      else ret (CLI_SHOWUSAGE, [])
  end.

End Report.

(** The system of "x" with a second processor, named "X", linked after it in
    the same bucket: [ast_taskprocessor_create_with_listener] links a
    processor without a look at the names that are registered. *)
Definition x_twin : @ast_taskprocessor (list Z) :=
  {| name := Some "X"%string;
     stats := Some {| max_qsize := 0; _tasks_processed_count := 0 |};
     tps_queue_size := 0; tps_queue := [];
     listener := Some 3%positive; shutting_down := false |}.

Definition x_twins : @state (list Z) default_taskprocessor_listener_pvt :=
  {| processors := {[ 2%positive := {| ref_counter := 3; user_data := x_processor |};
                      4%positive := {| ref_counter := 3; user_data := x_twin |} ]};
     listeners :=
       {[ 1%positive :=
            {| ref_counter := 1;
               user_data := {| callbacks := default_listener_callbacks;
                               tps := Some 2%positive;
                               private_data := Some x_pvt |} |};
          3%positive :=
            {| ref_counter := 1;
               user_data := {| callbacks := default_listener_callbacks;
                               tps := Some 4%positive;
                               private_data := Some x_pvt |} |} ]};
     next_handle := 5%positive;
     tps_singletons := Some [[]; [2%positive; 4%positive]; []; []; []; []; []];
     task_envelopes := 0; world := []; oracle := [] |}.

(** ** A listener of a user

    A listener as a user of [ast_taskprocessor_create_with_listener] may
    supply one: its private data is a number that every callback changes in
    its own way, so that the number tells which callbacks have run; [alloc]
    and [start] ask the environment whether they succeed. *)
Definition counting_callbacks : @ast_taskprocessor_listener_callbacks Z :=
  {| alloc := fun orc => (if hd true orc then Some 0 else None, tl orc);
     start := fun d orc => (if hd true orc then (0, d + 1) else (-1, d), tl orc);
     task_pushed := fun d _ => d + 10;
     emptied := fun d => d + 100;
     shutdown := fun d => d + 1000;
     destroy := fun _ => tt |}.

(** The system after [ast_tps_init], with no processor and no listener, and
    the same system with a listener of the user at address 1. *)
Definition y_state (orc : list bool) : @state (list Z) Z :=
  {| processors := ∅; listeners := ∅; next_handle := 1%positive;
     tps_singletons := Some [[]; []; []; []; []; []; []];
     task_envelopes := 0; world := []; oracle := orc |}.

Definition y_listener : ao2 (@ast_taskprocessor_listener Z) :=
  {| ref_counter := 1;
     user_data := {| callbacks := counting_callbacks; tps := None;
                     private_data := Some 0 |} |}.

Definition y_listening (orc : list bool) : @state (list Z) Z :=
  {| processors := ∅; listeners := {[ 1%positive := y_listener ]};
     next_handle := 2%positive;
     tps_singletons := Some [[]; []; []; []; []; []; []];
     task_envelopes := 0; world := []; oracle := orc |}.

(** * Properties *)

Section Properties.

Context {W P : Type}.
Variable ast_str_case_hash : string -> Z.

Abbreviation state := (@state W P).
Abbreviation St := (@St W P).
Abbreviation tps_task := (@tps_task W).
Abbreviation ast_taskprocessor := (@ast_taskprocessor W).
Abbreviation task_callback := (@task_callback W).

(** ** Running the monad *)

Lemma bind_eq {A B : Type} (m : St A) (k : A -> St B) (s s1 : state) (a : A) :
  m s = Some (a, s1) -> bind m k s = k a s1.
Proof. intros H. unfold bind. now rewrite H. Qed.

Lemma bind_inv {A B : Type} (m : St A) (k : A -> St B) (s s' : state) (b : B) :
  bind m k s = Some (b, s') ->
  exists a s1, m s = Some (a, s1) /\ k a s1 = Some (b, s').
Proof.
  unfold bind. destruct (m s) as [[a s1]|]; [|discriminate].
  intros H. now exists a, s1.
Qed.

Lemma with_oracle_id (s : state) : with_oracle (oracle s) s = s.
Proof. now destruct s. Qed.

Lemma locked_eq {A : Type} (h : handle) (f : ast_taskprocessor -> A * ast_taskprocessor)
    (s : state) (o : ao2 ast_taskprocessor) :
  processors s !! h = Some o ->
  locked (Some h) f s =
  Some (fst (f (user_data o)),
        with_processors (<[h := set_user_data (snd (f (user_data o))) o]> (processors s)) s).
Proof.
  intros H. unfold locked, bind, load_tps. rewrite H.
  destruct (f (user_data o)) as [a t]. reflexivity.
Qed.

Lemma locked_inv {A : Type} (h : handle) (f : ast_taskprocessor -> A * ast_taskprocessor)
    (s s' : state) (a : A) :
  locked (Some h) f s = Some (a, s') ->
  exists o, processors s !! h = Some o /\ a = fst (f (user_data o)) /\
    s' = with_processors (<[h := set_user_data (snd (f (user_data o))) o]> (processors s)) s.
Proof.
  intros H. destruct (processors s !! h) as [o|] eqn:E.
  - rewrite (locked_eq h f s o E) in H. injection H as <- <-. now exists o.
  - unfold locked, bind, load_tps in H. now rewrite E in H.
Qed.

Lemma update_tps_eq (h : handle) (g : ast_taskprocessor -> ast_taskprocessor)
    (s : state) (o : ao2 ast_taskprocessor) :
  processors s !! h = Some o ->
  update_tps (Some h) g s =
  Some (tt, with_processors (<[h := set_user_data (g (user_data o)) o]> (processors s)) s).
Proof. intros H. unfold update_tps. now rewrite (locked_eq _ _ _ _ H). Qed.

Lemma update_listener_eq (l : handle)
    (g : ast_taskprocessor_listener -> ast_taskprocessor_listener) (s : state)
    (lo : ao2 ast_taskprocessor_listener) :
  listeners s !! l = Some lo ->
  update_listener (Some l) g s =
  Some (tt, with_listeners (<[l := set_user_data (g (user_data lo)) lo]> (listeners s)) s).
Proof. intros H. unfold update_listener, bind, load_listener. now rewrite H. Qed.

Lemma call_listener_eq (l : handle)
    (f : ast_taskprocessor_listener_callbacks -> P -> P) (s : state)
    (lo : ao2 ast_taskprocessor_listener) (d : P) :
  listeners s !! l = Some lo ->
  private_data (user_data lo) = Some d ->
  call_listener (Some l) f s =
  Some (tt, with_listeners
              (<[l := set_user_data
                        (set_private_data (Some (f (callbacks (user_data lo)) d))
                                          (user_data lo)) lo]> (listeners s)) s).
Proof.
  intros H Hd. unfold call_listener, bind, load_listener. rewrite H, Hd. reflexivity.
Qed.

(** ** The two operations on a bound processor *)

Lemma bound_push (s : state) (h l : handle) (t : ast_taskprocessor)
    (cbs : ast_taskprocessor_listener_callbacks) (d : P) (f : task_callback) (x : Z) :
  bound s h t l cbs d ->
  hd true (oracle s) = true ->
  let task := {| execute := f; datap := x |} in
  exists s',
    ast_taskprocessor_push (Some h) (Some f) x s = Some (0, s') /\
    bound s' h (snd (push_locked task t)) l cbs
          (task_pushed cbs d (if fst (push_locked task t) =? 0 then 1 else 0)) /\
    world s' = world s /\
    task_envelopes s' = task_envelopes s + 1 /\
    oracle s' = tl (oracle s).
Proof.
  intros (o & lo & Ho & Ht & Hl & Hlo & Hcbs & Hd) Hok task. subst t cbs.
  unfold ast_taskprocessor_push, tps_task_alloc.
  unfold bind at 1. unfold bind at 1. unfold ask_oracle. rewrite Hok.
  cbn [modify bind ret].
  erewrite bind_eq; [|apply locked_eq; cbn; exact Ho].
  unfold notify_task_pushed, bind, load_tps. cbn.
  rewrite lookup_insert_eq. cbn. rewrite Hl.
  erewrite call_listener_eq; [|cbn; exact Hlo|exact Hd].
  eexists. split; [reflexivity|]. cbn.
  split; [|auto].
  eexists _, _. cbn. rewrite !lookup_insert_eq.
  repeat split; auto.
Qed.

Lemma store_same (s : state) (h : handle) (o : ao2 ast_taskprocessor) :
  processors s !! h = Some o ->
  with_processors (<[h := set_user_data (user_data o) o]> (processors s)) s = s.
Proof.
  intros H. destruct s, o; cbn in *. unfold with_processors, set_user_data; cbn.
  f_equal. now apply insert_id.
Qed.

Lemma bound_pop (s : state) (h l : handle) (t : ast_taskprocessor)
    (cbs : ast_taskprocessor_listener_callbacks) (d : P) :
  bound s h t l cbs d ->
  exists s',
    tps_taskprocessor_pop (Some h) s = Some (fst (pop_locked t), s') /\
    bound s' h (snd (pop_locked t)) l cbs d /\
    listener (snd (pop_locked t)) = Some l /\
    world s' = world s /\
    task_envelopes s' = task_envelopes s /\
    oracle s' = oracle s.
Proof.
  intros (o & lo & Ho & Ht & Hl & Hlo & Hcbs & Hd). subst t cbs.
  unfold tps_taskprocessor_pop. rewrite (locked_eq _ _ _ _ Ho).
  eexists. split; [reflexivity|]. cbn.
  assert (Hl' : listener (snd (pop_locked (user_data o))) = Some l).
  { unfold pop_locked. destruct (shutting_down _); [exact Hl|].
    destruct (tps_queue _); exact Hl. }
  split; [|auto].
  eexists _, lo. cbn. rewrite lookup_insert_eq. repeat split; auto.
Qed.

Lemma bound_stats (s : state) (h l : handle) (t : ast_taskprocessor)
    (cbs : ast_taskprocessor_listener_callbacks) (d : P) :
  bound s h t l cbs d ->
  exists s',
    locked (Some h) stats_locked s = Some (fst (stats_locked t), s') /\
    bound s' h (snd (stats_locked t)) l cbs d /\
    world s' = world s /\
    task_envelopes s' = task_envelopes s /\
    oracle s' = oracle s.
Proof.
  intros (o & lo & Ho & Ht & Hl & Hlo & Hcbs & Hd). subst t cbs.
  rewrite (locked_eq _ _ _ _ Ho).
  eexists. split; [reflexivity|]. cbn.
  split; [|auto].
  eexists _, lo. cbn. rewrite lookup_insert_eq. repeat split; auto.
  unfold stats_locked. destruct (stats _); exact Hl.
Qed.

Lemma bound_emptied (s : state) (h l : handle) (t : ast_taskprocessor)
    (cbs : ast_taskprocessor_listener_callbacks) (d : P) (size : Z) :
  bound s h t l cbs d ->
  exists s',
    notify_emptied (Some h) size s = Some (if size =? 0 then 0 else 1, s') /\
    bound s' h t l cbs (if size =? 0 then emptied cbs d else d) /\
    world s' = world s /\
    task_envelopes s' = task_envelopes s /\
    oracle s' = oracle s.
Proof.
  intros Hb. unfold notify_emptied. destruct (size =? 0).
  - destruct Hb as (o & lo & Ho & Ht & Hl & Hlo & Hcbs & Hd). subst t cbs.
    unfold bind, load_tps. rewrite Ho, Hl.
    rewrite (call_listener_eq _ _ _ _ _ Hlo Hd).
    eexists. split; [reflexivity|]. cbn. split; [|auto].
    eexists o, _. cbn. rewrite lookup_insert_eq. repeat split; auto.
  - exists s. repeat split; auto.
Qed.

(** What one call of [ast_taskprocessor_execute] does to a bound processor. *)
Lemma bound_execute (s : state) (h l : handle) (t : ast_taskprocessor)
    (cbs : ast_taskprocessor_listener_callbacks) (d : P) :
  bound s h t l cbs d ->
  match pop_locked t with
  | (None, _) => ast_taskprocessor_execute (Some h) s = Some (0, s)
  | (Some task, t1) =>
      let size := fst (stats_locked t1) in
      exists s',
        ast_taskprocessor_execute (Some h) s = Some (if size =? 0 then 0 else 1, s') /\
        bound s' h (snd (stats_locked t1)) l cbs (if size =? 0 then emptied cbs d else d) /\
        world s' = fst (execute task (datap task) (world s)) /\
        task_envelopes s' = task_envelopes s - 1 /\
        oracle s' = oracle s
  end.
Proof.
  intros Hb. destruct (bound_pop _ _ _ _ _ _ Hb) as (s1 & Hpop & Hb1 & _ & Hw1 & He1 & Ho1).
  unfold ast_taskprocessor_execute.
  destruct (pop_locked t) as [[task|] t1] eqn:E; cbn [fst snd] in *.
  - cbn zeta.
    rewrite (bind_eq _ _ _ _ _ Hpop).
    unfold call_execute, tps_task_free.
    unfold bind at 1. unfold bind at 1. unfold gets.
    destruct (execute task (datap task) (world s1)) as [w' status] eqn:Ex.
    cbn [modify bind ret].
    set (s2 := with_task_envelopes _ _).
    assert (Hb2 : bound s2 h t1 l cbs d).
    { destruct Hb1 as (o & lo & ? & ? & ? & ? & ? & ?). now exists o, lo. }
    destruct (bound_stats _ _ _ _ _ _ Hb2) as (s3 & Hst & Hb3 & Hw3 & He3 & Ho3).
    rewrite (bind_eq _ _ _ _ _ Hst).
    destruct (bound_emptied _ _ _ _ _ _ (fst (stats_locked t1)) Hb3)
      as (s4 & Hem & Hb4 & Hw4 & He4 & Ho4).
    exists s4. rewrite Hem. split; [reflexivity|]. split; [exact Hb4|].
    rewrite Hw4, Hw3, He4, He3, Ho4, Ho3. subst s2. cbn.
    rewrite <- Hw1, Ex, He1, Ho1. auto.
  - rewrite (bind_eq _ _ _ _ _ Hpop). cbn.
    destruct Hb as (o & lo & Ho & Ht & _). subst t.
    unfold tps_taskprocessor_pop in Hpop. rewrite (locked_eq _ _ _ _ Ho) in Hpop.
    injection Hpop as _ <-.
    assert (Ht1 : snd (pop_locked (user_data o)) = user_data o).
    { unfold pop_locked in *. destruct (shutting_down _); [reflexivity|].
      destruct (tps_queue _); [reflexivity|discriminate]. }
    rewrite Ht1. unfold ret. now rewrite (store_same _ _ _ Ho).
Qed.

(** ** Runs of pushes and of executions *)

Lemma granted_S (n : nat) (s s' : state) :
  granted (S n) s -> oracle s' = tl (oracle s) ->
  hd true (oracle s) = true /\ granted n s'.
Proof.
  unfold granted. intros H E. rewrite E. destruct (oracle s) as [|b o]; cbn in *.
  - split; [reflexivity|]. now destruct n.
  - apply andb_prop in H. destruct H as [Hb H]. now split.
Qed.

(** The contents of a processor after the tasks [ts] have been pushed. *)
Lemma push_all_bound (ts : list tps_task) (s : state) (h l : handle)
    (t : ast_taskprocessor) (cbs : ast_taskprocessor_listener_callbacks) (d : P) :
  bound s h t l cbs d ->
  granted (length ts) s ->
  exists s' d',
    push_all (Some h) ts s = Some (repeat 0 (length ts), s') /\
    bound s' h (fold_left (fun t task => snd (push_locked task t)) ts t) l cbs d' /\
    world s' = world s /\
    task_envelopes s' = task_envelopes s + Z.of_nat (length ts) /\
    oracle s' = skipn (length ts) (oracle s).
Proof.
  revert s t d. induction ts as [|task ts IH]; intros s t d Hb Hg.
  - exists s, d. cbn. rewrite Z.add_0_r. now rewrite skipn_0.
  - cbn [push_all length].
    destruct (bound_push s h l t cbs d (execute task) (datap task) Hb)
      as (s1 & Hpush & Hb1 & Hw1 & He1 & Ho1).
    { now apply (granted_S (length ts) s (with_oracle (tl (oracle s)) s)). }
    assert (Hg1 : granted (length ts) s1) by (eapply granted_S; eauto).
    destruct (IH _ _ _ Hb1 Hg1) as (s2 & d2 & Hall & Hb2 & Hw2 & He2 & Ho2).
    exists s2, d2. rewrite (bind_eq _ _ _ _ _ Hpush), (bind_eq _ _ _ _ _ Hall).
    split; [reflexivity|]. destruct task as [f x]. cbn in *.
    split; [exact Hb2|]. rewrite Hw2, Hw1, He2, He1, Ho2, Ho1.
    split; [reflexivity|]. split; [lia|].
    destruct (oracle s); cbn; [now destruct (length ts)|reflexivity].
Qed.

Lemma pushed_queue (ts : list tps_task) (t : ast_taskprocessor) :
  let t' := fold_left (fun t task => snd (push_locked task t)) ts t in
  tps_queue t' = tps_queue t ++ ts /\
  shutting_down t' = shutting_down t /\
  stats t' = stats t /\
  listener t' = listener t /\
  name t' = name t.
Proof.
  revert t. induction ts as [|task ts IH]; intros t; cbn.
  - now rewrite app_nil_r.
  - destruct (IH (snd (push_locked task t))) as (Hq & Hs & Hst & Hl & Hn).
    cbn in *. rewrite Hq, Hs, Hst, Hl, Hn. now rewrite <- app_assoc.
Qed.


Lemma stats_locked_fields (t : ast_taskprocessor) :
  let t' := snd (stats_locked t) in
  tps_queue t' = tps_queue t /\
  tps_queue_size t' = tps_queue_size t /\
  shutting_down t' = shutting_down t /\
  listener t' = listener t /\
  name t' = name t.
Proof. unfold stats_locked. destruct (stats t); cbn; auto. Qed.

Lemma pop_locked_cons (t : ast_taskprocessor) (task : tps_task) (rest : list tps_task) :
  shutting_down t = false ->
  tps_queue t = task :: rest ->
  pop_locked t = (Some task, set_queue rest (to_long (tps_queue_size t - 1)) t).
Proof. intros Hs Hq. unfold pop_locked. now rewrite Hs, Hq. Qed.

(** The contents of a processor after [k] executions that each found a
    task. *)
Lemma executed_queue (k : nat) (t : ast_taskprocessor) :
  shutting_down t = false ->
  (k <= length (tps_queue t))%nat ->
  let t' := Nat.iter k (fun t => snd (stats_locked (snd (pop_locked t)))) t in
  tps_queue t' = skipn k (tps_queue t) /\
  shutting_down t' = false /\
  listener t' = listener t.
Proof.
  revert t. induction k as [|k IH]; intros t Hs Hk; [cbn; auto|].
  rewrite Nat.iter_succ_r.
  destruct (tps_queue t) as [|task rest] eqn:Hq; [cbn in Hk; lia|].
  rewrite (pop_locked_cons t task rest Hs Hq). cbn [snd].
  set (t1 := snd (stats_locked _)).
  destruct (stats_locked_fields (set_queue rest (to_long (tps_queue_size t - 1)) t))
    as (Hq1 & _ & Hs1 & Hl1 & _). fold t1 in Hq1, Hs1, Hl1. cbn in Hq1, Hs1, Hl1.
  destruct (IH t1) as (Hq2 & Hs2 & Hl2).
  - now rewrite Hs1.
  - rewrite Hq1. cbn in Hk. lia.
  - cbn zeta. rewrite Hq2, Hs2, Hl2, Hq1, Hl1. auto.
Qed.

Lemma execute_times_bound (k : nat) (s : state) (h l : handle) (t : ast_taskprocessor)
    (cbs : ast_taskprocessor_listener_callbacks) (d : P) :
  bound s h t l cbs d ->
  shutting_down t = false ->
  (k <= length (tps_queue t))%nat ->
  exists s' d' rs,
    execute_times k (Some h) s = Some (rs, s') /\
    length rs = k /\
    bound s' h (Nat.iter k (fun t => snd (stats_locked (snd (pop_locked t)))) t) l cbs d' /\
    world s' = run_callbacks (firstn k (tps_queue t)) (world s) /\
    task_envelopes s' = task_envelopes s - Z.of_nat k /\
    oracle s' = oracle s.
Proof.
  revert s t d. induction k as [|k IH]; intros s t d Hb Hs Hk.
  - exists s, d, []. cbn. rewrite Z.sub_0_r. repeat split; auto.
  - rewrite Nat.iter_succ_r. cbn [execute_times].
    destruct (tps_queue t) as [|task rest] eqn:Hq; [cbn in Hk; lia|].
    pose proof (bound_execute s h l t cbs d Hb) as Hex.
    rewrite (pop_locked_cons t task rest Hs Hq) in *. cbn [snd].
    cbn zeta in Hex. destruct Hex as (s1 & Hex & Hb1 & Hw1 & He1 & Ho1).
    set (t0 := set_queue rest (to_long (tps_queue_size t - 1)) t) in *.
    destruct (stats_locked_fields t0) as (Hq1 & _ & Hs1 & _).
    destruct (IH _ _ _ Hb1) as (s2 & d2 & rs & Hall & Hlen & Hb2 & Hw2 & He2 & Ho2).
    + now rewrite Hs1.
    + rewrite Hq1. cbn in *. lia.
    + exists s2, d2. eexists.
      rewrite (bind_eq _ _ _ _ _ Hex), (bind_eq _ _ _ _ _ Hall).
      split; [reflexivity|]. cbn [length]. split; [now rewrite Hlen|].
      split; [exact Hb2|]. rewrite Hw2, He2, Ho2, Hw1, He1, Ho1, Hq1.
      cbn. repeat split; lia.
Qed.

(** ** Order of execution *)

(** C1: after the tasks [ts] have been pushed onto a fresh processor, the
    first [k] calls of execute-one run the callbacks of the first [k] tasks,
    in the order of the pushes, and leave the other tasks queued in that
    order; the call number [length ts] empties the queue. *)
Theorem C1_execution_order_is_push_order (s : state) (h l : handle)
    (t : ast_taskprocessor) (cbs : ast_taskprocessor_listener_callbacks) (d : P)
    (ts : list tps_task) :
  bound s h t l cbs d ->
  fresh t ->
  granted (length ts) s ->
  exists s1,
    push_all (Some h) ts s = Some (repeat 0 (length ts), s1) /\
    forall k, (k <= length ts)%nat ->
      exists rs s2 t2 d2,
        execute_times k (Some h) s1 = Some (rs, s2) /\
        world s2 = run_callbacks (firstn k ts) (world s) /\
        bound s2 h t2 l cbs d2 /\
        tps_queue t2 = skipn k ts.
Proof.
  intros Hb (Hq & Hsz & Hst & Hsd) Hg.
  destruct (push_all_bound ts s h l t cbs d Hb Hg) as (s1 & d1 & Hpush & Hb1 & Hw1 & _).
  exists s1. split; [exact Hpush|]. intros k Hk.
  destruct (pushed_queue ts t) as (Hq1 & Hsd1 & _). cbn zeta in Hq1, Hsd1.
  rewrite Hq in Hq1. cbn in Hq1.
  set (t1 := fold_left _ ts t) in *.
  destruct (execute_times_bound k s1 h l t1 cbs d1 Hb1) as (s2 & d2 & rs & Hex & _ & Hb2 & Hw2 & _).
  - now rewrite Hsd1.
  - now rewrite Hq1.
  - exists rs, s2. eexists _, d2. split; [exact Hex|].
    split; [now rewrite Hw2, Hq1, Hw1|]. split; [exact Hb2|].
    destruct (executed_queue k t1) as (Hq2 & _); [now rewrite Hsd1|now rewrite Hq1|].
    cbn zeta in Hq2. now rewrite Hq2, Hq1.
Qed.

(** ** The result of execute-one *)


Lemma stats_locked_size (t : ast_taskprocessor) :
  fst (stats_locked t) = to_int (tps_queue_size t).
Proof. unfold stats_locked. now destruct (stats t). Qed.



(** ** Arithmetic of the C integers *)

Lemma to_long_small (z : Z) : - 2 ^ 63 <= z <= LONG_MAX -> to_long z = z.
Proof.
  unfold to_long, wrap_signed, LONG_MAX. intros H.
  change (64 - 1) with 63. rewrite Z.mod_small; lia.
Qed.

Lemma to_int_small (z : Z) : - 2 ^ 31 <= z <= INT_MAX -> to_int z = z.
Proof.
  unfold to_int, wrap_signed, INT_MAX. intros H.
  change (32 - 1) with 31. rewrite Z.mod_small; lia.
Qed.

Lemma to_ulong_small (z : Z) : 0 <= z <= ULONG_MAX -> to_ulong z = z.
Proof. unfold to_ulong, ULONG_MAX. intros H. rewrite Z.mod_small; lia. Qed.

Lemma to_long_add (a b : Z) : to_long (to_long a + b) = to_long (a + b).
Proof.
  unfold to_long, wrap_signed. f_equal.
  replace ((a + 2 ^ (64 - 1)) mod 2 ^ 64 - 2 ^ (64 - 1) + b + 2 ^ (64 - 1))
    with ((a + 2 ^ (64 - 1)) mod 2 ^ 64 + b) by lia.
  rewrite Zplus_mod_idemp_l. f_equal. lia.
Qed.

Lemma to_int_zero (z : Z) : 0 <= z < 2 ^ 32 -> (to_int z = 0 <-> z = 0).
Proof.
  intros H. unfold to_int, wrap_signed. change (32 - 1) with 31.
  split; [|intros ->; reflexivity].
  intros E.
  destruct (Z_lt_ge_dec z (2 ^ 31)) as [Hlt|Hge].
  - rewrite Z.mod_small in E; lia.
  - replace (z + 2 ^ 31) with (z - 2 ^ 31 + 1 * 2 ^ 32) in E by lia.
    rewrite Z_mod_plus_full, Z.mod_small in E; lia.
Qed.

(** ** Steps that leave the processors alone *)

Lemma tps_task_alloc_processors (f : task_callback) (x : Z) (s s' : state)
    (r : option tps_task) :
  tps_task_alloc f x s = Some (r, s') -> processors s' = processors s.
Proof.
  unfold tps_task_alloc, bind, ask_oracle. destruct (hd true (oracle s)); cbn;
    intros H; injection H as _ <-; reflexivity.
Qed.

Lemma tps_task_free_processors (task : option tps_task) (s s' : state) (u : unit) :
  tps_task_free task s = Some (u, s') -> processors s' = processors s.
Proof.
  unfold tps_task_free. destruct task; cbn; intros H; injection H as _ <-; reflexivity.
Qed.

Lemma call_execute_processors (task : tps_task) (s s' : state) (r : Z) :
  call_execute task s = Some (r, s') -> processors s' = processors s.
Proof.
  unfold call_execute, bind, gets. destruct (execute task (datap task) (world s)).
  cbn. intros H; injection H as _ <-; reflexivity.
Qed.

Lemma call_listener_processors (l : option handle)
    (f : ast_taskprocessor_listener_callbacks -> P -> P) (s s' : state) (u : unit) :
  call_listener l f s = Some (u, s') -> processors s' = processors s.
Proof.
  unfold call_listener, bind, load_listener. destruct l as [l|]; [|discriminate].
  destruct (listeners s !! l) as [lo|]; [|discriminate].
  destruct (private_data (user_data lo)); [|discriminate].
  cbn. intros H; injection H as _ <-; reflexivity.
Qed.

Lemma notify_task_pushed_processors (h : handle) (previous_size : Z) (s s' : state)
    (u : unit) :
  notify_task_pushed (Some h) previous_size s = Some (u, s') ->
  processors s' = processors s.
Proof.
  unfold notify_task_pushed. intros H. apply bind_inv in H.
  destruct H as (o & s1 & Hload & H).
  unfold load_tps in Hload. destruct (processors s !! h); [|discriminate].
  injection Hload as _ <-. now apply call_listener_processors in H.
Qed.

Lemma notify_emptied_processors (h : handle) (size : Z) (s s' : state) (r : Z) :
  notify_emptied (Some h) size s = Some (r, s') -> processors s' = processors s.
Proof.
  unfold notify_emptied. destruct (size =? 0).
  - intros H. apply bind_inv in H. destruct H as (o & s1 & Hload & H).
    unfold load_tps in Hload. destruct (processors s !! h); [|discriminate].
    injection Hload as _ <-. apply bind_inv in H. destruct H as (u & s2 & H & Hret).
    injection Hret as _ <-. now apply call_listener_processors in H.
  - intros H; injection H as _ <-; reflexivity.
Qed.

(** ** The counter and the queue along a run *)

Lemma count_label_snoc (lb x : label) (ls : list label) :
  count_label lb (ls ++ [x]) =
  (count_label lb ls + (if label_eqb x lb then 1 else 0))%nat.
Proof. induction ls as [|y ls IH]; cbn; [lia|]. rewrite IH. lia. Qed.




(** The two operations are runs of steps. *)
Lemma push_is_steps (h : handle) (f : task_callback) (x : Z) (s s' : state) :
  ast_taskprocessor_push (Some h) (Some f) x s = Some (0, s') ->
  steps h [Unlocked; PushSection; Unlocked] s s'.
Proof.
  unfold ast_taskprocessor_push. intros H.
  apply bind_inv in H. destruct H as (r & s1 & Halloc & H).
  destruct r as [task|];
    [|apply bind_inv in H; destruct H as (? & ? & _ & H); discriminate].
  apply bind_inv in H. destruct H as (prev & s2 & Hpush & H).
  apply bind_inv in H. destruct H as ([] & s3 & Hnote & H).
  injection H as <-.
  apply (steps_snoc h [Unlocked; PushSection] Unlocked s s2 s3).
  - apply (steps_snoc h [Unlocked] PushSection s s1 s2).
    + apply (steps_snoc h [] Unlocked s s s1); [constructor|].
      eapply step_alloc; exact Halloc.
    + eapply step_push; exact Hpush.
  - eapply step_task_pushed; exact Hnote.
Qed.

Lemma execute_is_steps (h : handle) (r : Z) (s s' : state) :
  ast_taskprocessor_execute (Some h) s = Some (r, s') ->
  steps h [PopNothing] s s' \/
  steps h [PopTask; Unlocked; Unlocked; StatsSection; Unlocked] s s'.
Proof.
  unfold ast_taskprocessor_execute. intros H.
  apply bind_inv in H. destruct H as (popped & s1 & Hpop & H).
  destruct popped as [task|].
  - right.
    apply bind_inv in H. destruct H as (status & s2 & Hrun & H).
    apply bind_inv in H. destruct H as ([] & s3 & Hfree & H).
    apply bind_inv in H. destruct H as (size & s4 & Hstats & H).
    apply (steps_snoc h [PopTask; Unlocked; Unlocked; StatsSection] Unlocked s s4 s');
      [|eapply step_emptied; exact H].
    apply (steps_snoc h [PopTask; Unlocked; Unlocked] StatsSection s s3 s4);
      [|eapply step_stats; exact Hstats].
    apply (steps_snoc h [PopTask; Unlocked] Unlocked s s2 s3);
      [|eapply step_free; exact Hfree].
    apply (steps_snoc h [PopTask] Unlocked s s1 s2);
      [|eapply step_callback; exact Hrun].
    apply (steps_snoc h [] PopTask s s s1); [constructor|].
    eapply step_pop; exact Hpop.
  - left. injection H as _ <-.
    apply (steps_snoc h [] PopNothing s s s1); [constructor|].
    eapply step_pop_nothing; exact Hpop.
Qed.

(** ** The notification of a push *)

Lemma granted_1 (s : state) : granted 1 s -> hd true (oracle s) = true.
Proof.
  unfold granted. destruct (oracle s) as [|b o]; cbn; [reflexivity|].
  now rewrite andb_true_r.
Qed.

(** C4: a push that succeeds appends the task and increments the counter
    under the lock, and then, in the state this section left, calls
    [task_pushed] of the listener once, with [was_empty] set exactly when
    the counter was zero before the push.  The counter is read into an
    [int]; the statement is for counters below 2^32. *)
Theorem C4_task_pushed_gets_the_empty_edge (s : state) (h l : handle)
    (t : ast_taskprocessor) (cbs : ast_taskprocessor_listener_callbacks) (d : P)
    (f : task_callback) (x : Z) :
  bound s h t l cbs d ->
  granted 1 s ->
  0 <= tps_queue_size t < 2 ^ 32 ->
  let task := {| execute := f; datap := x |} in
  let was_empty := if tps_queue_size t =? 0 then 1 else 0 in
  let t1 := set_queue (tps_queue t ++ [task]) (to_long (tps_queue_size t + 1)) t in
  exists s0 previous_size s1 s',
    ast_taskprocessor_push (Some h) (Some f) x s = Some (0, s') /\
    tps_task_alloc f x s = Some (Some task, s0) /\
    locked (Some h) (push_locked task) s0 = Some (previous_size, s1) /\
    bound s1 h t1 l cbs d /\
    call_listener (Some l) (fun c p => task_pushed c p was_empty) s1 = Some (tt, s') /\
    bound s' h t1 l cbs (task_pushed cbs d was_empty).
Proof.
  intros Hb Hg Hrange task was_empty t1.
  apply granted_1 in Hg.
  assert (Hflag : (to_int (tps_queue_size t) =? 0) = (tps_queue_size t =? 0)).
  { destruct (tps_queue_size t =? 0) eqn:E.
    - apply Z.eqb_eq in E. rewrite E. reflexivity.
    - apply Z.eqb_neq in E. apply Z.eqb_neq. now rewrite to_int_zero. }
  destruct Hb as (o & lo & Ho & Ht & Hl & Hlo & Hcbs & Hd). subst t cbs.
  set (s0 := with_task_envelopes (task_envelopes s + 1) (with_oracle (tl (oracle s)) s)).
  assert (Halloc : tps_task_alloc f x s = Some (Some task, s0)).
  { unfold tps_task_alloc, bind, ask_oracle. now rewrite Hg. }
  assert (Ho0 : processors s0 !! h = Some o) by exact Ho.
  pose proof (locked_eq h (push_locked task) s0 o Ho0) as Hpush.
  cbn [fst snd push_locked] in Hpush.
  set (s1 := with_processors _ s0) in Hpush.
  assert (Hlo1 : listeners s1 !! l = Some lo) by exact Hlo.
  pose proof (call_listener_eq l (fun c p => task_pushed c p was_empty) s1 lo d Hlo1 Hd)
    as Hcall.
  set (s' := with_listeners _ s1) in Hcall.
  exists s0, (to_int (tps_queue_size (user_data o))), s1, s'.
  split.
  { unfold ast_taskprocessor_push. rewrite (bind_eq _ _ _ _ _ Halloc).
    rewrite (bind_eq _ _ _ _ _ Hpush).
    unfold notify_task_pushed, bind, load_tps.
    replace (processors s1 !! h) with (Some (set_user_data t1 o))
      by (subst s1; cbn; now rewrite lookup_insert_eq).
    cbn [user_data set_user_data]. subst t1. cbn [listener set_queue].
    rewrite Hl, Hflag. fold was_empty. now rewrite Hcall. }
  split; [exact Halloc|]. split; [exact Hpush|]. split.
  { exists (set_user_data t1 o), lo. subst s1. cbn. rewrite lookup_insert_eq.
    repeat split; auto. }
  split; [exact Hcall|].
  eexists (set_user_data t1 o), _. subst s' s1. cbn. rewrite !lookup_insert_eq.
  repeat split; auto.
Qed.

(** Why C4 speaks of counters below 2^32: [previous_size] is an [int], and
    a counter of 2^32 reads as 0 there. *)
Remark previous_size_wraps : to_int (2 ^ 32) = 0.
Proof. reflexivity. Qed.

(** ** The statistics *)

Lemma pushed_size (ts : list tps_task) (t : ast_taskprocessor) :
  tps_queue_size t = to_long (tps_queue_size t) ->
  tps_queue_size (fold_left (fun t task => snd (push_locked task t)) ts t)
  = to_long (tps_queue_size t + Z.of_nat (length ts)).
Proof.
  revert t. induction ts as [|task ts IH]; intros t Ht.
  - cbn. now rewrite Z.add_0_r.
  - cbn [fold_left length]. rewrite IH.
    + cbn [snd push_locked set_queue tps_queue_size].
      rewrite to_long_add. f_equal. lia.
    + cbn [snd push_locked set_queue tps_queue_size].
      rewrite <- (Z.add_0_r (to_long (tps_queue_size t + 1))) at 2.
      now rewrite to_long_add, Z.add_0_r.
Qed.

(** The statistics after [k] executions of a processor that holds [n] tasks,
    none of them pushed in between: every execution samples the depth its
    own pop left, so the largest sample is [n - 1]. *)
Lemma executed_stats (k : nat) (t : ast_taskprocessor) (mx c : Z) :
  shutting_down t = false ->
  tps_queue_size t = Z.of_nat (length (tps_queue t)) ->
  Z.of_nat (length (tps_queue t)) <= INT_MAX + 1 ->
  stats t = Some {| max_qsize := mx; _tasks_processed_count := c |} ->
  0 <= mx <= ULONG_MAX ->
  0 <= c ->
  c + Z.of_nat k <= ULONG_MAX ->
  (k <= length (tps_queue t))%nat ->
  let t' := Nat.iter k (fun t => snd (stats_locked (snd (pop_locked t)))) t in
  stats t' = Some {| max_qsize := if (k =? 0)%nat then mx
                                  else Z.max mx (Z.of_nat (length (tps_queue t)) - 1);
                     _tasks_processed_count := c + Z.of_nat k |} /\
  tps_queue_size t' = Z.of_nat (length (tps_queue t)) - Z.of_nat k.
Proof.
  revert t mx c. induction k as [|k IH]; intros t mx c Hsd Hsz Hmax Hst Hmx Hc Hck Hk.
  - cbn. rewrite Hst, Hsz, Z.add_0_r, Z.sub_0_r. auto.
  - rewrite Nat.iter_succ_r.
    destruct (tps_queue t) as [|task rest] eqn:Hq; [cbn in Hk; lia|].
    rewrite (pop_locked_cons t task rest Hsd Hq). cbn [snd].
    cbn [length] in Hmax, Hk, Hsz.
    set (t0 := set_queue rest (to_long (tps_queue_size t - 1)) t).
    assert (Hsz0 : tps_queue_size t0 = Z.of_nat (length rest)).
    { subst t0. cbn. rewrite Hsz. cbn [length].
      rewrite to_long_small; unfold LONG_MAX, INT_MAX in *; cbn [length] in Hmax; lia. }
    assert (Hint : to_int (Z.of_nat (length rest)) = Z.of_nat (length rest)).
    { apply to_int_small. unfold INT_MAX in *. cbn [length] in Hmax. lia. }
    assert (Hul : to_ulong (Z.of_nat (length rest)) = Z.of_nat (length rest)).
    { apply to_ulong_small. unfold INT_MAX, ULONG_MAX in *. cbn [length] in Hmax. lia. }
    set (t1 := snd (stats_locked t0)).
    assert (Hst1 : stats t1 = Some {| max_qsize := Z.max mx (Z.of_nat (length rest));
                                      _tasks_processed_count := c + 1 |}).
    { subst t1. unfold stats_locked. cbn [tps_taskprocessor_depth].
      replace (stats t0) with (stats t) by reflexivity. rewrite Hst, Hsz0.
      cbn [snd set_stats stats max_qsize _tasks_processed_count].
      rewrite Hint, Hul. rewrite to_ulong_small by lia. f_equal. f_equal.
      destruct (Z.of_nat (length rest) >? mx) eqn:E; lia. }
    destruct (stats_locked_fields t0) as (Hq1 & Hsz1 & Hsd1 & _).
    fold t1 in Hq1, Hsz1, Hsd1.
    assert (Hq1' : tps_queue t1 = rest) by exact Hq1.
    destruct (IH t1 (Z.max mx (Z.of_nat (length rest))) (c + 1)) as (Hst2 & Hsz2).
    + now rewrite Hsd1.
    + now rewrite Hsz1, Hq1'.
    + rewrite Hq1'. lia.
    + exact Hst1.
    + unfold ULONG_MAX, INT_MAX in *. cbn [length] in Hmax. lia.
    + lia.
    + lia.
    + rewrite Hq1'. cbn in Hk. lia.
    + cbn zeta. rewrite Hst2, Hsz2, Hq1'. cbn [length Nat.eqb].
      split; [|lia]. f_equal. f_equal; [|lia].
      destruct (k =? 0)%nat; lia.
Qed.

(** C5, what the code does: after K >= 1 tasks have been pushed onto a fresh
    processor with no execution in between and all K have been executed, the
    high-water mark is K - 1 and not K, since every execution samples the
    depth after its own pop; the count of processed tasks is K. *)
Theorem C5_burst_high_water_mark_is_one_less (s : state) (h l : handle)
    (t : ast_taskprocessor) (cbs : ast_taskprocessor_listener_callbacks) (d : P)
    (ts : list tps_task) :
  bound s h t l cbs d ->
  fresh t ->
  granted (length ts) s ->
  1 <= Z.of_nat (length ts) <= INT_MAX ->
  exists s1 rs s2 t2 d2,
    push_all (Some h) ts s = Some (repeat 0 (length ts), s1) /\
    execute_times (length ts) (Some h) s1 = Some (rs, s2) /\
    bound s2 h t2 l cbs d2 /\
    tps_queue t2 = [] /\
    stats t2 = Some {| max_qsize := Z.of_nat (length ts) - 1;
                       _tasks_processed_count := Z.of_nat (length ts) |}.
Proof.
  intros Hb (Hq & Hsz & Hst & Hsd) Hg HK.
  destruct (push_all_bound ts s h l t cbs d Hb Hg) as (s1 & d1 & Hpush & Hb1 & _).
  destruct (pushed_queue ts t) as (Hq1 & Hsd1 & Hst1 & _). cbn zeta in Hq1, Hsd1, Hst1.
  pose proof (pushed_size ts t) as Hsz1. rewrite Hsz in Hsz1. specialize (Hsz1 eq_refl).
  rewrite Hq in Hq1. cbn in Hq1.
  set (t1 := fold_left _ ts t) in *.
  rewrite to_long_small in Hsz1 by (unfold INT_MAX, LONG_MAX in *; lia).
  destruct (execute_times_bound (length ts) s1 h l t1 cbs d1 Hb1)
    as (s2 & d2 & rs & Hex & _ & Hb2 & _).
  { now rewrite Hsd1. }
  { now rewrite Hq1. }
  destruct (executed_queue (length ts) t1) as (Hq2 & _);
    [now rewrite Hsd1|now rewrite Hq1|]. cbn zeta in Hq2.
  destruct (executed_stats (length ts) t1 0 0) as (Hst2 & _).
  { now rewrite Hsd1. }
  { now rewrite Hq1, Hsz1. }
  { rewrite Hq1. lia. }
  { now rewrite Hst1. }
  { unfold ULONG_MAX. lia. }
  { lia. }
  { unfold ULONG_MAX, INT_MAX in *. lia. }
  { now rewrite Hq1. }
  cbn zeta in Hst2.
  exists s1, rs, s2. eexists _, d2.
  split; [exact Hpush|]. split; [exact Hex|]. split; [exact Hb2|].
  split.
  - rewrite Hq2, Hq1. apply skipn_all.
  - rewrite Hst2, Hq1. f_equal. f_equal; try lia.
    destruct (length ts =? 0)%nat eqn:E; [apply Nat.eqb_eq in E; lia|lia].
Qed.

(** ** Pushes that fail *)

(** C7: a push with a null processor, a null callback or a failed allocation
    of the envelope returns -1; the stores of processors and of listeners,
    the memory of the tasks and the container are as before, so no queue,
    counter or statistic changed and no callback of a listener ran.  With a
    null argument the state as a whole is unchanged. *)
Theorem C7_failed_push_changes_nothing (s : state) (p : option handle)
    (f : option task_callback) (x : Z) :
  p = None \/ f = None \/
  (hd true (oracle s) = false /\ exists h, p = Some h /\ is_Some (processors s !! h)) ->
  exists s',
    ast_taskprocessor_push p f x s = Some (-1, s') /\
    processors s' = processors s /\
    listeners s' = listeners s /\
    world s' = world s /\
    task_envelopes s' = task_envelopes s /\
    tps_singletons s' = tps_singletons s /\
    (p = None \/ f = None -> s' = s).
Proof.
  intros H. unfold ast_taskprocessor_push.
  destruct p as [h|]; [|exists s; repeat split; auto].
  destruct f as [g|]; [|exists s; repeat split; auto].
  destruct H as [H|[H|(H & h' & Hh & o & Ho)]]; try discriminate.
  injection Hh as <-.
  exists (with_oracle (tl (oracle s)) s).
  unfold tps_task_alloc, bind, ask_oracle, load_tps. rewrite H. cbn. rewrite Ho.
  repeat split; auto. intros [E|E]; discriminate.
Qed.

(** ** The status of a callback *)

(** An execution that finds a task: the pop, the callback, and then the rest
    of the function in the state these two left. *)
Lemma execute_popped (s : state) (h : handle) (o : ao2 ast_taskprocessor)
    (task : tps_task) (rest : list tps_task) :
  processors s !! h = Some o ->
  shutting_down (user_data o) = false ->
  tps_queue (user_data o) = task :: rest ->
  ast_taskprocessor_execute (Some h) s =
  (tps_task_free (Some task) ;;
   size <- locked (Some h) stats_locked ;;
   notify_emptied (Some h) size)
    (with_world (fst (execute task (datap task) (world s)))
       (with_processors
          (<[h := set_user_data
                    (set_queue rest (to_long (tps_queue_size (user_data o) - 1))
                               (user_data o)) o]> (processors s)) s)).
Proof.
  intros Ho Hsd Hq. unfold ast_taskprocessor_execute, tps_taskprocessor_pop.
  rewrite (bind_eq _ _ _ _ _ (locked_eq h pop_locked s o Ho)).
  rewrite (pop_locked_cons _ _ _ Hsd Hq). cbn [fst snd].
  unfold call_execute. unfold bind at 1. unfold bind at 1. unfold gets.
  cbn [world with_processors].
  destruct (execute task (datap task) (world s)) as [w' status]. reflexivity.
Qed.

(** C10: the status a callback returns is not used.  Two callbacks that do
    the same to the memory and return different statuses leave the same
    state and make execute-one return the same value; the envelope is freed,
    the count of processed tasks goes up by one (as an [unsigned long]) and
    the high-water mark is updated from the depth after the pop, whatever
    the status. *)
Theorem C10_callback_status_is_ignored (s : state) (h l : handle)
    (o : ao2 ast_taskprocessor) (cbs : ast_taskprocessor_listener_callbacks) (d : P)
    (f g : task_callback) (x : Z) (rest : list tps_task) (mx c : Z) :
  bound s h (user_data o) l cbs d ->
  processors s !! h = Some o ->
  shutting_down (user_data o) = false ->
  tps_queue (user_data o) = {| execute := f; datap := x |} :: rest ->
  stats (user_data o) = Some {| max_qsize := mx; _tasks_processed_count := c |} ->
  (forall w, fst (g x w) = fst (f x w)) ->
  let with_g :=
    with_processors
      (<[h := set_user_data
                (set_queue ({| execute := g; datap := x |} :: rest)
                           (tps_queue_size (user_data o)) (user_data o)) o]>
         (processors s)) s in
  let size := to_int (to_long (tps_queue_size (user_data o) - 1)) in
  exists r s' t' d',
    ast_taskprocessor_execute (Some h) s = Some (r, s') /\
    ast_taskprocessor_execute (Some h) with_g = Some (r, s') /\
    world s' = fst (f x (world s)) /\
    task_envelopes s' = task_envelopes s - 1 /\
    bound s' h t' l cbs d' /\
    tps_queue t' = rest /\
    stats t' = Some {| max_qsize := if to_ulong size >? mx then to_ulong size else mx;
                       _tasks_processed_count := to_ulong (c + 1) |}.
Proof.
  intros Hb Ho Hsd Hq Hst Hfg with_g size.
  pose proof (bound_execute s h l (user_data o) cbs d Hb) as Hex.
  rewrite (pop_locked_cons _ _ _ Hsd Hq) in Hex. cbn zeta in Hex.
  destruct Hex as (s' & Hex & Hb' & Hw' & He' & _).
  set (t1 := set_queue rest (to_long (tps_queue_size (user_data o) - 1)) (user_data o)) in *.
  eexists _, s', _, _. split; [exact Hex|]. split.
  - rewrite <- Hex.
    rewrite (execute_popped s h o _ rest Ho Hsd Hq).
    rewrite (execute_popped with_g h
               (set_user_data
                  (set_queue ({| execute := g; datap := x |} :: rest)
                             (tps_queue_size (user_data o)) (user_data o)) o)
               {| execute := g; datap := x |} rest);
      [|subst with_g; cbn; now rewrite lookup_insert_eq|exact Hsd|reflexivity].
    subst with_g. cbn [processors with_processors world execute datap].
    rewrite insert_insert_eq, Hfg. reflexivity.
  - split; [exact Hw'|]. split; [exact He'|]. split; [exact Hb'|].
    destruct (stats_locked_fields t1) as (Hq1 & _). split; [exact Hq1|].
    unfold stats_locked. replace (stats t1) with (stats (user_data o)) by reflexivity.
    rewrite Hst. reflexivity.
Qed.

(** ** Shutting down *)

(** No step changes the flag, and no step pops from a processor whose flag
    is set. *)
Lemma step_shutting_down (h : handle) (lb : label) (s s' : state)
    (o : ao2 ast_taskprocessor) :
  step h lb s s' ->
  processors s !! h = Some o ->
  exists o',
    processors s' !! h = Some o' /\
    shutting_down (user_data o') = shutting_down (user_data o) /\
    (shutting_down (user_data o) = true ->
     lb <> PopTask /\
     (lb <> PushSection -> tps_queue (user_data o') = tps_queue (user_data o)) /\
     (lb <> StatsSection -> stats (user_data o') = stats (user_data o))).
Proof.
  intros Hstep Ho. destruct Hstep as
    [f x r s s' H | task prev s s' H | prev s s' H | task s s' H | s s' H
    | task status s s' H | task s s' H | size s s' H | size r s s' H].
  - apply tps_task_alloc_processors in H. exists o. rewrite H. now repeat split.
  - apply locked_inv in H. destruct H as (o1 & Ho1 & _ & ->).
    rewrite Ho in Ho1. injection Ho1 as <-.
    eexists. cbn. rewrite lookup_insert_eq. split; [reflexivity|].
    cbn. repeat split; auto; try discriminate. intros E. now contradiction E.
  - apply notify_task_pushed_processors in H. exists o. rewrite H. now repeat split.
  - apply locked_inv in H. destruct H as (o1 & Ho1 & Hpop & ->).
    rewrite Ho in Ho1. injection Ho1 as <-.
    eexists. cbn. rewrite lookup_insert_eq. split; [reflexivity|].
    unfold pop_locked in *. destruct (shutting_down (user_data o)) eqn:E; [discriminate|].
    destruct (tps_queue (user_data o)); [discriminate|]. cbn. rewrite E.
    split; [reflexivity|discriminate].
  - apply locked_inv in H. destruct H as (o1 & Ho1 & Hpop & ->).
    rewrite Ho in Ho1. injection Ho1 as <-.
    eexists. cbn. rewrite lookup_insert_eq. split; [reflexivity|].
    unfold pop_locked in *. destruct (shutting_down (user_data o)) eqn:E.
    + cbn. rewrite E. now repeat split.
    + destruct (tps_queue (user_data o)); [|discriminate]. cbn. rewrite E.
      split; [reflexivity|discriminate].
  - apply call_execute_processors in H. exists o. rewrite H. now repeat split.
  - apply tps_task_free_processors in H. exists o. rewrite H. now repeat split.
  - apply locked_inv in H. destruct H as (o1 & Ho1 & _ & ->).
    rewrite Ho in Ho1. injection Ho1 as <-.
    eexists. cbn. rewrite lookup_insert_eq. split; [reflexivity|].
    destruct (stats_locked_fields (user_data o)) as (Hq & _ & Hsd & _).
    cbn. rewrite Hsd. repeat split; auto; try discriminate.
    intros E. now contradiction E.
  - apply notify_emptied_processors in H. exists o. rewrite H. now repeat split.
Qed.

Lemma count_label_zero_snoc (lb x : label) (ls : list label) :
  count_label lb ls = O -> x <> lb -> count_label lb (ls ++ [x]) = O.
Proof.
  intros H Hx. rewrite count_label_snoc, H.
  destruct x, lb; cbn; try reflexivity; now contradiction Hx.
Qed.

(** ** Looking up a name *)

Lemma bucket_find_absent (key : string) (bucket : list handle) (s : state) :
  (forall h, In h bucket ->
     exists o n, processors s !! h = Some o /\ name (user_data o) = Some n /\
                 strcasecmp n key <> 0) ->
  bucket_find key OBJ_KEY bucket s = Some (None, s).
Proof.
  induction bucket as [|h rest IH]; intros Hall; [reflexivity|].
  destruct (Hall h (or_introl eq_refl)) as (o & n & Ho & Hn & Hcmp).
  cbn [bucket_find]. unfold bind at 1. unfold load_tps. rewrite Ho.
  unfold tps_cmp_cb. rewrite Hn.
  change (Z.land OBJ_KEY OBJ_KEY =? 0) with false. cbn match.
  apply Z.eqb_neq in Hcmp. rewrite Hcmp. cbn.
  apply IH. intros h' Hin. apply Hall. now right.
Qed.

Lemma ao2_find_absent (key : string) (s : state) :
  container_ok s ->
  ~ registered s key ->
  ao2_find ast_str_case_hash key OBJ_KEY s = Some (None, s).
Proof.
  intros Hok Hnot. unfold ao2_find, bind, gets.
  destruct (tps_singletons s) as [buckets|] eqn:Hc; [|reflexivity].
  cbn. set (i := bucket_index buckets (ast_str_case_hash key)).
  apply bucket_find_absent. intros h Hin.
  assert (Hb : In (nth i buckets []) buckets).
  { destruct (Nat.lt_ge_cases i (length buckets)) as [Hlt|Hge].
    - now apply nth_In.
    - rewrite nth_overflow in Hin by exact Hge. destruct Hin. }
  destruct (Hok buckets _ h Hc Hb Hin) as (o & n & Ho & Hn).
  exists o, n. split; [exact Ho|]. split; [exact Hn|].
  intros Hcmp. apply Hnot. now exists buckets, (nth i buckets []), h, o, n.
Qed.


(** ** Reference counts *)

Lemma ao2_ref_tps_keep (s : state) (h : handle) (o : ao2 ast_taskprocessor) (delta : Z) :
  processors s !! h = Some o ->
  0 < ref_counter o + delta <= INT_MAX ->
  ao2_ref_tps (Some h) delta s =
  Some (ref_counter o,
        with_processors (<[h := set_ref_counter (ref_counter o + delta) o]> (processors s)) s).
Proof.
  intros Ho Hc. unfold ao2_ref_tps, bind, load_tps. rewrite Ho.
  rewrite to_int_small by (unfold INT_MAX in *; lia).
  cbn. destruct (ref_counter o + delta <=? 0) eqn:E; [apply Z.leb_le in E; lia|].
  reflexivity.
Qed.

(** The last reference to a processor that has no listener any more: the
    object is destroyed and its storage released. *)
Lemma ao2_ref_tps_last (s : state) (h : handle) (o : ao2 ast_taskprocessor) (delta : Z) :
  processors s !! h = Some o ->
  ref_counter o + delta = 0 ->
  listener (user_data o) = None ->
  ao2_ref_tps (Some h) delta s =
  Some (ref_counter o, with_processors (delete h (processors s)) s).
Proof.
  intros Ho Hc Hl. unfold ao2_ref_tps, tps_taskprocessor_destroy.
  unfold bind at 1. unfold load_tps at 1. rewrite Ho, Hc. change (to_int 0) with 0.
  unfold bind at 1. unfold store_tps at 1, modify. change (0 <=? 0) with true. cbn match.
  unfold bind at 1. unfold bind at 1.
  erewrite bind_eq; [|apply update_tps_eq; cbn; apply lookup_insert_eq].
  unfold bind at 1. unfold load_tps. cbn [processors with_processors].
  rewrite lookup_insert_eq. cbn [user_data set_user_data set_stats listener set_ref_counter].
  rewrite Hl. cbn [ret modify processors with_processors].
  now rewrite !insert_insert_eq, delete_insert_eq.
Qed.

Lemma ao2_ref_listener_keep (s : state) (l : handle)
    (lo : ao2 ast_taskprocessor_listener) (delta : Z) :
  listeners s !! l = Some lo ->
  0 < ref_counter lo + delta <= INT_MAX ->
  ao2_ref_listener (Some l) delta s =
  Some (ref_counter lo,
        with_listeners (<[l := set_ref_counter (ref_counter lo + delta) lo]> (listeners s)) s).
Proof.
  intros Ho Hc. unfold ao2_ref_listener, bind, load_listener. rewrite Ho.
  rewrite to_int_small by (unfold INT_MAX in *; lia).
  cbn. destruct (ref_counter lo + delta <=? 0) eqn:E; [apply Z.leb_le in E; lia|].
  reflexivity.
Qed.

(** The last reference to a listener: its private data is destroyed and the
    object released. *)
Lemma ao2_ref_listener_last (s : state) (l : handle)
    (lo : ao2 ast_taskprocessor_listener) (delta : Z) (d : P) :
  listeners s !! l = Some lo ->
  ref_counter lo + delta = 0 ->
  private_data (user_data lo) = Some d ->
  ao2_ref_listener (Some l) delta s =
  Some (ref_counter lo, with_listeners (delete l (listeners s)) s).
Proof.
  intros Ho Hc Hd. unfold ao2_ref_listener, bind, load_listener. rewrite Ho, Hc.
  change (to_int 0) with 0. cbn. unfold listener_destroy. rewrite Hd.
  destruct (destroy (callbacks (user_data lo)) d). reflexivity.
Qed.

Lemma ao2_unlink_linked (s : state) (h : handle) (o : ao2 ast_taskprocessor)
    (n : string) (buckets : list (list handle)) :
  tps_singletons s = Some buckets ->
  processors s !! h = Some o ->
  name (user_data o) = Some n ->
  In h (nth (bucket_index buckets (ast_str_case_hash n)) buckets []) ->
  1 < ref_counter o <= INT_MAX ->
  ao2_unlink ast_str_case_hash (Some h) s =
  Some (tt,
        with_processors (<[h := set_ref_counter (ref_counter o - 1) o]> (processors s))
          (with_tps_singletons
             (Some (alter (remove_first h) (bucket_index buckets (ast_str_case_hash n))
                          buckets)) s)).
Proof.
  intros Hc Ho Hn Hin Hcount. unfold ao2_unlink, bind, gets, load_tps.
  rewrite Hc, Ho. unfold tps_hash_cb. rewrite Hn.
  change (Z.land OBJ_POINTER OBJ_KEY =? 0) with true. cbn match.
  assert (Hex : existsb (Pos.eqb h)
                  (nth (bucket_index buckets (ast_str_case_hash n)) buckets []) = true).
  { apply existsb_exists. exists h. split; [exact Hin|apply Pos.eqb_refl]. }
  rewrite Hex. cbn [modify].
  erewrite ao2_ref_tps_keep; [|cbn; exact Ho|lia].
  reflexivity.
Qed.

(** [ast_taskprocessor_unreference] returns null whenever it returns. *)
Lemma unreference_returns_null (p : option handle) (s s' : state) (r : option handle) :
  ast_taskprocessor_unreference ast_str_case_hash p s = Some (r, s') -> r = None.
Proof.
  unfold ast_taskprocessor_unreference. destruct p as [h|].
  - intros H. apply bind_inv in H. destruct H as (old & s1 & _ & H).
    destruct (old >? 3); [now injection H as <-|].
    repeat (apply bind_inv in H; destruct H as (? & ? & _ & H)).
    now injection H as <-.
  - intros H. now injection H as <-.
Qed.

(** ** Releasing a reference *)

(** C8: [ast_taskprocessor_unreference] returns null on every input, the
    null pointer included.  On a registered processor whose count is above 3
    it only takes one reference away.  When the count is 3 (the caller, the
    container and the listener), so that it drops to the two references of
    the container and the listener, the processor is finalized before the
    function returns: it is unlinked from the container, the [shutdown]
    callback of its listener has run, the back reference of the listener and
    the reference to the listener are released, and the storage of the
    processor is released. *)
Theorem C8_unreference_finalizes_at_the_baseline (s : state) (h l : handle)
    (o : ao2 ast_taskprocessor) (lo : ao2 ast_taskprocessor_listener) (d : P)
    (buckets : list (list handle)) (i : nat) :
  served ast_str_case_hash s h l o lo d buckets i ->
  3 <= ref_counter o <= INT_MAX ->
  1 <= ref_counter lo <= INT_MAX ->
  ast_taskprocessor_unreference ast_str_case_hash None s = Some (None, s) /\
  (forall p (s1 : state) r s1',
     ast_taskprocessor_unreference ast_str_case_hash p s1 = Some (r, s1') -> r = None) /\
  (3 < ref_counter o ->
   ast_taskprocessor_unreference ast_str_case_hash (Some h) s =
   Some (None,
         with_processors (<[h := set_ref_counter (ref_counter o - 1) o]> (processors s)) s)) /\
  (ref_counter o = 3 ->
   ast_taskprocessor_unreference ast_str_case_hash (Some h) s =
   Some (None,
         with_listeners
           (if ref_counter lo =? 1 then delete l (listeners s)
            else <[l := {| ref_counter := ref_counter lo - 1;
                           user_data :=
                             set_tps None
                               (set_private_data
                                  (Some (shutdown (callbacks (user_data lo)) d))
                                  (user_data lo)) |}]> (listeners s))
           (with_processors (delete h (processors s))
              (with_tps_singletons (Some (alter (remove_first h) i buckets)) s)))).
Proof.
  intros (Ho & Hlo & Hl & Htps & Hd & Hc & (n & Hn & Hi) & Hin) Hcount Hlcount.
  split; [reflexivity|]. split; [intros p s1 r s1'; apply unreference_returns_null|].
  split.
  - intros Hgt. unfold ast_taskprocessor_unreference.
    erewrite bind_eq; [|apply ao2_ref_tps_keep; [exact Ho|lia]].
    destruct (ref_counter o >? 3) eqn:E; [|rewrite Z.gtb_ltb in E; apply Z.ltb_ge in E; lia].
    reflexivity.
  - intros H3. unfold ast_taskprocessor_unreference.
    erewrite bind_eq; [|apply ao2_ref_tps_keep; [exact Ho|lia]].
    rewrite H3. change (3 >? 3) with false. cbn match.
    erewrite bind_eq;
      [|eapply (ao2_unlink_linked _ h _ n buckets);
        [exact Hc|cbn; apply lookup_insert_eq|exact Hn|subst i; exact Hin|cbn; lia]].
    unfold bind at 1. unfold load_tps. cbn [processors with_processors with_tps_singletons].
    rewrite lookup_insert_eq. cbn [user_data set_ref_counter listener]. rewrite Hl.
    erewrite bind_eq; [|apply update_tps_eq; cbn; apply lookup_insert_eq].
    cbn [processors with_processors with_tps_singletons].
    rewrite !insert_insert_eq.
    unfold listener_shutdown.
    unfold bind at 1. unfold bind at 1.
    erewrite call_listener_eq; [|cbn; exact Hlo|exact Hd].
    unfold bind at 1. unfold load_listener. cbn [listeners with_listeners with_processors].
    rewrite lookup_insert_eq. cbn [user_data set_user_data tps set_private_data].
    rewrite Htps.
    erewrite bind_eq;
      [|apply ao2_ref_tps_last; [cbn; apply lookup_insert_eq|cbn; lia|reflexivity]].
    cbn [processors with_listeners with_processors].
    rewrite delete_insert_eq.
    erewrite update_listener_eq; [|cbn; apply lookup_insert_eq].
    cbn [listeners with_listeners with_processors]. rewrite insert_insert_eq.
    destruct (ref_counter lo =? 1) eqn:E1.
    + apply Z.eqb_eq in E1.
      erewrite bind_eq;
        [|eapply ao2_ref_listener_last; [cbn; apply lookup_insert_eq|cbn; lia|reflexivity]].
      unfold ret. cbn [listeners with_listeners]. rewrite delete_insert_eq.
      subst i. destruct s; reflexivity.
    + apply Z.eqb_neq in E1.
      erewrite bind_eq;
        [|eapply ao2_ref_listener_keep; [cbn; apply lookup_insert_eq|cbn; lia]].
      unfold ret. cbn [listeners with_listeners]. rewrite insert_insert_eq.
      subst i. destruct s, lo; reflexivity.
Qed.

(** ** The flag across the functions of the file

    No function writes [shutting_down]: every write to a processor goes
    through one of the field updates, and a new processor gets a new
    address. *)

Abbreviation keeps m := (@respects W P _ m).

Lemma flags_kept_refl (s : state) : flags_kept s s.
Proof. split; [lia|]. intros h o' _ Ho. now exists o'. Qed.

Lemma flags_kept_trans (s1 s2 s3 : state) :
  flags_kept s1 s2 -> flags_kept s2 s3 -> flags_kept s1 s3.
Proof.
  intros (Hn1 & H1) (Hn2 & H2). split; [lia|]. intros h o3 Hh Ho3.
  destruct (H2 h o3 ltac:(lia) Ho3) as (o2 & Ho2 & E2).
  destruct (H1 h o2 Hh Ho2) as (o1 & Ho1 & E1).
  exists o1. split; [exact Ho1|]. now rewrite E2.
Qed.

(** A state that differs in neither the processors nor the allocator. *)
Lemma flags_kept_same (s s' : state) :
  processors s' = processors s -> next_handle s' = next_handle s -> flags_kept s s'.
Proof.
  intros Hp Hn. split; [rewrite Hn; lia|]. intros h o' _ Ho. exists o'.
  now rewrite <- Hp.
Qed.

Lemma respects_ret {A : Type} (a : A) : keeps (ret a).
Proof. intros s a' s' H. injection H as _ <-. apply flags_kept_refl. Qed.

Lemma respects_fault {A : Type} : keeps (@fault _ A).
Proof. intros s a s' H. discriminate. Qed.

Lemma respects_gets {A : Type} (f : state -> A) : keeps (gets f).
Proof. intros s a s' H. injection H as _ <-. apply flags_kept_refl. Qed.

Lemma respects_bind {A B : Type} (m : St A) (k : A -> St B) :
  keeps m -> (forall a, keeps (k a)) -> keeps (bind m k).
Proof.
  intros Hm Hk s b s' H. apply bind_inv in H. destruct H as (a & s1 & H1 & H2).
  eapply flags_kept_trans; [eapply Hm; exact H1|eapply Hk; exact H2].
Qed.

Lemma respects_modify (f : state -> state) :
  (forall s, processors (f s) = processors s /\ next_handle (f s) = next_handle s) ->
  keeps (modify f).
Proof.
  intros Hf s a s' H. injection H as _ <-. destruct (Hf s). now apply flags_kept_same.
Qed.

Lemma respects_ask_oracle : keeps ask_oracle.
Proof. intros s a s' H. injection H as _ <-. now apply flags_kept_same. Qed.

Lemma respects_load_tps (p : option handle) : keeps (load_tps p).
Proof.
  intros s a s' H. unfold load_tps in H. destruct p as [h|]; [|discriminate].
  destruct (processors s !! h); [|discriminate]. injection H as _ <-.
  apply flags_kept_refl.
Qed.

Lemma respects_load_listener (l : option handle) :
  keeps (load_listener l).
Proof.
  intros s a s' H. unfold load_listener in H. destruct l as [h|]; [|discriminate].
  destruct (listeners s !! h); [|discriminate]. injection H as _ <-.
  apply flags_kept_refl.
Qed.

Lemma respects_store_listener (l : handle) (lo : ao2 ast_taskprocessor_listener) :
  keeps (store_listener l lo).
Proof. apply respects_modify. now intros s. Qed.

Lemma respects_locked {A : Type} (p : option handle)
    (f : ast_taskprocessor -> A * ast_taskprocessor) :
  (forall t, shutting_down (snd (f t)) = shutting_down t) ->
  keeps (locked p f).
Proof.
  intros Hf s a s' H. destruct p as [h|].
  - apply locked_inv in H. destruct H as (o & Ho & _ & ->).
    split; [cbn; lia|]. intros h' o' _ Ho'. cbn in Ho'.
    destruct (decide (h = h')) as [<-|Hne].
    + rewrite lookup_insert_eq in Ho'. injection Ho' as <-.
      exists o. split; [exact Ho|]. cbn. apply Hf.
    + rewrite lookup_insert_ne in Ho' by exact Hne. now exists o'.
  - unfold locked, bind, load_tps in H. discriminate.
Qed.

Lemma respects_update_tps (p : option handle)
    (g : ast_taskprocessor -> ast_taskprocessor) :
  (forall t, shutting_down (g t) = shutting_down t) ->
  keeps (update_tps p g).
Proof. intros Hg. apply respects_locked. exact Hg. Qed.

Lemma respects_update_listener (l : option handle)
    (g : ast_taskprocessor_listener -> ast_taskprocessor_listener) :
  keeps (update_listener l g).
Proof.
  unfold update_listener. apply respects_bind; [apply respects_load_listener|].
  intros o. destruct l; [apply respects_store_listener|apply respects_fault].
Qed.

Lemma respects_call_listener (l : option handle)
    (f : ast_taskprocessor_listener_callbacks -> P -> P) :
  keeps (call_listener l f).
Proof.
  unfold call_listener. apply respects_bind; [apply respects_load_listener|].
  intros o. destruct l; [|apply respects_fault].
  destruct (private_data (user_data o)); [apply respects_store_listener|apply respects_fault].
Qed.

(** A new processor gets an address the allocator had not handed out. *)
Lemma respects_ao2_alloc_tps : keeps ao2_alloc_tps.
Proof.
  intros s a s' H. unfold ao2_alloc_tps, bind, ask_oracle, fresh_handle in H.
  destruct (hd true (oracle s)); cbn in H; injection H as _ <-.
  - split; [cbn; lia|]. intros h o' Hh Ho'. cbn in Ho', Hh.
    rewrite lookup_insert_ne in Ho' by lia. now exists o'.
  - now apply flags_kept_same.
Qed.

Lemma respects_ao2_alloc_listener (cbs : ast_taskprocessor_listener_callbacks) :
  keeps (ao2_alloc_listener cbs).
Proof.
  intros s a s' H. unfold ao2_alloc_listener, bind, ask_oracle, fresh_handle in H.
  destruct (hd true (oracle s)); cbn in H; injection H as _ <-.
  - split; [cbn; lia|]. intros h o' Hh Ho'. now exists o'.
  - now apply flags_kept_same.
Qed.

Lemma respects_delete_tps (h : handle) :
  keeps (modify (fun s => with_processors (delete h (processors s)) s)).
Proof.
  intros s a s' H. injection H as _ <-. split; [cbn; lia|].
  intros h' o' _ Ho'. cbn in Ho'.
  destruct (decide (h = h')) as [<-|Hne].
  - now rewrite lookup_delete_eq in Ho'.
  - rewrite lookup_delete_ne in Ho' by exact Hne. now exists o'.
Qed.

Create HintDb respects.

#[local] Hint Resolve respects_ret respects_fault respects_gets respects_ask_oracle
  respects_load_tps respects_load_listener respects_store_listener
  respects_update_listener respects_call_listener respects_ao2_alloc_tps
  respects_ao2_alloc_listener respects_delete_tps : respects.

(** One step of the proof that a function keeps the flags: split a bind,
    take a branch apart, or close the goal with a lemma on a function met
    before. *)
Ltac respects_step :=
  match goal with
  | |- respects (bind _ _) => apply respects_bind; [|intros]
  | |- respects (match ?x with Some _ => _ | None => _ end) => destruct x
  | |- respects (match ?x with (_, _) => _ end) => destruct x
  | |- respects (if ?b then _ else _) => destruct b
  | |- respects (modify _) => apply respects_modify; now intros
  | |- respects (update_tps _ _) => apply respects_update_tps; now intros
  | |- respects (locked _ _) => apply respects_locked; now intros
  | |- respects _ => solve [auto with respects]
  end.

Ltac respects_all := repeat respects_step.

Lemma respects_listener_destroy (obj : ast_taskprocessor_listener) :
  keeps (listener_destroy obj).
Proof.
  unfold listener_destroy. destruct (private_data obj); [|apply respects_fault].
  destruct (destroy (callbacks obj) p). apply respects_ret.
Qed.

Lemma respects_ao2_ref_listener (l : option handle) (delta : Z) :
  keeps (ao2_ref_listener l delta).
Proof.
  pose proof respects_listener_destroy.
  unfold ao2_ref_listener. destruct l; respects_all.
Qed.

#[local] Hint Resolve respects_listener_destroy respects_ao2_ref_listener : respects.

Lemma respects_tps_taskprocessor_destroy (p : option handle) :
  keeps (tps_taskprocessor_destroy p).
Proof. unfold tps_taskprocessor_destroy. destruct p; respects_all. Qed.

#[local] Hint Resolve respects_tps_taskprocessor_destroy : respects.

Lemma respects_ao2_ref_tps (p : option handle) (delta : Z) :
  keeps (ao2_ref_tps p delta).
Proof.
  destruct p as [h|]; [|apply respects_ret].
  intros s a s' H. unfold ao2_ref_tps in H.
  apply bind_inv in H. destruct H as (o & s1 & Hload & H).
  unfold load_tps in Hload. destruct (processors s !! h) as [o0|] eqn:Ho; [|discriminate].
  injection Hload as <- <-.
  apply bind_inv in H. destruct H as ([] & s2 & Hstore & H).
  injection Hstore as <-.
  set (s2 := with_processors
               (<[h := set_ref_counter (to_int (ref_counter o0 + delta)) o0]>
                  (processors s)) s) in *.
  apply flags_kept_trans with (s2 := s2).
  - split; [cbn; lia|]. intros h' o' _ Ho'. cbn in Ho'.
    destruct (decide (h = h')) as [<-|Hne].
    + rewrite lookup_insert_eq in Ho'. injection Ho' as <-. now exists o0.
    + rewrite lookup_insert_ne in Ho' by exact Hne. now exists o'.
  - clearbody s2. revert s2 a s' H.
    change (keeps ((if to_int (ref_counter o0 + delta) <=? 0
                    then tps_taskprocessor_destroy (Some h) ;;
                         modify (fun s => with_processors (delete h (processors s)) s)
                    else ret tt) ;; ret (ref_counter o0))).
    respects_all.
Qed.

#[local] Hint Resolve respects_ao2_ref_tps : respects.

Lemma respects_ao2_cleanup_tps (p : option handle) : keeps (ao2_cleanup_tps p).
Proof. unfold ao2_cleanup_tps. destruct p; respects_all. Qed.

Lemma respects_ao2_cleanup_listener (l : option handle) : keeps (ao2_cleanup_listener l).
Proof. unfold ao2_cleanup_listener. destruct l; respects_all. Qed.

#[local] Hint Resolve respects_ao2_cleanup_tps respects_ao2_cleanup_listener : respects.

Lemma respects_bucket_find (key : string) (flags : Z) (bucket : list handle) :
  keeps (bucket_find key flags bucket).
Proof.
  induction bucket as [|h rest IH]; cbn [bucket_find]; respects_all.
Qed.

#[local] Hint Resolve respects_bucket_find : respects.

Lemma respects_ao2_find (key : string) (flags : Z) :
  keeps (ao2_find ast_str_case_hash key flags).
Proof. unfold ao2_find. respects_all. Qed.

Lemma respects_ao2_link (p : option handle) : keeps (ao2_link ast_str_case_hash p).
Proof. unfold ao2_link. respects_all. Qed.

Lemma respects_ao2_unlink (p : option handle) : keeps (ao2_unlink ast_str_case_hash p).
Proof. unfold ao2_unlink. respects_all. Qed.

Lemma respects_ast_tps_init : keeps ast_tps_init.
Proof. unfold ast_tps_init. respects_all. Qed.

#[local] Hint Resolve respects_ao2_find respects_ao2_link respects_ao2_unlink
  respects_ast_tps_init : respects.

Lemma respects_tps_task_alloc (f : task_callback) (x : Z) : keeps (tps_task_alloc f x).
Proof. unfold tps_task_alloc. respects_all. Qed.

Lemma respects_tps_task_free (task : option tps_task) : keeps (tps_task_free task).
Proof. unfold tps_task_free. respects_all. Qed.

Lemma respects_call_execute (task : tps_task) : keeps (call_execute task).
Proof. unfold call_execute. respects_all. Qed.

Lemma pop_locked_flag (t : ast_taskprocessor) :
  shutting_down (snd (pop_locked t)) = shutting_down t.
Proof.
  unfold pop_locked. destruct (shutting_down t) eqn:E; [exact E|].
  destruct (tps_queue t); exact E.
Qed.

Lemma stats_locked_flag (t : ast_taskprocessor) :
  shutting_down (snd (stats_locked t)) = shutting_down t.
Proof. unfold stats_locked. now destruct (stats t). Qed.

Lemma respects_tps_taskprocessor_pop (p : option handle) :
  keeps (tps_taskprocessor_pop p).
Proof. apply respects_locked. apply pop_locked_flag. Qed.

#[local] Hint Resolve respects_tps_task_alloc respects_tps_task_free
  respects_call_execute respects_tps_taskprocessor_pop : respects.

Lemma respects_notify_task_pushed (p : option handle) (previous_size : Z) :
  keeps (notify_task_pushed p previous_size).
Proof. unfold notify_task_pushed. respects_all. Qed.

Lemma respects_notify_emptied (p : option handle) (size : Z) :
  keeps (notify_emptied p size).
Proof. unfold notify_emptied. respects_all. Qed.

#[local] Hint Resolve respects_notify_task_pushed respects_notify_emptied : respects.

Lemma respects_ast_taskprocessor_push (p : option handle) (f : option task_callback)
    (x : Z) :
  keeps (ast_taskprocessor_push p f x).
Proof. unfold ast_taskprocessor_push. destruct p, f; respects_all. Qed.

Lemma respects_ast_taskprocessor_execute (p : option handle) :
  keeps (ast_taskprocessor_execute p).
Proof.
  unfold ast_taskprocessor_execute. respects_all.
  apply respects_locked. apply stats_locked_flag.
Qed.

Lemma respects_listener_shutdown (l : option handle) : keeps (listener_shutdown l).
Proof. unfold listener_shutdown. respects_all. Qed.

#[local] Hint Resolve respects_listener_shutdown : respects.

Lemma respects_ast_taskprocessor_listener_alloc
    (cbs : ast_taskprocessor_listener_callbacks) :
  keeps (ast_taskprocessor_listener_alloc cbs).
Proof. unfold ast_taskprocessor_listener_alloc. respects_all. Qed.

Lemma respects_call_start (l : option handle) : keeps (call_start l).
Proof. unfold call_start. respects_all. Qed.

Lemma respects_ast_taskprocessor_unreference (p : option handle) :
  keeps (ast_taskprocessor_unreference ast_str_case_hash p).
Proof. unfold ast_taskprocessor_unreference. destruct p; respects_all. Qed.

#[local] Hint Resolve respects_call_start respects_ast_taskprocessor_unreference
  : respects.

Lemma respects_ast_taskprocessor_create_with_listener (nm : string) (l : option handle) :
  keeps (ast_taskprocessor_create_with_listener ast_str_case_hash nm l).
Proof. unfold ast_taskprocessor_create_with_listener. respects_all. Qed.

Lemma step_keeps_flags (h : handle) (lb : label) (s s' : state) :
  step h lb s s' -> flags_kept s s'.
Proof.
  intros Hstep. destruct Hstep as
    [f x r s s' H | task prev s s' H | prev s s' H | task s s' H | s s' H
    | task status s s' H | task s s' H | size s s' H | size r s s' H].
  - eapply respects_tps_task_alloc; exact H.
  - eapply (respects_locked (Some h) (push_locked task)); [now intros|exact H].
  - eapply respects_notify_task_pushed; exact H.
  - eapply respects_tps_taskprocessor_pop; exact H.
  - eapply respects_tps_taskprocessor_pop; exact H.
  - eapply respects_call_execute; exact H.
  - eapply respects_tps_task_free; exact H.
  - eapply (respects_locked (Some h) stats_locked); [apply stats_locked_flag|exact H].
  - eapply respects_notify_emptied; exact H.
Qed.

Lemma call_keeps_flags (s s' : state) :
  call ast_str_case_hash s s' -> flags_kept s s'.
Proof.
  intros Hcall. destruct Hcall as
    [h lb s s' H | p f d r s s' H | p r s s' H | p r s s' H | cbs r s s' H
    | nm l r s s' H | r s s' H].
  - eapply step_keeps_flags; exact H.
  - eapply respects_ast_taskprocessor_push; exact H.
  - eapply respects_ast_taskprocessor_execute; exact H.
  - eapply respects_ast_taskprocessor_unreference; exact H.
  - eapply respects_ast_taskprocessor_listener_alloc; exact H.
  - eapply respects_ast_taskprocessor_create_with_listener; exact H.
  - eapply respects_ast_tps_init; exact H.
Qed.

Lemma calls_keep_flags (s s' : state) :
  rtc (call ast_str_case_hash) s s' -> flags_kept s s'.
Proof.
  induction 1 as [s|s1 s2 s3 Hcall _ IH]; [apply flags_kept_refl|].
  eapply flags_kept_trans; [apply call_keeps_flags; exact Hcall|exact IH].
Qed.

(** C6: once the flag of a processor is set it stays set for as long as the
    processor lives, whatever functions of the file are called and however
    their steps interleave; in every such later state
    [tps_taskprocessor_pop] pops nothing and execute-one returns 0 and leaves
    the whole state, the queue and the statistics included, as it was.  In a
    run of push and execute-one steps no step pops a task. *)
Theorem C6_shutting_down_is_terminal (s : state) (h : handle)
    (o : ao2 ast_taskprocessor) :
  processors s !! h = Some o ->
  shutting_down (user_data o) = true ->
  (h < next_handle s)%positive ->
  (forall s' o',
     rtc (call ast_str_case_hash) s s' ->
     processors s' !! h = Some o' ->
     shutting_down (user_data o') = true /\
     tps_taskprocessor_pop (Some h) s' = Some (None, s') /\
     ast_taskprocessor_execute (Some h) s' = Some (0, s')) /\
  (forall ls s',
     steps h ls s s' ->
     exists o',
       processors s' !! h = Some o' /\
       shutting_down (user_data o') = true /\
       count_label PopTask ls = O /\
       (count_label PushSection ls = O ->
        tps_queue (user_data o') = tps_queue (user_data o)) /\
       (count_label StatsSection ls = O -> stats (user_data o') = stats (user_data o))).
Proof.
  intros Ho Hsd Hh. split.
  - intros s' o' Hcalls Ho'.
    destruct (calls_keep_flags s s' Hcalls) as (_ & Hkept).
    destruct (Hkept h o' Hh Ho') as (o0 & Ho0 & Hflag).
    assert (E : Some o0 = Some o) by exact (eq_trans (eq_sym Ho0) Ho).
    injection E as ->. rewrite Hsd in Hflag.
    assert (Hpop : tps_taskprocessor_pop (Some h) s' = Some (None, s')).
    { unfold tps_taskprocessor_pop. rewrite (locked_eq _ _ _ _ Ho').
      unfold pop_locked. rewrite Hflag. cbn. now rewrite (store_same _ _ _ Ho'). }
    split; [exact Hflag|]. split; [exact Hpop|].
    unfold ast_taskprocessor_execute. now rewrite (bind_eq _ _ _ _ _ Hpop).
  - intros ls s' Hsteps. induction Hsteps as [s|ls lb s s1 s2 Hsteps IH Hstep].
    + exists o. now repeat split.
    + destruct (IH Ho Hh) as (o1 & Ho1 & Hsd1 & Hc1 & Hq1 & Hst1).
      destruct (step_shutting_down h lb s1 s2 o1 Hstep Ho1) as (o2 & Ho2 & Hsd2 & Hno).
      destruct (Hno Hsd1) as (Hlb & Hq2 & Hst2).
      exists o2. split; [exact Ho2|]. split; [now rewrite Hsd2|].
      split; [now apply count_label_zero_snoc|].
      rewrite !count_label_snoc. split; intros Hc.
      * rewrite Hq2, Hq1; [reflexivity|lia|]. intros ->. cbn in Hc. lia.
      * rewrite Hst2, Hst1; [reflexivity|lia|]. intros ->. cbn in Hc. lia.
Qed.

(** ** The statistics along a run *)

(** What a step does to the statistics of the processor at [h]. *)
Lemma step_statistics (h : handle) (lb : label) (s s' : state) (o : ao2 ast_taskprocessor) :
  step h lb s s' ->
  processors s !! h = Some o ->
  exists o',
    processors s' !! h = Some o' /\
    (lb <> StatsSection -> stats (user_data o') = stats (user_data o)) /\
    (lb = StatsSection ->
     stats (user_data o') = stats (snd (stats_locked (user_data o)))).
Proof.
  intros Hstep Ho. destruct Hstep as
    [f x r s s' H | task prev s s' H | prev s s' H | task s s' H | s s' H
    | task status s s' H | task s s' H | size s s' H | size r s s' H].
  - apply tps_task_alloc_processors in H. exists o. rewrite H.
    split; [exact Ho|]. split; [reflexivity|discriminate].
  - apply locked_inv in H. destruct H as (o1 & Ho1 & _ & ->).
    rewrite Ho in Ho1. injection Ho1 as <-.
    eexists. cbn. rewrite lookup_insert_eq. split; [reflexivity|].
    split; [reflexivity|discriminate].
  - apply notify_task_pushed_processors in H. exists o. rewrite H.
    split; [exact Ho|]. split; [reflexivity|discriminate].
  - apply locked_inv in H. destruct H as (o1 & Ho1 & Hpop & ->).
    rewrite Ho in Ho1. injection Ho1 as <-.
    eexists. cbn. rewrite lookup_insert_eq. split; [reflexivity|].
    split; [|discriminate]. intros _. unfold pop_locked.
    destruct (shutting_down (user_data o)); [reflexivity|].
    destruct (tps_queue (user_data o)); reflexivity.
  - apply locked_inv in H. destruct H as (o1 & Ho1 & Hpop & ->).
    rewrite Ho in Ho1. injection Ho1 as <-.
    eexists. cbn. rewrite lookup_insert_eq. split; [reflexivity|].
    split; [|discriminate]. intros _. unfold pop_locked.
    destruct (shutting_down (user_data o)); [reflexivity|].
    destruct (tps_queue (user_data o)); reflexivity.
  - apply call_execute_processors in H. exists o. rewrite H.
    split; [exact Ho|]. split; [reflexivity|discriminate].
  - apply tps_task_free_processors in H. exists o. rewrite H.
    split; [exact Ho|]. split; [reflexivity|discriminate].
  - apply locked_inv in H. destruct H as (o1 & Ho1 & _ & ->).
    rewrite Ho in Ho1. injection Ho1 as <-.
    eexists. cbn. rewrite lookup_insert_eq. split; [reflexivity|].
    split; [intros E; now contradiction E|reflexivity].
  - apply notify_emptied_processors in H. exists o. rewrite H.
    split; [exact Ho|]. split; [reflexivity|discriminate].
Qed.

Lemma to_ulong_add (a b : Z) : to_ulong (to_ulong a + b) = to_ulong (a + b).
Proof. unfold to_ulong. now rewrite Zplus_mod_idemp_l. Qed.

(** X1: along every run of push and execute-one steps from a fresh
    processor the statistics stay allocated and the count of processed tasks
    is the number of statistics sections that have run, that is, of
    executions completed, as an [unsigned long]. *)
Theorem X1_processed_count_counts_completed_executions (h : handle) (ls : list label)
    (s0 s : state) (o0 : ao2 ast_taskprocessor) :
  processors s0 !! h = Some o0 ->
  fresh (user_data o0) ->
  steps h ls s0 s ->
  exists o st,
    processors s !! h = Some o /\
    stats (user_data o) = Some st /\
    _tasks_processed_count st = to_ulong (completed ls) /\
    (completed ls <= ULONG_MAX -> _tasks_processed_count st = completed ls).
Proof.
  intros Ho0 (_ & _ & Hst0 & _) Hsteps.
  assert (H : exists o st, processors s !! h = Some o /\ stats (user_data o) = Some st /\
                           _tasks_processed_count st = to_ulong (completed ls)).
  { induction Hsteps as [s|ls lb s s' s'' Hsteps IH Hstep].
    - exists o0. eexists. split; [exact Ho0|]. split; [exact Hst0|]. reflexivity.
    - destruct (IH Ho0) as (o & st & Ho & Hst & Hc).
      destruct (step_statistics h lb s' s'' o Hstep Ho) as (o' & Ho' & Hne & Heq).
      unfold completed in *. rewrite count_label_snoc.
      destruct lb; try (exists o', st; split; [exact Ho'|]; split;
        [rewrite Hne by discriminate; exact Hst|cbn; rewrite Nat.add_0_r; exact Hc]).
      exists o'. eexists. split; [exact Ho'|].
      rewrite (Heq eq_refl). unfold stats_locked. rewrite Hst. cbn [snd set_stats stats].
      split; [reflexivity|].
      cbn [_tasks_processed_count label_eqb]. rewrite Hc, to_ulong_add. f_equal. lia. }
  destruct H as (o & st & Ho & Hst & Hc). exists o, st.
  split; [exact Ho|]. split; [exact Hst|]. split; [exact Hc|].
  intros Hle. rewrite Hc. apply to_ulong_small. unfold completed in *. lia.
Qed.

(** X2: the high-water mark never goes down.  From any state in which the
    processor has its statistics, every run of push and execute-one steps
    leaves the statistics allocated with a mark at least as high. *)
Theorem X2_high_water_mark_never_decreases (h : handle) (ls : list label)
    (s0 s : state) (o0 : ao2 ast_taskprocessor) (st0 : tps_taskprocessor_stats) :
  processors s0 !! h = Some o0 ->
  stats (user_data o0) = Some st0 ->
  steps h ls s0 s ->
  exists o st,
    processors s !! h = Some o /\
    stats (user_data o) = Some st /\
    max_qsize st0 <= max_qsize st.
Proof.
  intros Ho0 Hst0 Hsteps. induction Hsteps as [s|ls lb s s' s'' Hsteps IH Hstep].
  - exists o0, st0. split; [exact Ho0|]. split; [exact Hst0|]. lia.
  - destruct (IH Ho0) as (o & st & Ho & Hst & Hmx).
    destruct (step_statistics h lb s' s'' o Hstep Ho) as (o' & Ho' & Hne & Heq).
    destruct lb; try (exists o', st; split; [exact Ho'|]; split;
      [rewrite Hne by discriminate; exact Hst|exact Hmx]).
    exists o'. eexists. split; [exact Ho'|].
    rewrite (Heq eq_refl). unfold stats_locked. rewrite Hst. cbn [snd set_stats stats].
    split; [reflexivity|].
    cbn [max_qsize].
    destruct (to_ulong (tps_taskprocessor_depth (Some (user_data o))) >? max_qsize st) eqn:E;
      [|exact Hmx].
    rewrite Z.gtb_ltb in E. apply Z.ltb_lt in E. lia.
Qed.

Lemma steps_app (h : handle) (ls1 ls2 : list label) (s s1 s2 : state) :
  steps h ls1 s s1 -> steps h ls2 s1 s2 -> steps h (ls1 ++ ls2) s s2.
Proof.
  intros H1 H2. induction H2 as [s1|ls lb s1 s2 s3 H2 IH Hstep].
  - now rewrite app_nil_r.
  - rewrite app_assoc. eapply steps_snoc; [apply IH; exact H1|exact Hstep].
Qed.

(** An execution that finds a task is the long run. *)
Lemma execute_task_is_steps (h : handle) (r : Z) (task : tps_task) (s s' : state) :
  fst <$> tps_taskprocessor_pop (Some h) s = Some (Some task) ->
  ast_taskprocessor_execute (Some h) s = Some (r, s') ->
  steps h [PopTask; Unlocked; Unlocked; StatsSection; Unlocked] s s'.
Proof.
  intros Hpop H. destruct (execute_is_steps h r s s' H) as [Hs|Hs]; [|exact Hs].
  exfalso. inversion Hs as [|ls lb s1 s2 s3 Hs' Hstep Els]; subst.
  destruct ls as [|a ls]; [|destruct ls; discriminate].
  injection Els as Els. subst lb. inversion Hstep as [| | | |? ? Hnone| | | |]; subst.
  inversion Hs'; subst; [|match goal with E : _ ++ [_] = [] |- _ =>
                            destruct (app_cons_not_nil _ _ _ (eq_sym E)) end].
  rewrite Hnone in Hpop. discriminate.
Qed.

(** ** The queue along a run, task by task *)

(** A step that is neither a push section nor a pop that finds a task keeps
    the queue of the processor. *)
Lemma step_other_queue (h : handle) (lb : label) (s s' : state)
    (o : ao2 ast_taskprocessor) :
  step h lb s s' -> lb <> PushSection -> lb <> PopTask ->
  processors s !! h = Some o ->
  exists o', processors s' !! h = Some o' /\
             tps_queue (user_data o') = tps_queue (user_data o).
Proof.
  intros Hstep Hn1 Hn2 Ho.
  destruct Hstep as
    [f x r s s' H | task prev s s' H | prev s s' H | task s s' H | s s' H
    | task status s s' H | task s s' H | size s s' H | size r s s' H];
    try contradiction.
  - apply tps_task_alloc_processors in H. exists o. rewrite H. now split.
  - apply notify_task_pushed_processors in H. exists o. rewrite H. now split.
  - apply locked_inv in H. destruct H as (o1 & Ho1 & Hpop & ->).
    rewrite Ho in Ho1. injection Ho1 as <-.
    eexists. cbn. rewrite lookup_insert_eq. split; [reflexivity|].
    unfold pop_locked in *. destruct (shutting_down (user_data o)); [reflexivity|].
    destruct (tps_queue (user_data o)) eqn:E; [cbn; now rewrite E|discriminate].
  - apply call_execute_processors in H. exists o. rewrite H. now split.
  - apply tps_task_free_processors in H. exists o. rewrite H. now split.
  - apply locked_inv in H. destruct H as (o1 & Ho1 & _ & ->).
    rewrite Ho in Ho1. injection Ho1 as <-.
    eexists. cbn. rewrite lookup_insert_eq. split; [reflexivity|].
    now destruct (stats_locked_fields (user_data o)) as (Hq & _).
  - apply notify_emptied_processors in H. exists o. rewrite H. now split.
Qed.

(** X3: whatever the interleaving of the sections of concurrent pushes and
    executions, the queue is first in, first out, task by task: the tasks that
    were queued at the start followed by the tasks the push sections appended
    are the tasks the pops returned followed by the tasks still queued.  So
    the tasks are popped in the order of the push sections, none twice and
    none skipped. *)
Theorem X3_pops_return_tasks_in_push_order (h : handle)
    (pushed popped : list tps_task) (s0 s : state) (o0 : ao2 ast_taskprocessor) :
  processors s0 !! h = Some o0 ->
  trace h pushed popped s0 s ->
  exists o,
    processors s !! h = Some o /\
    tps_queue (user_data o0) ++ pushed = popped ++ tps_queue (user_data o).
Proof.
  intros Ho0 Htrace.
  induction Htrace as
    [s|pushed popped task prev s s' s'' Htrace IH Hpush
    |pushed popped task s s' s'' Htrace IH Hpop
    |pushed popped lb s s' s'' Htrace IH Hstep Hn1 Hn2].
  - exists o0. split; [exact Ho0|]. now rewrite app_nil_r.
  - destruct (IH Ho0) as (o & Ho & Hq).
    apply locked_inv in Hpush. destruct Hpush as (o1 & Ho1 & _ & ->).
    rewrite Ho in Ho1. injection Ho1 as <-.
    eexists. cbn. rewrite lookup_insert_eq. split; [reflexivity|]. cbn.
    now rewrite !app_assoc, Hq.
  - destruct (IH Ho0) as (o & Ho & Hq).
    apply locked_inv in Hpop. destruct Hpop as (o1 & Ho1 & Hpop & ->).
    rewrite Ho in Ho1. injection Ho1 as <-.
    eexists. cbn. rewrite lookup_insert_eq. split; [reflexivity|].
    unfold pop_locked in *. destruct (shutting_down (user_data o)); [discriminate|].
    destruct (tps_queue (user_data o)) as [|t0 rest]; [discriminate|].
    cbn in *. assert (task = t0) by congruence. subst t0.
    rewrite Hq, <- app_assoc. reflexivity.
  - destruct (IH Ho0) as (o & Ho & Hq).
    destruct (step_other_queue h lb s' s'' o Hstep Hn1 Hn2 Ho) as (o' & Ho' & Hq').
    exists o'. split; [exact Ho'|]. now rewrite Hq'.
Qed.

(** Every run of steps is such a run with its tasks. *)
Lemma steps_trace (h : handle) (ls : list label) (s0 s : state) :
  steps h ls s0 s ->
  exists pushed popped,
    trace h pushed popped s0 s /\
    length pushed = count_label PushSection ls /\
    length popped = count_label PopTask ls.
Proof.
  induction 1 as [s|ls lb s s' s'' Hsteps IH Hstep].
  - exists [], []. repeat split. constructor.
  - destruct IH as (pushed & popped & Htrace & Hl1 & Hl2).
    rewrite !count_label_snoc.
    destruct Hstep as
      [f x r s' s'' H | task prev s' s'' H | prev s' s'' H | task s' s'' H | s' s'' H
      | task status s' s'' H | task s' s'' H | size s' s'' H | size r s' s'' H].
    2: { exists (pushed ++ [task]), popped. rewrite length_app. cbn.
         split; [eapply trace_push; eauto|]. split; lia. }
    3: { exists pushed, (popped ++ [task]). rewrite length_app. cbn.
         split; [eapply trace_pop; eauto|]. split; lia. }
    all: exists pushed, popped; cbn; split; [|split; lia].
    all: eapply trace_other; [exact Htrace| | |].
    all: try (eapply step_alloc; exact H).
    all: try (eapply step_task_pushed; exact H).
    all: try (eapply step_pop_nothing; exact H).
    all: try (eapply step_callback; exact H).
    all: try (eapply step_free; exact H).
    all: try (eapply step_stats; exact H).
    all: try (eapply step_emptied; exact H).
    all: discriminate.
Qed.

(** ** Sequences of calls *)

(** A push on a bound processor, whatever its arguments and whatever the
    allocator answers. *)
Lemma bound_push_any (s : state) (h l : handle) (t : ast_taskprocessor)
    (cbs : ast_taskprocessor_listener_callbacks) (d : P)
    (f : option task_callback) (x : Z) :
  bound s h t l cbs d ->
  exists r s' t' d',
    ast_taskprocessor_push (Some h) f x s = Some (r, s') /\
    bound s' h t' l cbs d' /\
    world s' = world s /\
    task_envelopes s' - Z.of_nat (length (tps_queue t'))
    = task_envelopes s - Z.of_nat (length (tps_queue t)).
Proof.
  intros Hb. destruct f as [g|].
  - destruct (hd true (oracle s)) eqn:Hok.
    + destruct (bound_push s h l t cbs d g x Hb Hok) as (s' & Hpush & Hb' & Hw & He & _).
      exists 0, s'. eexists _, _. split; [exact Hpush|]. split; [exact Hb'|].
      split; [exact Hw|]. cbn. rewrite length_app. cbn. lia.
    + exists (-1), (with_oracle (tl (oracle s)) s), t, d.
      destruct Hb as (o & lo & Ho & Ht & Hl & Hlo & Hcbs & Hd).
      unfold ast_taskprocessor_push, tps_task_alloc, bind, ask_oracle, load_tps.
      rewrite Hok. cbn. rewrite Ho. split; [reflexivity|]. split; [|auto].
      now exists o, lo.
  - exists (-1), s, t, d. now repeat split.
Qed.

(** An execution on a bound processor, whatever the queue holds. *)
Lemma bound_execute_any (s : state) (h l : handle) (t : ast_taskprocessor)
    (cbs : ast_taskprocessor_listener_callbacks) (d : P) :
  bound s h t l cbs d ->
  exists r s' t' d',
    ast_taskprocessor_execute (Some h) s = Some (r, s') /\
    bound s' h t' l cbs d' /\
    task_envelopes s' - Z.of_nat (length (tps_queue t'))
    = task_envelopes s - Z.of_nat (length (tps_queue t)).
Proof.
  intros Hb. pose proof (bound_execute s h l t cbs d Hb) as Hex.
  destruct (pop_locked t) as [[task|] t1] eqn:E.
  - cbn zeta in Hex. destruct Hex as (s' & Hex & Hb' & _ & He & _).
    eexists _, s', _, _. split; [exact Hex|]. split; [exact Hb'|].
    destruct (stats_locked_fields t1) as (Hq & _). cbn zeta in Hq. rewrite Hq, He.
    unfold pop_locked in E. destruct (shutting_down t); [discriminate|].
    destruct (tps_queue t) as [|t0 rest]; [discriminate|].
    injection E as _ <-. cbn [set_queue tps_queue length]. lia.
  - exists 0, s, t, d. now repeat split.
Qed.

(** X4: on a live processor with its listener, a caller may make any
    sequence of pushes and executions, with any arguments and whatever the
    allocator answers: no call faults, every call returns, and every
    envelope that was allocated is either still in the queue or was freed by
    the execution that ran it (the number of envelopes alive minus the length
    of the queue never changes). *)
Theorem X4_envelopes_are_queued_or_freed (ops : list op) (s : state) (h l : handle)
    (t : ast_taskprocessor) (cbs : ast_taskprocessor_listener_callbacks) (d : P) :
  bound s h t l cbs d ->
  exists rs s' t' d',
    run_ops (Some h) ops s = Some (rs, s') /\
    length rs = length ops /\
    bound s' h t' l cbs d' /\
    task_envelopes s' - Z.of_nat (length (tps_queue t'))
    = task_envelopes s - Z.of_nat (length (tps_queue t)).
Proof.
  revert s t d. induction ops as [|[f x|] ops IH]; intros s t d Hb.
  - exists [], s, t, d. now repeat split.
  - destruct (bound_push_any s h l t cbs d f x Hb) as (r & s1 & t1 & d1 & Hpush & Hb1 & _ & He1).
    destruct (IH s1 t1 d1 Hb1) as (rs & s2 & t2 & d2 & Hrun & Hlen & Hb2 & He2).
    exists (r :: rs), s2, t2, d2. cbn [run_ops].
    rewrite (bind_eq _ _ _ _ _ Hpush), (bind_eq _ _ _ _ _ Hrun).
    split; [reflexivity|]. cbn [length]. split; [now rewrite Hlen|].
    split; [exact Hb2|lia].
  - destruct (bound_execute_any s h l t cbs d Hb) as (r & s1 & t1 & d1 & Hex & Hb1 & He1).
    destruct (IH s1 t1 d1 Hb1) as (rs & s2 & t2 & d2 & Hrun & Hlen & Hb2 & He2).
    exists (r :: rs), s2, t2, d2. cbn [run_ops].
    rewrite (bind_eq _ _ _ _ _ Hex), (bind_eq _ _ _ _ _ Hrun).
    split; [reflexivity|]. cbn [length]. split; [now rewrite Hlen|].
    split; [exact Hb2|lia].
Qed.

(** ** One execution on a queue that holds a task *)

(** An execution on a processor whose counter is the length of its queue:
    it runs the head of the queue, and its result says whether a task is
    left. *)
Lemma bound_execute_cons (s : state) (h l : handle) (t : ast_taskprocessor)
    (cbs : ast_taskprocessor_listener_callbacks) (d : P)
    (task : tps_task) (rest : list tps_task) :
  bound s h t l cbs d ->
  shutting_down t = false ->
  tps_queue t = task :: rest ->
  tps_queue_size t = Z.of_nat (length (task :: rest)) ->
  Z.of_nat (length (task :: rest)) <= INT_MAX ->
  exists s' t',
    ast_taskprocessor_execute (Some h) s
    = Some (match rest with [] => 0 | _ => 1 end, s') /\
    bound s' h t' l cbs (match rest with [] => emptied cbs d | _ => d end) /\
    shutting_down t' = false /\
    tps_queue t' = rest /\
    tps_queue_size t' = Z.of_nat (length rest) /\
    world s' = fst (execute task (datap task) (world s)) /\
    task_envelopes s' = task_envelopes s - 1 /\
    oracle s' = oracle s.
Proof.
  intros Hb Hsd Hq Hsz Hmax.
  pose proof (bound_execute s h l t cbs d Hb) as Hex.
  rewrite (pop_locked_cons t task rest Hsd Hq) in Hex. cbn zeta in Hex.
  set (t0 := set_queue rest (to_long (tps_queue_size t - 1)) t) in *.
  destruct Hex as (s' & Hex & Hb' & Hw & He & Ho).
  assert (Hsz0 : tps_queue_size t0 = Z.of_nat (length rest)).
  { subst t0. cbn [set_queue tps_queue_size]. rewrite Hsz. cbn [length] in *.
    rewrite to_long_small; unfold LONG_MAX, INT_MAX in *; lia. }
  destruct (stats_locked_fields t0) as (Hq1 & Hsz1 & Hsd1 & _). cbn zeta in *.
  rewrite stats_locked_size, Hsz0 in Hex, Hb'.
  rewrite to_int_small in Hex, Hb' by (cbn [length] in Hmax; unfold INT_MAX in *; lia).
  exists s', (snd (stats_locked t0)).
  assert (Hres : forall (A : Type) (a b : A),
             (if Z.of_nat (length rest) =? 0 then a else b)
             = match rest with [] => a | _ => b end).
  { intros A a b. destruct rest; reflexivity. }
  rewrite !Hres in *.
  split; [exact Hex|]. split; [exact Hb'|].
  rewrite Hsd1, Hq1, Hsz1, Hsz0. repeat split; auto.
Qed.

(** ** Allocation of a listener and of a processor *)

Lemma listener_alloc_ok (cbs : ast_taskprocessor_listener_callbacks) (s : state)
    (d : P) (orc' : list bool) :
  hd true (oracle s) = true ->
  alloc cbs (tl (oracle s)) = (Some d, orc') ->
  ast_taskprocessor_listener_alloc cbs s
  = Some (Some (next_handle s),
          {| processors := processors s;
             listeners :=
               <[next_handle s :=
                   {| ref_counter := 1;
                      user_data := {| callbacks := cbs; tps := None;
                                      private_data := Some d |} |}]> (listeners s);
             next_handle := Pos.succ (next_handle s);
             tps_singletons := tps_singletons s;
             task_envelopes := task_envelopes s;
             world := world s;
             oracle := orc' |}).
Proof.
  intros Hok Halloc. unfold ast_taskprocessor_listener_alloc, ao2_alloc_listener.
  unfold bind at 1. unfold bind at 1. unfold ask_oracle. rewrite Hok.
  unfold bind at 1. unfold bind at 1. unfold fresh_handle, store_listener. fields.
  unfold bind at 1. fields. rewrite Halloc.
  unfold bind at 1. fields.
  erewrite bind_eq; [|apply update_listener_eq; fields; apply lookup_insert_eq].
  fields. rewrite insert_insert_eq.
  erewrite bind_eq; [|apply ao2_ref_listener_keep; fields;
                      [apply lookup_insert_eq|fields; unfold INT_MAX; lia]].
  fields. rewrite insert_insert_eq.
  unfold ao2_cleanup_listener.
  erewrite bind_eq; [|erewrite bind_eq;
                      [reflexivity|apply ao2_ref_listener_keep; fields;
                        [apply lookup_insert_eq|fields; unfold INT_MAX; lia]]].
  fields. rewrite insert_insert_eq. reflexivity.
Qed.

(** The path of [ast_taskprocessor_create_with_listener] on which every
    allocation succeeds and the listener starts. *)
Lemma create_with_listener_ok (nm : string) (s : state) (l : handle)
    (lo : ao2 ast_taskprocessor_listener) (d d' : P) (orc' : list bool)
    (buckets : list (list handle)) :
  listeners s !! l = Some lo ->
  private_data (user_data lo) = Some d ->
  0 < ref_counter lo < INT_MAX ->
  tps_singletons s = Some buckets ->
  hd true (oracle s) = true ->
  hd true (tl (oracle s)) = true ->
  hd true (tl (tl (oracle s))) = true ->
  hd true (tl (tl (tl (oracle s)))) = true ->
  start (callbacks (user_data lo)) d (tl (tl (tl (tl (oracle s))))) = ((0, d'), orc') ->
  ast_taskprocessor_create_with_listener ast_str_case_hash nm (Some l) s
  = Some (Some (next_handle s),
          {| processors :=
               <[next_handle s :=
                   {| ref_counter := 3;
                      user_data :=
                        {| name := Some nm;
                           stats := Some {| max_qsize := 0; _tasks_processed_count := 0 |};
                           tps_queue_size := 0; tps_queue := [];
                           listener := Some l; shutting_down := false |} |}]>
                 (processors s);
             listeners :=
               <[l := {| ref_counter := ref_counter lo + 1;
                         user_data := {| callbacks := callbacks (user_data lo);
                                         tps := Some (next_handle s);
                                         private_data := Some d' |} |}]> (listeners s);
             next_handle := Pos.succ (next_handle s);
             tps_singletons :=
               Some (alter (fun b => b ++ [next_handle s])
                           (bucket_index buckets (ast_str_case_hash nm)) buckets);
             task_envelopes := task_envelopes s;
             world := world s;
             oracle := orc' |}).
Proof.
  intros Hlo Hd Hcount Hc Hok1 Hok2 Hok3 Hok4 Hstart.
  unfold ast_taskprocessor_create_with_listener, ao2_alloc_tps.
  unfold bind at 1. unfold bind at 1. unfold ask_oracle at 1. rewrite Hok1.
  unfold bind at 1. unfold bind at 1. unfold fresh_handle, store_tps. fields.
  unfold bind at 1. unfold ask_oracle at 1. fields. rewrite Hok2.
  erewrite bind_eq; [|apply update_tps_eq; fields; apply lookup_insert_eq].
  fields. rewrite insert_insert_eq.
  unfold bind at 1. unfold ask_oracle at 1. fields. rewrite Hok3.
  erewrite bind_eq; [|apply update_tps_eq; fields; apply lookup_insert_eq].
  fields. rewrite insert_insert_eq.
  erewrite bind_eq; [|apply ao2_ref_listener_keep; fields; [exact Hlo|lia]].
  erewrite bind_eq; [|apply update_tps_eq; fields; apply lookup_insert_eq].
  fields. rewrite insert_insert_eq.
  erewrite bind_eq; [|apply ao2_ref_tps_keep; fields;
                      [apply lookup_insert_eq|fields; unfold INT_MAX; lia]].
  fields. rewrite insert_insert_eq.
  erewrite bind_eq; [|apply update_listener_eq; fields; apply lookup_insert_eq].
  fields. rewrite insert_insert_eq.
  unfold ao2_link. unfold bind at 1. unfold bind at 1. fields. rewrite Hc.
  unfold bind at 1. unfold ask_oracle at 1. fields. rewrite Hok4.
  unfold bind at 1. unfold load_tps at 1. fields. rewrite lookup_insert_eq. fields.
  unfold tps_hash_cb. fields.
  change (Z.land OBJ_POINTER OBJ_KEY =? 0) with true. cbv iota.
  unfold bind at 1. fields.
  erewrite bind_eq; [|apply ao2_ref_tps_keep; fields;
                      [apply lookup_insert_eq|fields; unfold INT_MAX; lia]].
  fields. rewrite insert_insert_eq.
  unfold bind at 1. unfold load_tps at 1. fields. rewrite lookup_insert_eq. fields.
  unfold call_start. unfold bind at 1. unfold bind at 1. unfold load_listener at 1.
  fields. rewrite lookup_insert_eq. fields. rewrite Hd.
  unfold bind at 1. fields. rewrite Hstart.
  unfold bind at 1. fields.
  erewrite bind_eq; [|apply update_listener_eq; fields; apply lookup_insert_eq].
  fields. rewrite insert_insert_eq. change (0 =? 0) with true. cbv iota.
  erewrite bind_eq; [|apply ao2_ref_tps_keep; fields;
                      [apply lookup_insert_eq|fields; unfold INT_MAX; lia]].
  fields. rewrite insert_insert_eq.
  unfold ao2_cleanup_tps.
  erewrite bind_eq; [|erewrite bind_eq;
                      [reflexivity|apply ao2_ref_tps_keep; fields;
                        [apply lookup_insert_eq|fields; unfold INT_MAX; lia]]].
  fields. rewrite insert_insert_eq. reflexivity.
Qed.

(** ** The answers of the environment *)

Lemma all_true_hd (n : nat) (orc : list bool) :
  forallb (fun b => b) (firstn (S n) orc) = true ->
  hd true orc = true /\ forallb (fun b => b) (firstn n (tl orc)) = true.
Proof.
  destruct orc as [|b orc]; cbn.
  - intros _. split; [reflexivity|]. now destruct n.
  - intros H. apply andb_prop in H. exact H.
Qed.

Lemma skipn_S_tl {A : Type} (n : nat) (l : list A) : skipn (S n) l = skipn n (tl l).
Proof. destruct l; [now destruct n|reflexivity]. Qed.

(** ** Failures on the way to a new processor *)

(** The allocation of the processor fails: nothing was done. *)
Lemma create_with_listener_no_memory (nm : string) (l : option handle) (s : state) :
  hd true (oracle s) = false ->
  ast_taskprocessor_create_with_listener ast_str_case_hash nm l s
  = Some (None, with_oracle (tl (oracle s)) s).
Proof.
  intros Hno. unfold ast_taskprocessor_create_with_listener, ao2_alloc_tps.
  unfold bind at 1. unfold bind at 1. unfold ask_oracle. now rewrite Hno.
Qed.

(** The allocation of the statistics fails: the processor is released. *)
Lemma create_with_listener_no_stats (nm : string) (l : option handle) (s : state) :
  hd true (oracle s) = true ->
  hd true (tl (oracle s)) = false ->
  ast_taskprocessor_create_with_listener ast_str_case_hash nm l s
  = Some (None,
          {| processors := delete (next_handle s) (processors s);
             listeners := listeners s;
             next_handle := Pos.succ (next_handle s);
             tps_singletons := tps_singletons s;
             task_envelopes := task_envelopes s;
             world := world s;
             oracle := tl (tl (oracle s)) |}).
Proof.
  intros Hok Hno. unfold ast_taskprocessor_create_with_listener, ao2_alloc_tps.
  unfold bind at 1. unfold bind at 1. unfold ask_oracle at 1. rewrite Hok.
  unfold bind at 1. unfold bind at 1. unfold fresh_handle, store_tps. fields.
  unfold bind at 1. unfold ask_oracle at 1. fields. rewrite Hno.
  unfold ao2_cleanup_tps.
  erewrite bind_eq;
    [|erewrite bind_eq;
      [reflexivity
      |apply ao2_ref_tps_last; fields; [apply lookup_insert_eq|reflexivity|reflexivity]]].
  fields. now rewrite delete_insert_eq.
Qed.

(** X9: when the copy of the name cannot be allocated,
    [ast_taskprocessor_create_with_listener] releases the new processor
    twice, once by hand and once more when the variable goes out of scope:
    the first release destroys the object, the second one reads the count of
    an object that does not exist any more, and the call faults. *)
Theorem X9_name_failure_releases_the_processor_twice (nm : string) (l : option handle)
    (s : state) :
  hd true (oracle s) = true ->
  hd true (tl (oracle s)) = true ->
  hd true (tl (tl (oracle s))) = false ->
  ast_taskprocessor_create_with_listener ast_str_case_hash nm l s = None /\
  exists s1,
    (p <- ao2_alloc_tps ;; ask_oracle ;;
     update_tps p (set_stats (Some {| max_qsize := 0; _tasks_processed_count := 0 |})) ;;
     ask_oracle ;; ao2_ref_tps p (-1)) s = Some (1, s1) /\
    processors s1 !! next_handle s = None /\
    ao2_cleanup_tps (Some (next_handle s)) s1 = None.
Proof.
  intros Hok1 Hok2 Hno.
  assert (Hrun : (p <- ao2_alloc_tps ;; ask_oracle ;;
                  update_tps p (set_stats (Some {| max_qsize := 0;
                                                   _tasks_processed_count := 0 |})) ;;
                  ask_oracle ;; ao2_ref_tps p (-1)) s
                 = Some (1, {| processors := delete (next_handle s) (processors s);
                               listeners := listeners s;
                               next_handle := Pos.succ (next_handle s);
                               tps_singletons := tps_singletons s;
                               task_envelopes := task_envelopes s;
                               world := world s;
                               oracle := tl (tl (tl (oracle s))) |})).
  { unfold ao2_alloc_tps.
    unfold bind at 1. unfold bind at 1. unfold ask_oracle at 1. rewrite Hok1.
    unfold bind at 1. unfold bind at 1. unfold fresh_handle, store_tps. fields.
    unfold bind at 1. unfold ask_oracle at 1. fields.
    erewrite bind_eq; [|apply update_tps_eq; fields; apply lookup_insert_eq].
    fields. rewrite insert_insert_eq.
    unfold bind at 1. unfold ask_oracle at 1. fields.
    erewrite ao2_ref_tps_last; fields;
      [|apply lookup_insert_eq|reflexivity|reflexivity].
    fields. now rewrite delete_insert_eq. }
  split.
  - unfold ast_taskprocessor_create_with_listener, ao2_alloc_tps.
    unfold bind at 1. unfold bind at 1. unfold ask_oracle at 1. rewrite Hok1.
    unfold bind at 1. unfold bind at 1. unfold fresh_handle, store_tps. fields.
    unfold bind at 1. unfold ask_oracle at 1. fields. rewrite Hok2.
    erewrite bind_eq; [|apply update_tps_eq; fields; apply lookup_insert_eq].
    fields. rewrite insert_insert_eq.
    unfold bind at 1. unfold ask_oracle at 1. fields. rewrite Hno.
    erewrite bind_eq;
      [|apply ao2_ref_tps_last; fields; [apply lookup_insert_eq|reflexivity|reflexivity]].
    fields. unfold ao2_cleanup_tps, ao2_ref_tps, bind, load_tps. fields.
    now rewrite delete_insert_eq, lookup_delete_eq.
  - eexists. split; [exact Hrun|]. fields. split; [apply lookup_delete_eq|].
    unfold ao2_cleanup_tps, ao2_ref_tps, bind, load_tps. fields.
    now rewrite lookup_delete_eq.
Qed.

(** X10: when the new processor cannot be linked in the container, because
    [ao2_link] fails or because the container was never allocated,
    [ast_taskprocessor_create_with_listener] returns null and leaves the
    processor behind: it is alive with one reference, the one of the
    listener, the listener has gained a reference, the one of the processor,
    and the processor is in no bucket.  The two objects keep each other
    alive and no caller can reach the processor. *)
Theorem X10_link_failure_leaves_the_processor_behind (nm : string) (s : state)
    (l : handle) (lo : ao2 ast_taskprocessor_listener) :
  listeners s !! l = Some lo ->
  0 < ref_counter lo < INT_MAX ->
  hd true (oracle s) = true ->
  hd true (tl (oracle s)) = true ->
  hd true (tl (tl (oracle s))) = true ->
  tps_singletons s = None \/ hd true (tl (tl (tl (oracle s)))) = false ->
  exists s',
    ast_taskprocessor_create_with_listener ast_str_case_hash nm (Some l) s
    = Some (None, s') /\
    processors s'
    = <[next_handle s :=
          {| ref_counter := 1;
             user_data :=
               {| name := Some nm;
                  stats := Some {| max_qsize := 0; _tasks_processed_count := 0 |};
                  tps_queue_size := 0; tps_queue := [];
                  listener := Some l; shutting_down := false |} |}]> (processors s) /\
    listeners s'
    = <[l := {| ref_counter := ref_counter lo + 1;
                user_data := set_tps (Some (next_handle s)) (user_data lo) |}]>
        (listeners s) /\
    tps_singletons s' = tps_singletons s.
Proof.
  intros Hlo Hcount Hok1 Hok2 Hok3 Hlink.
  unfold ast_taskprocessor_create_with_listener, ao2_alloc_tps.
  unfold bind at 1. unfold bind at 1. unfold ask_oracle at 1. rewrite Hok1.
  unfold bind at 1. unfold bind at 1. unfold fresh_handle, store_tps. fields.
  unfold bind at 1. unfold ask_oracle at 1. fields. rewrite Hok2.
  erewrite bind_eq; [|apply update_tps_eq; fields; apply lookup_insert_eq].
  fields. rewrite insert_insert_eq.
  unfold bind at 1. unfold ask_oracle at 1. fields. rewrite Hok3.
  erewrite bind_eq; [|apply update_tps_eq; fields; apply lookup_insert_eq].
  fields. rewrite insert_insert_eq.
  erewrite bind_eq; [|apply ao2_ref_listener_keep; fields; [exact Hlo|lia]].
  erewrite bind_eq; [|apply update_tps_eq; fields; apply lookup_insert_eq].
  fields. rewrite insert_insert_eq.
  erewrite bind_eq; [|apply ao2_ref_tps_keep; fields;
                      [apply lookup_insert_eq|fields; unfold INT_MAX; lia]].
  fields. rewrite insert_insert_eq.
  erewrite bind_eq; [|apply update_listener_eq; fields; apply lookup_insert_eq].
  fields. rewrite insert_insert_eq.
  unfold ao2_link. unfold bind at 1. unfold bind at 1. fields.
  unfold ao2_cleanup_tps.
  destruct (tps_singletons s) as [buckets|] eqn:Hc.
  - destruct Hlink as [Hlink|Hno]; [discriminate|].
    unfold bind at 1. unfold ask_oracle at 1. fields. rewrite Hno. fields.
    erewrite bind_eq;
      [|erewrite bind_eq;
        [reflexivity|apply ao2_ref_tps_keep; fields;
                     [apply lookup_insert_eq|fields; unfold INT_MAX; lia]]].
    fields. rewrite insert_insert_eq.
    eexists. split; [reflexivity|]. fields. now rewrite Hc.
  - fields.
    erewrite bind_eq;
      [|erewrite bind_eq;
        [reflexivity|apply ao2_ref_tps_keep; fields;
                     [apply lookup_insert_eq|fields; unfold INT_MAX; lia]]].
    fields. rewrite insert_insert_eq.
    eexists. split; [reflexivity|]. fields. now rewrite Hc.
Qed.

(** ** The bucket of a name *)

Lemma bucket_index_lt (buckets : list (list handle)) (hash : Z) :
  buckets <> [] -> (bucket_index buckets hash < length buckets)%nat.
Proof.
  intros Hne. unfold bucket_index.
  assert (0 < Z.of_nat (length buckets)) by (destruct buckets; [contradiction|cbn; lia]).
  pose proof (Z.mod_pos_bound (Z.abs hash) (Z.of_nat (length buckets))). lia.
Qed.

Lemma nth_alter {A : Type} (f : A -> A) (d : A) (i : nat) (xs : list A) :
  (i < length xs)%nat -> nth i (alter f i xs) d = f (nth i xs d).
Proof.
  revert i. induction xs as [|x xs IH]; intros i Hi; [cbn in Hi; lia|].
  destruct i as [|i]; [reflexivity|]. cbn in *. apply IH. lia.
Qed.


(** The allocation of the listener fails: nothing was done. *)
Lemma listener_alloc_no_memory (cbs : ast_taskprocessor_listener_callbacks) (s : state) :
  hd true (oracle s) = false ->
  ast_taskprocessor_listener_alloc cbs s = Some (None, with_oracle (tl (oracle s)) s).
Proof.
  intros Hno. unfold ast_taskprocessor_listener_alloc, ao2_alloc_listener.
  unfold bind at 1. unfold bind at 1. unfold ask_oracle. now rewrite Hno.
Qed.

(** The [alloc] callback returns null: the listener is released with no
    private data, and its destructor is called on the null pointer. *)
Lemma listener_alloc_no_private_data (cbs : ast_taskprocessor_listener_callbacks)
    (s : state) (orc' : list bool) :
  hd true (oracle s) = true ->
  alloc cbs (tl (oracle s)) = (None, orc') ->
  ast_taskprocessor_listener_alloc cbs s = None.
Proof.
  intros Hok Halloc. unfold ast_taskprocessor_listener_alloc, ao2_alloc_listener.
  unfold bind at 1. unfold bind at 1. unfold ask_oracle. rewrite Hok.
  unfold bind at 1. unfold bind at 1. unfold fresh_handle, store_listener. fields.
  unfold bind at 1. fields. rewrite Halloc.
  unfold bind at 1. fields.
  erewrite bind_eq; [|apply update_listener_eq; fields; apply lookup_insert_eq].
  fields. rewrite insert_insert_eq.
  unfold ao2_cleanup_listener, ao2_ref_listener, bind, load_listener. fields.
  rewrite lookup_insert_eq. fields. reflexivity.
Qed.

(** ** Finding a registered processor *)

(** The walk through a bucket that holds a processor of the name: the first
    such processor of the bucket is returned with one more reference. *)
Lemma bucket_find_present (key : string) (bucket : list handle) (s : state) :
  (forall h, In h bucket ->
     exists o n, processors s !! h = Some o /\ name (user_data o) = Some n /\
                 0 < ref_counter o < INT_MAX) ->
  (exists h o n, In h bucket /\ processors s !! h = Some o /\
                 name (user_data o) = Some n /\ strcasecmp n key = 0) ->
  exists h o n,
    bucket_find key OBJ_KEY bucket s
    = Some (Some h,
            with_processors (<[h := set_ref_counter (ref_counter o + 1) o]> (processors s))
                            s) /\
    In h bucket /\ processors s !! h = Some o /\
    name (user_data o) = Some n /\ strcasecmp n key = 0 /\
    exists before after,
      bucket = before ++ h :: after /\
      forall h' o' n', In h' before -> processors s !! h' = Some o' ->
                       name (user_data o') = Some n' -> strcasecmp n' key <> 0.
Proof.
  induction bucket as [|h rest IH]; intros Hall Hex.
  - destruct Hex as (h & o & n & [] & _).
  - destruct (Hall h (or_introl eq_refl)) as (o & n & Ho & Hn & Hcount).
    cbn [bucket_find]. unfold bind at 1. unfold load_tps at 1. rewrite Ho.
    unfold tps_cmp_cb. rewrite Hn.
    change (Z.land OBJ_KEY OBJ_KEY =? 0) with false. cbv iota.
    destruct (strcasecmp n key =? 0) eqn:Hcmp.
    + change (Z.land (Z.lor CMP_MATCH CMP_STOP) CMP_MATCH =? 0) with false. cbv iota.
      erewrite bind_eq; [|apply ao2_ref_tps_keep; [exact Ho|lia]].
      exists h, o, n. apply Z.eqb_eq in Hcmp.
      split; [reflexivity|]. split; [now left|]. split; [exact Ho|].
      split; [exact Hn|]. split; [exact Hcmp|].
      exists [], rest. split; [reflexivity|]. intros h' o' n' [].
    + change (Z.land 0 CMP_MATCH =? 0) with true.
      change (Z.land 0 CMP_STOP =? 0) with true. cbv iota.
      apply Z.eqb_neq in Hcmp.
      destruct IH as (h' & o' & n' & Hfind & Hin & Ho' & Hn' & Hcmp' & before & after
                      & Hsplit & Hbefore).
      * intros h' Hin. apply Hall. now right.
      * destruct Hex as (h' & o' & n' & [<-|Hin] & Ho' & Hn' & Hcmp').
        -- rewrite Ho in Ho'. injection Ho' as <-. rewrite Hn in Hn'.
           injection Hn' as <-. contradiction.
        -- now exists h', o', n'.
      * exists h', o', n'. split; [exact Hfind|]. split; [now right|].
        split; [exact Ho'|]. split; [exact Hn'|]. split; [exact Hcmp'|].
        exists (h :: before), after. split; [cbn; now rewrite Hsplit|].
        intros h2 o2 n2 [<-|Hin2] Ho2 Hn2.
        -- rewrite Ho in Ho2. injection Ho2 as <-. rewrite Hn in Hn2.
           injection Hn2 as <-. exact Hcmp.
        -- exact (Hbefore h2 o2 n2 Hin2 Ho2 Hn2).
Qed.

(** ** Linking and unlinking *)

Lemma remove_first_appended (h : handle) (b : list handle) :
  ~ In h b -> remove_first h (b ++ [h]) = b.
Proof.
  induction b as [|x b IH]; intros Hnot; cbn.
  - now rewrite Pos.eqb_refl.
  - destruct (Pos.eqb x h) eqn:E.
    + apply Pos.eqb_eq in E. subst x. destruct Hnot. now left.
    + rewrite IH; [reflexivity|]. intros Hin. apply Hnot. now right.
Qed.

Lemma alter_remove_appended (h : handle) (i : nat) (bs : list (list handle)) :
  ~ In h (nth i bs []) ->
  alter (remove_first h) i (alter (fun b => b ++ [h]) i bs) = bs.
Proof.
  revert i. induction bs as [|b bs IH]; intros i Hnot; [reflexivity|].
  destruct i as [|i]; cbn in *.
  - now rewrite remove_first_appended.
  - f_equal. now apply IH.
Qed.


(** ** Walking through the container *)

(** A reference that is taken and given back leaves the state as it was. *)
Lemma ao2_ref_tps_undo (s : state) (h : handle) (o : ao2 ast_taskprocessor)
    (orc : list bool) :
  processors s !! h = Some o ->
  0 < ref_counter o < INT_MAX ->
  ao2_ref_tps (Some h) (-1)
    (with_oracle orc
       (with_processors (<[h := set_ref_counter (ref_counter o + 1) o]> (processors s)) s))
  = Some (ref_counter o + 1, with_oracle orc s).
Proof.
  intros Ho Hc.
  erewrite ao2_ref_tps_keep; [|fields; apply lookup_insert_eq|fields; lia].
  fields. rewrite insert_insert_eq.
  replace (set_ref_counter (ref_counter o + 1 + -1) (set_ref_counter (ref_counter o + 1) o))
    with o by (destruct o; unfold set_ref_counter; cbn; f_equal; lia).
  rewrite (insert_id _ _ _ Ho). destruct s; reflexivity.
Qed.

(** The loop of the completion: the result is the match number [n - wordnum]
    among the names of the objects that are left, and every reference the
    iterator took is given back. *)
Lemma tab_complete_loop_spec (word : string) (tklen n : Z) (objs : list handle)
    (nms : list string) (wordnum : Z) (s : state) :
  Forall2 (fun h nm => exists o, processors s !! h = Some o /\
                                 name (user_data o) = Some nm /\
                                 0 < ref_counter o < INT_MAX) objs nms ->
  0 <= wordnum ->
  wordnum + Z.of_nat (length objs) <= INT_MAX ->
  tab_complete_loop word tklen n wordnum objs s
  = match nth_error
            (List.filter (fun nm => strncasecmp word nm (Z.to_nat (to_ulong tklen)) =? 0) nms)
            (Z.to_nat (n - wordnum)) with
    | Some nm => Some (if hd true (oracle s) then Some nm else None,
                       with_oracle (tl (oracle s)) s)
    | None => Some (None, s)
    end.
Proof.
  intros Hall. revert wordnum.
  induction Hall as [|h nm objs nms (o & Ho & Hn & Hc) Hall IH]; intros wordnum H0 Hmax.
  - cbn. now destruct (Z.to_nat (n - wordnum)).
  - cbn [tab_complete_loop List.filter length] in *.
    erewrite bind_eq; [|apply ao2_ref_tps_keep; [exact Ho|lia]].
    unfold bind at 1. unfold load_tps at 1. fields. rewrite lookup_insert_eq. fields.
    rewrite Hn.
    pose proof (ao2_ref_tps_undo s h o (oracle s) Ho Hc) as Hundo.
    rewrite with_oracle_id in Hundo.
    replace (with_oracle (oracle s)
               (with_processors (<[h:=set_ref_counter (ref_counter o + 1) o]> (processors s)) s))
      with (with_processors (<[h:=set_ref_counter (ref_counter o + 1) o]> (processors s)) s)
      in Hundo by (now destruct s).
    destruct (strncasecmp word nm (Z.to_nat (to_ulong tklen)) =? 0) eqn:Hm.
    + cbn zeta. rewrite to_int_small by (unfold INT_MAX in *; lia).
      destruct (wordnum + 1 >? n) eqn:Hgt.
      * rewrite Z.gtb_ltb in Hgt. apply Z.ltb_lt in Hgt.
        replace (Z.to_nat (n - wordnum)) with O by lia. cbn [nth_error].
        unfold bind at 1. unfold ask_oracle at 1.
        pose proof (ao2_ref_tps_undo s h o (tl (oracle s)) Ho Hc) as Hundo'.
        unfold with_oracle at 1 in Hundo'. unfold with_oracle at 1.
        fields. cbn [with_processors processors listeners next_handle tps_singletons
                     task_envelopes world oracle] in Hundo'.
        erewrite bind_eq; [|exact Hundo']. reflexivity.
      * rewrite Z.gtb_ltb in Hgt. apply Z.ltb_ge in Hgt.
        replace (Z.to_nat (n - wordnum)) with (S (Z.to_nat (n - (wordnum + 1)))) by lia.
        cbn [nth_error].
        erewrite bind_eq; [|exact Hundo].
        apply IH; lia.
    + erewrite bind_eq; [|exact Hundo].
      apply IH; lia.
Qed.

(** X15: the completion of a processor name.  When the cursor is on the
    fourth word of the command, [tps_taskprocessor_tab_complete] returns a
    copy of the name number [n] (counted from 0) among the registered names
    that begin with the word typed so far, the letters compared without
    regard to case and the names taken in the order of the container; it
    returns null when there are not that many, when the cursor is elsewhere,
    or when the copy cannot be allocated.  Every reference the iterator took
    is given back: the state is as before, apart from the answer of the
    allocator that was used. *)
Theorem X15_tab_complete_returns_the_nth_match (pos : Z) (word : string) (n : Z)
    (s : state) (buckets : list (list handle)) (nms : list string) :
  tps_singletons s = Some buckets ->
  Forall2 (fun h nm => exists o, processors s !! h = Some o /\
                                 name (user_data o) = Some nm /\
                                 0 < ref_counter o < INT_MAX) (concat buckets) nms ->
  Z.of_nat (length (concat buckets)) <= INT_MAX ->
  Z.of_nat (String.length word) <= INT_MAX ->
  tps_taskprocessor_tab_complete pos word n s
  = match (if pos =? 3
           then nth_error
                  (List.filter (fun nm => strncasecmp word nm (String.length word) =? 0) nms)
                  (Z.to_nat n)
           else None) with
    | Some nm => Some (if hd true (oracle s) then Some nm else None,
                       with_oracle (tl (oracle s)) s)
    | None => Some (None, s)
    end.
Proof.
  intros Hc Hall Hlen Hword. unfold tps_taskprocessor_tab_complete.
  destruct (pos =? 3); [|reflexivity].
  cbn zeta. unfold bind at 1. unfold gets. rewrite Hc. cbn [ao2_iterator_objects].
  rewrite (tab_complete_loop_spec word _ n (concat buckets) nms 0 s Hall) by lia.
  rewrite to_int_small by (unfold INT_MAX in *; lia).
  rewrite to_ulong_small by (unfold INT_MAX, ULONG_MAX in *; lia).
  now rewrite Nat2Z.id, Z.sub_0_r.
Qed.

(** ** The report *)

Lemma report_loop_spec (objs : list handle) (ts : list ast_taskprocessor)
    (rows : list report_line) (s : state) :
  Forall2 (fun h t => exists o, processors s !! h = Some o /\ user_data o = t /\
                                0 < ref_counter o < INT_MAX) objs ts ->
  Forall2 (fun t row => report_row t = Some row) ts rows ->
  report_loop objs s = Some (rows, s).
Proof.
  intros Hall. revert rows.
  induction Hall as [|h t objs ts (o & Ho & Ht & Hc) Hall IH]; intros rows Hrows.
  - inversion Hrows. reflexivity.
  - inversion Hrows as [|t' row ts' rows' Hrow Hrest]; subst.
    cbn [report_loop].
    erewrite bind_eq; [|apply ao2_ref_tps_keep; [exact Ho|lia]].
    unfold bind at 1. unfold load_tps at 1. fields. rewrite lookup_insert_eq. fields.
    rewrite Hrow.
    pose proof (ao2_ref_tps_undo s h o (oracle s) Ho Hc) as Hundo.
    rewrite with_oracle_id in Hundo.
    replace (with_oracle (oracle s)
               (with_processors (<[h:=set_ref_counter (ref_counter o + 1) o]> (processors s)) s))
      with (with_processors (<[h:=set_ref_counter (ref_counter o + 1) o]> (processors s)) s)
      in Hundo by (now destruct s).
    erewrite bind_eq; [|exact Hundo].
    erewrite bind_eq; [|apply IH; exact Hrest]. reflexivity.
Qed.

(** X16: the report of the command line.  Called as a handler with the right
    number of arguments on a container whose processors have a name and
    statistics, [cli_tps_report] succeeds and hands to [ast_cli] the header,
    then one row for every registered processor, in the order of the
    container, with its name (cut to 255 characters), its count of processed
    tasks, its queue size and its high-water mark as they are at that time,
    then the footer with the number of registered processors, which is the
    number of rows.  It leaves the state as it was: every reference the
    iterator took is given back.  With another number of arguments it only
    asks for the usage to be shown. *)
Theorem X16_report_lists_every_registered_processor (argc args : Z) (s : state)
    (buckets : list (list handle)) (ts : list ast_taskprocessor)
    (rows : list report_line) :
  tps_singletons s = Some buckets ->
  Forall2 (fun h t => exists o, processors s !! h = Some o /\ user_data o = t /\
                                0 < ref_counter o < INT_MAX) (concat buckets) ts ->
  Forall2 (fun t row =>
             exists nm st,
               name t = Some nm /\ stats t = Some st /\
               row = ReportRow (ast_copy_string nm 256) (_tasks_processed_count st)
                               (to_ulong (tps_queue_size t)) (max_qsize st)) ts rows ->
  Z.of_nat (length (concat buckets)) <= INT_MAX ->
  cli_tps_report CLI_HANDLER argc args s
  = Some (if argc =? args
          then (CLI_SUCCESS,
                ReportHeader :: rows ++ [ReportFooter (Z.of_nat (length rows))])
          else (CLI_SHOWUSAGE, []), s).
Proof.
  intros Hc Hall Hrows Hlen. unfold cli_tps_report.
  destruct (argc =? args); [|reflexivity].
  unfold bind at 1. unfold gets at 1. rewrite Hc. cbn [ao2_iterator_objects].
  erewrite bind_eq; [|apply (report_loop_spec _ ts rows s Hall)].
  - unfold bind, gets, ret. rewrite Hc. cbn [ao2_iterator_objects].
    rewrite to_int_small by (unfold INT_MAX in *; lia).
    rewrite (Forall2_length _ _ _ Hall), (Forall2_length _ _ _ Hrows). reflexivity.
  - eapply Forall2_impl; [exact Hrows|].
    intros t row (nm & st & Hn & Hst & ->). unfold report_row. now rewrite Hn, Hst.
Qed.

(** ** Names *)

Lemma strcasecmp_refl (a : string) : strcasecmp a a = 0.
Proof. induction a as [|c a IH]; cbn; [reflexivity|]. now rewrite Ascii.eqb_refl. Qed.

(** ** The [emptied] callback *)

(** X18: an execution tells the listener that the queue is empty exactly
    when it has run the last task of the queue.  On a processor whose queue
    holds [task] followed by [rest], [ast_taskprocessor_execute] runs the
    callback of [task] and frees its envelope; when [rest] is empty it calls
    the [emptied] callback of the listener once and returns 0, otherwise it
    leaves the private data of the listener as it is and returns 1.  In both
    cases [rest] is what stays queued. *)
Theorem X18_emptied_runs_after_the_last_task (s : state) (h l : handle)
    (t : ast_taskprocessor) (cbs : ast_taskprocessor_listener_callbacks) (d : P)
    (task : tps_task) (rest : list tps_task) :
  bound s h t l cbs d ->
  shutting_down t = false ->
  tps_queue t = task :: rest ->
  tps_queue_size t = Z.of_nat (length (task :: rest)) ->
  Z.of_nat (length (task :: rest)) <= INT_MAX ->
  exists s' t',
    ast_taskprocessor_execute (Some h) s
    = Some (match rest with [] => 0 | _ => 1 end, s') /\
    bound s' h t' l cbs (match rest with [] => emptied cbs d | _ => d end) /\
    tps_queue t' = rest /\
    world s' = fst (execute task (datap task) (world s)) /\
    task_envelopes s' = task_envelopes s - 1.
Proof.
  intros Hb Hsd Hq Hsz Hmax.
  destruct (bound_execute_cons s h l t cbs d task rest Hb Hsd Hq Hsz Hmax)
    as (s' & t' & Hex & Hb' & _ & Hq' & _ & Hw & He & _).
  exists s', t'. split; [exact Hex|]. split; [exact Hb'|]. split; [exact Hq'|].
  split; [exact Hw|exact He].
Qed.

(** ** The container at start-up *)


(** ** Releasing a processor whose listener has another holder *)

Lemma unreference_at_baseline_held (s : state) (h l : handle)
    (o : ao2 ast_taskprocessor) (lo : ao2 ast_taskprocessor_listener) (d : P)
    (buckets : list (list handle)) (i : nat) :
  served ast_str_case_hash s h l o lo d buckets i ->
  ref_counter o = 3 ->
  1 < ref_counter lo <= INT_MAX ->
  ast_taskprocessor_unreference ast_str_case_hash (Some h) s =
  Some (None,
        with_listeners
          (<[l := {| ref_counter := ref_counter lo - 1;
                     user_data :=
                       set_tps None
                         (set_private_data (Some (shutdown (callbacks (user_data lo)) d))
                                           (user_data lo)) |}]> (listeners s))
          (with_processors (delete h (processors s))
             (with_tps_singletons (Some (alter (remove_first h) i buckets)) s))).
Proof.
  intros (Ho & Hlo & Hl & Htps & Hd & Hc & (n & Hn & Hi) & Hin) H3 H1.
  unfold ast_taskprocessor_unreference.
  erewrite bind_eq; [|apply ao2_ref_tps_keep; [exact Ho|unfold INT_MAX; lia]].
  rewrite H3. change (3 >? 3) with false. cbn match.
  erewrite bind_eq;
    [|eapply (ao2_unlink_linked _ h _ n buckets);
      [exact Hc|cbn; apply lookup_insert_eq|exact Hn|subst i; exact Hin
      |cbn; unfold INT_MAX; lia]].
  unfold bind at 1. unfold load_tps. cbn [processors with_processors with_tps_singletons].
  rewrite lookup_insert_eq. cbn [user_data set_ref_counter listener]. rewrite Hl.
  erewrite bind_eq; [|apply update_tps_eq; cbn; apply lookup_insert_eq].
  cbn [processors with_processors with_tps_singletons].
  rewrite !insert_insert_eq.
  unfold listener_shutdown.
  unfold bind at 1. unfold bind at 1.
  erewrite call_listener_eq; [|cbn; exact Hlo|exact Hd].
  unfold bind at 1. unfold load_listener. cbn [listeners with_listeners with_processors].
  rewrite lookup_insert_eq. cbn [user_data set_user_data tps set_private_data].
  rewrite Htps.
  erewrite bind_eq;
    [|apply ao2_ref_tps_last; [cbn; apply lookup_insert_eq|cbn; lia|reflexivity]].
  cbn [processors with_listeners with_processors].
  rewrite delete_insert_eq.
  erewrite update_listener_eq; [|cbn; apply lookup_insert_eq].
  cbn [listeners with_listeners with_processors]. rewrite insert_insert_eq.
  erewrite bind_eq;
    [|eapply ao2_ref_listener_keep; [cbn; apply lookup_insert_eq|cbn; lia]].
  unfold ret. cbn [listeners with_listeners]. rewrite insert_insert_eq.
  subst i. destruct s, lo; reflexivity.
Qed.

(** ** A listener that does not start *)

(** The steps of [ast_taskprocessor_create_with_listener] from the
    allocation of the processor to the return of the [start] callback, with
    every allocation granted. *)
Ltac run_to_start Hlo Hd Hc Hok1 Hok2 Hok3 Hok4 Hstart :=
  unfold ao2_alloc_tps;
  unfold bind at 1; unfold bind at 1; unfold ask_oracle at 1; rewrite Hok1;
  unfold bind at 1; unfold bind at 1; unfold fresh_handle, store_tps; fields;
  unfold bind at 1; unfold ask_oracle at 1; fields; rewrite ?Hok2;
  (erewrite bind_eq; [|apply update_tps_eq; fields; apply lookup_insert_eq]);
  fields; rewrite insert_insert_eq;
  unfold bind at 1; unfold ask_oracle at 1; fields; rewrite ?Hok3;
  (erewrite bind_eq; [|apply update_tps_eq; fields; apply lookup_insert_eq]);
  fields; rewrite insert_insert_eq;
  (erewrite bind_eq; [|apply ao2_ref_listener_keep; fields; [exact Hlo|lia]]);
  (erewrite bind_eq; [|apply update_tps_eq; fields; apply lookup_insert_eq]);
  fields; rewrite insert_insert_eq;
  (erewrite bind_eq; [|apply ao2_ref_tps_keep; fields;
                       [apply lookup_insert_eq|fields; unfold INT_MAX; lia]]);
  fields; rewrite insert_insert_eq;
  (erewrite bind_eq; [|apply update_listener_eq; fields; apply lookup_insert_eq]);
  fields; rewrite insert_insert_eq;
  unfold ao2_link; unfold bind at 1; unfold bind at 1; fields; rewrite Hc;
  unfold bind at 1; unfold ask_oracle at 1; fields; rewrite Hok4;
  unfold bind at 1; unfold load_tps at 1; fields; rewrite lookup_insert_eq; fields;
  unfold tps_hash_cb; fields;
  change (Z.land OBJ_POINTER OBJ_KEY =? 0) with true; cbv iota;
  unfold bind at 1; fields;
  (erewrite bind_eq; [|apply ao2_ref_tps_keep; fields;
                       [apply lookup_insert_eq|fields; unfold INT_MAX; lia]]);
  fields; rewrite insert_insert_eq;
  unfold bind at 1; unfold load_tps at 1; fields; rewrite lookup_insert_eq; fields;
  unfold call_start; unfold bind at 1; unfold bind at 1; unfold load_listener at 1;
  fields; rewrite lookup_insert_eq; fields; rewrite Hd;
  unfold bind at 1; fields; rewrite Hstart;
  unfold bind at 1; fields;
  (erewrite bind_eq; [|apply update_listener_eq; fields; apply lookup_insert_eq]);
  fields; rewrite insert_insert_eq.

(** The release of a processor that was linked and whose listener did not
    start: it is unlinked and destroyed, and the listener is shut down and
    loses its back reference. *)
Lemma unreference_after_start (nm : string) (s : state) (l : handle)
    (lo : ao2 ast_taskprocessor_listener) (d' : P) (orc' : list bool)
    (buckets : list (list handle)) :
  0 < ref_counter lo < INT_MAX ->
  buckets <> [] ->
  ~ In (next_handle s) (nth (bucket_index buckets (ast_str_case_hash nm)) buckets []) ->
  ast_taskprocessor_unreference ast_str_case_hash (Some (next_handle s))
    {| processors :=
         <[next_handle s :=
             {| ref_counter := 3;
                user_data :=
                  {| name := Some nm;
                     stats := Some {| max_qsize := 0; _tasks_processed_count := 0 |};
                     tps_queue_size := 0; tps_queue := [];
                     listener := Some l; shutting_down := false |} |}]> (processors s);
       listeners :=
         <[l := {| ref_counter := ref_counter lo + 1;
                   user_data := {| callbacks := callbacks (user_data lo);
                                   tps := Some (next_handle s);
                                   private_data := Some d' |} |}]> (listeners s);
       next_handle := Pos.succ (next_handle s);
       tps_singletons :=
         Some (alter (fun b => b ++ [next_handle s])
                     (bucket_index buckets (ast_str_case_hash nm)) buckets);
       task_envelopes := task_envelopes s;
       world := world s;
       oracle := orc' |}
  = Some (None,
          {| processors := delete (next_handle s) (processors s);
             listeners :=
               <[l := {| ref_counter := ref_counter lo;
                         user_data :=
                           {| callbacks := callbacks (user_data lo);
                              tps := None;
                              private_data :=
                                Some (shutdown (callbacks (user_data lo)) d') |} |}]>
                 (listeners s);
             next_handle := Pos.succ (next_handle s);
             tps_singletons := Some buckets;
             task_envelopes := task_envelopes s;
             world := world s;
             oracle := orc' |}).
Proof.
  intros Hcount Hne Hfresh.
  set (i := bucket_index buckets (ast_str_case_hash nm)) in *.
  set (h := (next_handle s : handle)) in *.
  rewrite (unreference_at_baseline_held _ h l
             {| ref_counter := 3;
                user_data :=
                  {| name := Some nm;
                     stats := Some {| max_qsize := 0; _tasks_processed_count := 0 |};
                     tps_queue_size := 0; tps_queue := [];
                     listener := Some l; shutting_down := false |} |}
             {| ref_counter := ref_counter lo + 1;
                user_data := {| callbacks := callbacks (user_data lo);
                                tps := Some h;
                                private_data := Some d' |} |}
             d' (alter (fun b => b ++ [h]) i buckets) i).
  - fields. rewrite delete_insert_eq, insert_insert_eq.
    pose proof (alter_remove_appended h i buckets Hfresh) as E.
    unfold handle in E |- *. rewrite E.
    replace (ref_counter lo + 1 - 1) with (ref_counter lo) by lia. reflexivity.
  - unfold served. fields. rewrite !lookup_insert_eq. fields.
    repeat split; try reflexivity.
    + exists nm. split; [reflexivity|].
      unfold bucket_index. now rewrite length_alter.
    + rewrite nth_alter by (apply bucket_index_lt; exact Hne).
      apply in_or_app. right. now left.
  - reflexivity.
  - fields. lia.
Qed.

(** X11: when the [start] callback of the listener fails,
    [ast_taskprocessor_create_with_listener] calls
    [ast_taskprocessor_unreference] on the new processor, whose count is 3 at
    that point.  That call returns: it has unlinked the processor from the
    container, run the [shutdown] callback on the private data [start] left,
    cleared the back reference of the listener and given back the reference
    the processor held on it, and the processor has been destroyed.  The
    release that runs when the variable goes out of scope then acts on the
    destroyed processor: it is that second release that faults, and with it
    the call.  The callbacks are those of the model, functions of the
    private data that return. *)
Theorem X11_start_failure_releases_a_destroyed_processor (nm : string) (s : state)
    (l : handle) (lo : ao2 ast_taskprocessor_listener) (d d' : P) (r : Z)
    (orc' : list bool) (buckets : list (list handle)) :
  listeners s !! l = Some lo ->
  private_data (user_data lo) = Some d ->
  0 < ref_counter lo < INT_MAX ->
  tps_singletons s = Some buckets ->
  buckets <> [] ->
  ~ In (next_handle s) (nth (bucket_index buckets (ast_str_case_hash nm)) buckets []) ->
  hd true (oracle s) = true ->
  hd true (tl (oracle s)) = true ->
  hd true (tl (tl (oracle s))) = true ->
  hd true (tl (tl (tl (oracle s)))) = true ->
  start (callbacks (user_data lo)) d (tl (tl (tl (tl (oracle s))))) = ((r, d'), orc') ->
  r <> 0 ->
  ast_taskprocessor_create_with_listener ast_str_case_hash nm (Some l) s = None /\
  exists s1,
    (p <- ao2_alloc_tps ;;
     ask_oracle ;;
     update_tps p (set_stats (Some {| max_qsize := 0; _tasks_processed_count := 0 |})) ;;
     ask_oracle ;;
     update_tps p (set_name (Some nm)) ;;
     ao2_ref_listener (Some l) 1 ;;
     update_tps p (set_listener (Some l)) ;;
     ao2_ref_tps p 1 ;;
     update_listener (Some l) (set_tps p) ;;
     ao2_link ast_str_case_hash p ;;
     o <- load_tps p ;;
     call_start (listener (user_data o)) ;;
     ast_taskprocessor_unreference ast_str_case_hash p) s = Some (None, s1) /\
    processors s1 = delete (next_handle s) (processors s) /\
    tps_singletons s1 = Some buckets /\
    listeners s1
    = <[l := {| ref_counter := ref_counter lo;
                user_data :=
                  {| callbacks := callbacks (user_data lo);
                     tps := None;
                     private_data := Some (shutdown (callbacks (user_data lo)) d') |} |}]>
        (listeners s) /\
    ao2_cleanup_tps (Some (next_handle s)) s1 = None.
Proof.
  intros Hlo Hd Hcount Hc Hne Hfresh Hok1 Hok2 Hok3 Hok4 Hstart Hr.
  pose proof (unreference_after_start nm s l lo d' orc' buckets Hcount Hne Hfresh) as Hunref.
  split.
  - unfold ast_taskprocessor_create_with_listener.
    run_to_start Hlo Hd Hc Hok1 Hok2 Hok3 Hok4 Hstart.
    apply Z.eqb_neq in Hr. rewrite Hr.
    erewrite bind_eq; [|exact Hunref].
    unfold ao2_cleanup_tps, ao2_ref_tps, bind, load_tps. fields.
    now rewrite lookup_delete_eq.
  - eexists. split.
    + run_to_start Hlo Hd Hc Hok1 Hok2 Hok3 Hok4 Hstart.
      exact Hunref.
    + fields. split; [reflexivity|]. split; [reflexivity|]. split; [reflexivity|].
      unfold ao2_cleanup_tps, ao2_ref_tps, bind, load_tps. fields.
      now rewrite lookup_delete_eq.
Qed.

(** ** A processor with the listener of a user, created and released *)

(** X14: a user that allocates a listener, creates a processor with it and
    releases the processor takes the processor down again.  The release
    finds the count at 3 and finalizes: the processor is unlinked from the
    container and destroyed, so that the processors and the container are as
    before the three calls; the [shutdown] callback has run once, on the
    private data [start] left; the listener has lost its back reference and
    is left with one reference, the one of the user.  When the user gives
    that reference back, the listener is destroyed too, and the listeners
    are as before as well. *)
Theorem X14_create_then_release_restores_the_registry
    (cbs : ast_taskprocessor_listener_callbacks) (nm : string) (s : state)
    (d0 d1 : P) (orc1 orc2 : list bool) (buckets : list (list handle)) :
  tps_singletons s = Some buckets ->
  buckets <> [] ->
  listeners s !! next_handle s = None ->
  processors s !! Pos.succ (next_handle s) = None ->
  ~ In (Pos.succ (next_handle s))
       (nth (bucket_index buckets (ast_str_case_hash nm)) buckets []) ->
  hd true (oracle s) = true ->
  alloc cbs (tl (oracle s)) = (Some d0, orc1) ->
  hd true orc1 = true ->
  hd true (tl orc1) = true ->
  hd true (tl (tl orc1)) = true ->
  hd true (tl (tl (tl orc1))) = true ->
  start cbs d0 (tl (tl (tl (tl orc1)))) = ((0, d1), orc2) ->
  exists s1 s2,
    (l <- ast_taskprocessor_listener_alloc cbs ;;
     p <- ast_taskprocessor_create_with_listener ast_str_case_hash nm l ;;
     ast_taskprocessor_unreference ast_str_case_hash p) s = Some (None, s1) /\
    processors s1 = processors s /\
    tps_singletons s1 = tps_singletons s /\
    listeners s1
    = <[next_handle s :=
          {| ref_counter := 1;
             user_data := {| callbacks := cbs; tps := None;
                             private_data := Some (shutdown cbs d1) |} |}]> (listeners s) /\
    world s1 = world s /\
    task_envelopes s1 = task_envelopes s /\
    ao2_ref_listener (Some (next_handle s)) (-1) s1 = Some (1, s2) /\
    processors s2 = processors s /\
    listeners s2 = listeners s /\
    tps_singletons s2 = tps_singletons s.
Proof.
  intros Hc Hne Hl Hp Hfresh Hok Halloc Hok1 Hok2 Hok3 Hok4 Hstart.
  rewrite (bind_eq _ _ _ _ _ (listener_alloc_ok cbs s d0 orc1 Hok Halloc)).
  set (sA := {| processors := processors s; listeners := _; next_handle := _;
                tps_singletons := _; task_envelopes := _; world := _; oracle := orc1 |}).
  set (lo0 := {| ref_counter := 1;
                 user_data := {| callbacks := cbs; tps := None;
                                 private_data := Some d0 |} |}).
  assert (HloA : listeners sA !! next_handle s = Some lo0) by apply lookup_insert_eq.
  assert (Hcount : 0 < ref_counter lo0 < INT_MAX) by (cbn; unfold INT_MAX; lia).
  erewrite bind_eq;
    [|apply (create_with_listener_ok nm sA (next_handle s) lo0 d0 d1 orc2 buckets HloA
               eq_refl Hcount Hc Hok1 Hok2 Hok3 Hok4 Hstart)].
  pose proof (unreference_after_start nm sA (next_handle s) lo0 d1 orc2 buckets
                Hcount Hne Hfresh) as Hunref.
  rewrite Hunref. clear Hunref HloA Hcount. subst sA lo0.
  eexists. eexists. split; [reflexivity|]. fields.
  rewrite insert_insert_eq, (delete_id _ _ Hp).
  split; [reflexivity|]. split; [now rewrite Hc|]. split; [reflexivity|].
  split; [reflexivity|]. split; [reflexivity|].
  split.
  - rewrite (ao2_ref_listener_last _ (next_handle s)
               {| ref_counter := 1;
                  user_data := {| callbacks := cbs; tps := None;
                                  private_data := Some (shutdown cbs d1) |} |}
               (-1) (shutdown cbs d1));
      fields; [reflexivity|apply lookup_insert_eq|reflexivity|reflexivity].
  - fields. rewrite delete_insert_eq, (delete_id _ _ Hl).
    split; [reflexivity|]. split; [reflexivity|]. now rewrite Hc.
Qed.

End Properties.

(** * Properties of the registry with the default listener *)

Section RegistryProperties.

Context {W : Type}.
Variable ast_str_case_hash : string -> Z.

(** C9: asking for a name that is not registered with the mode "only if
    exists" returns null and leaves the state as it was: no processor and no
    listener is allocated, nothing is linked, and the environment is not
    asked for anything. *)
Theorem C9_get_only_if_exists_has_no_effect
    (s : @state W default_taskprocessor_listener_pvt) (nm : string) (create : Z) :
  container_ok s ->
  ~ registered s nm ->
  Z.land create TPS_REF_IF_EXISTS <> 0 ->
  ast_taskprocessor_get ast_str_case_hash (Some nm) create s = Some (None, s).
Proof.
  intros Hok Hnot Hmode. unfold ast_taskprocessor_get.
  destruct (ast_strlen_zero (Some nm)); [reflexivity|].
  rewrite (bind_eq _ _ _ _ _ (ao2_find_absent ast_str_case_hash nm s Hok Hnot)).
  apply Z.eqb_neq in Hmode. now rewrite Hmode.
Qed.

(** [ast_taskprocessor_get] keeps the flags as the other functions do. *)
Lemma respects_ast_taskprocessor_get (nm : option string) (create : Z) :
  @respects W default_taskprocessor_listener_pvt _
    (ast_taskprocessor_get ast_str_case_hash nm create).
Proof.
  unfold ast_taskprocessor_get. destruct nm as [n|]; [|apply respects_ret].
  destruct (ast_strlen_zero (Some n)); [apply respects_ret|].
  apply respects_bind; [apply respects_ao2_find|]. intros p.
  destruct p; [apply respects_ret|].
  destruct (Z.land create TPS_REF_IF_EXISTS =? 0); [|apply respects_ret].
  apply respects_bind; [apply respects_ast_taskprocessor_listener_alloc|]. intros l.
  destruct l; [|apply respects_ret].
  apply respects_bind; [apply respects_ast_taskprocessor_create_with_listener|].
  intros p. destruct p;
    (apply respects_bind; [apply respects_ao2_ref_listener|intros; apply respects_ret]).
Qed.

(** ** The worker of the default listener *)

(** What the worker does after an execution returned 0, on an empty queue:
    it waits when no wake-up is pending; otherwise it takes the wake-up, and
    leaves when it is told to die, or tries once more and then waits. *)
Lemma worker_idle_empty (fuel : nat)
    (s : @state W default_taskprocessor_listener_pvt) (h l : handle)
    (t : @ast_taskprocessor W) (pvt : default_taskprocessor_listener_pvt) :
  bound s h t l default_listener_callbacks pvt ->
  tps_queue t = [] ->
  exists s',
    (lo <- load_listener (Some l) ;;
     match private_data (user_data lo) with
     | Some pvt =>
         match default_tps_idle pvt with
         | Some (is_dead, pvt') =>
             update_listener (Some l) (set_private_data (Some pvt')) ;;
             if is_dead =? 0 then worker_loop (S fuel) (Some h) (Some l)
             else ret WorkerExited
         | None => ret WorkerWaiting
         end
     | None => fault
     end) s
    = Some (if (wake_up pvt =? 0) || (dead pvt =? 0) then WorkerWaiting else WorkerExited,
            s') /\
    bound s' h t l default_listener_callbacks
          {| poll_thread := poll_thread pvt; wake_up := 0; dead := dead pvt |} /\
    world s' = world s /\
    task_envelopes s' = task_envelopes s.
Proof.
  intros Hb Hq.
  assert (Hpop : forall t0 : @ast_taskprocessor W, tps_queue t0 = [] ->
                   pop_locked t0 = (None, t0)).
  { intros t0 E. unfold pop_locked. rewrite E. now destruct (shutting_down t0). }
  destruct Hb as (o & lo & Ho & Ht & Hl & Hlo & Hcbs & Hd).
  unfold bind at 1. unfold load_listener. rewrite Hlo, Hd.
  unfold default_tps_idle. destruct (wake_up pvt =? 0) eqn:Ew.
  - exists s. cbn. split; [reflexivity|]. split; [|auto].
    exists o, lo. repeat split; auto. rewrite Hd. f_equal.
    apply Z.eqb_eq in Ew. destruct pvt; cbn in *. now subst.
  - rewrite (bind_eq _ _ _ _ _ (update_listener_eq l _ s lo Hlo)).
    set (pvt' := {| poll_thread := poll_thread pvt; wake_up := 0; dead := dead pvt |}).
    set (s1 := with_listeners _ s).
    assert (Hb1 : bound s1 h t l default_listener_callbacks pvt').
    { exists o. eexists. subst s1. cbn. rewrite lookup_insert_eq. repeat split; auto. }
    cbn [orb]. destruct (dead pvt =? 0) eqn:Ed.
    + pose proof (bound_execute s1 h l t _ _ Hb1) as Hex.
      rewrite (Hpop t Hq) in Hex.
      cbn [worker_loop]. rewrite (bind_eq _ _ _ _ _ Hex). cbn [Z.eqb].
      destruct Hb1 as (o1 & lo1 & Ho1 & Ht1 & Hl1 & Hlo1 & Hcbs1 & Hd1).
      unfold bind at 1. unfold load_listener. rewrite Hlo1, Hd1. cbn.
      exists s1. split; [reflexivity|]. split; [|auto].
      now exists o1, lo1.
    + exists s1. split; [reflexivity|]. split; [exact Hb1|auto].
Qed.

(** The worker on a queue of tasks: it runs them all, first to last, going
    round its loop without a look at the wake-up while tasks are left, and
    ends as on an empty queue. *)
Lemma worker_loop_drains (q : list (@tps_task W)) (fuel : nat)
    (s : @state W default_taskprocessor_listener_pvt) (h l : handle)
    (t : @ast_taskprocessor W) (pvt : default_taskprocessor_listener_pvt) :
  bound s h t l default_listener_callbacks pvt ->
  shutting_down t = false ->
  tps_queue t = q ->
  tps_queue_size t = Z.of_nat (length q) ->
  Z.of_nat (length q) <= INT_MAX ->
  exists s' t',
    worker_loop (length q + 2 + fuel) (Some h) (Some l) s
    = Some (if (wake_up pvt =? 0) || (dead pvt =? 0) then WorkerWaiting else WorkerExited,
            s') /\
    bound s' h t' l default_listener_callbacks
          {| poll_thread := poll_thread pvt; wake_up := 0; dead := dead pvt |} /\
    tps_queue t' = [] /\
    world s' = run_callbacks q (world s) /\
    task_envelopes s' = task_envelopes s - Z.of_nat (length q).
Proof.
  revert s t. induction q as [|task rest IH]; intros s t Hb Hsd Hq Hsz Hmax.
  - cbn [length Nat.add worker_loop].
    pose proof (bound_execute s h l t _ _ Hb) as Hex.
    assert (Hpop : pop_locked t = (None, t)).
    { unfold pop_locked. rewrite Hq. now destruct (shutting_down t). }
    rewrite Hpop in Hex. rewrite (bind_eq _ _ _ _ _ Hex). cbn [Z.eqb].
    destruct (worker_idle_empty fuel s h l t pvt Hb Hq) as (s' & Hrun & Hb' & Hw & He).
    exists s', t. split; [exact Hrun|]. split; [exact Hb'|]. split; [exact Hq|].
    split; [exact Hw|]. cbn. lia.
  - destruct (bound_execute_cons s h l t _ _ task rest Hb Hsd Hq Hsz Hmax)
      as (s1 & t1 & Hex & Hb1 & Hsd1 & Hq1 & Hsz1 & Hw1 & He1 & _).
    cbn [length Nat.add worker_loop]. rewrite (bind_eq _ _ _ _ _ Hex).
    assert (Hrun : run_callbacks (task :: rest) (world s) = run_callbacks rest (world s1)).
    { unfold run_callbacks. cbn [fold_left]. now rewrite Hw1. }
    rewrite Hrun.
    destruct rest as [|task' rest'].
    + cbn [Z.eqb length Nat.add].
      change (emptied default_listener_callbacks pvt) with pvt in Hb1.
      destruct (worker_idle_empty (S fuel) s1 h l t1 pvt Hb1 Hq1)
        as (s' & Hidle & Hb' & Hw & He).
      exists s', t1. split; [exact Hidle|]. split; [exact Hb'|]. split; [exact Hq1|].
      split; [exact Hw|]. rewrite He, He1. cbn. lia.
    + change (1 =? 0) with false. cbn iota.
      destruct (IH s1 t1 Hb1 Hsd1 Hq1 Hsz1) as (s' & t' & Hloop & Hb' & Hq' & Hw & He).
      { cbn [length] in *. lia. }
      exists s', t'. split; [exact Hloop|]. split; [exact Hb'|]. split; [exact Hq'|].
      split; [exact Hw|]. rewrite He, He1. cbn [length]. lia.
Qed.

(** X5: the worker of the default listener from its first instruction.
    [tps_processing_function], started on a processor that holds the tasks
    [q], runs every one of them, in the order of the queue, and frees their
    envelopes; only then does it look at the wake-up.  It then waits on the
    condition variable, or it leaves when the wake-up and the order to die
    are both set at that time; [length q + 2] rounds of the loop are enough
    for that.  The statement is about a worker that starts, not about one
    that is woken while it waits in [default_tps_idle]: that one looks at the
    order to die before it looks at the queue. *)
Theorem X5_worker_runs_every_queued_task (q : list (@tps_task W)) (fuel : nat)
    (s : @state W default_taskprocessor_listener_pvt) (h l : handle)
    (t : @ast_taskprocessor W) (pvt : default_taskprocessor_listener_pvt)
    (lo : ao2 (@ast_taskprocessor_listener default_taskprocessor_listener_pvt)) :
  bound s h t l default_listener_callbacks pvt ->
  listeners s !! l = Some lo ->
  tps (user_data lo) = Some h ->
  shutting_down t = false ->
  tps_queue t = q ->
  tps_queue_size t = Z.of_nat (length q) ->
  Z.of_nat (length q) <= INT_MAX ->
  exists s' t',
    tps_processing_function (length q + 2 + fuel) (Some l) s
    = Some (if (wake_up pvt =? 0) || (dead pvt =? 0) then WorkerWaiting else WorkerExited,
            s') /\
    bound s' h t' l default_listener_callbacks
          {| poll_thread := poll_thread pvt; wake_up := 0; dead := dead pvt |} /\
    tps_queue t' = [] /\
    world s' = run_callbacks q (world s) /\
    task_envelopes s' = task_envelopes s - Z.of_nat (length q).
Proof.
  intros Hb Hlo Htps Hsd Hq Hsz Hmax.
  unfold tps_processing_function, bind at 1, load_listener. rewrite Hlo, Htps.
  exact (worker_loop_drains q fuel s h l t pvt Hb Hsd Hq Hsz Hmax).
Qed.


(** ** Creating a processor through the registry *)

Lemma default_listener_alloc_eq (orc : list bool) :
  default_listener_alloc orc
  = (if hd true orc then Some {| poll_thread := false; wake_up := 0; dead := 0 |} else None,
     tl orc).
Proof. destruct orc as [|[] orc]; reflexivity. Qed.

Lemma default_listener_start_eq (pvt : default_taskprocessor_listener_pvt)
    (orc : list bool) :
  default_listener_start pvt orc
  = (if hd true orc
     then (0, {| poll_thread := true; wake_up := wake_up pvt; dead := dead pvt |})
     else (-1, pvt),
     tl orc).
Proof. destruct orc as [|[] orc]; reflexivity. Qed.

(** The state after [ast_taskprocessor_get] has created a processor. *)
Lemma get_creates_state
    (s : @state W default_taskprocessor_listener_pvt) (nm : string) (create : Z)
    (buckets : list (list handle)) :
  container_ok s ->
  ~ registered s nm ->
  ast_strlen_zero (Some nm) = false ->
  Z.land create TPS_REF_IF_EXISTS = 0 ->
  tps_singletons s = Some buckets ->
  granted 7 s ->
  ast_taskprocessor_get ast_str_case_hash (Some nm) create s
  = Some (Some (Pos.succ (next_handle s)),
          {| processors :=
               <[Pos.succ (next_handle s) :=
                   {| ref_counter := 3;
                      user_data :=
                        {| name := Some nm;
                           stats := Some {| max_qsize := 0; _tasks_processed_count := 0 |};
                           tps_queue_size := 0; tps_queue := [];
                           listener := Some (next_handle s);
                           shutting_down := false |} |}]> (processors s);
             listeners :=
               <[next_handle s :=
                   {| ref_counter := 1;
                      user_data :=
                        {| callbacks := default_listener_callbacks;
                           tps := Some (Pos.succ (next_handle s));
                           private_data :=
                             Some {| poll_thread := true; wake_up := 0; dead := 0 |} |} |}]>
                 (listeners s);
             next_handle := Pos.succ (Pos.succ (next_handle s));
             tps_singletons :=
               Some (alter (fun b => b ++ [Pos.succ (next_handle s)])
                           (bucket_index buckets (ast_str_case_hash nm)) buckets);
             task_envelopes := task_envelopes s;
             world := world s;
             oracle := skipn 7 (oracle s) |}).
Proof.
  intros Hok Hnot Hnm Hmode Hc Hg. unfold ast_taskprocessor_get. rewrite Hnm.
  rewrite (bind_eq _ _ _ _ _ (ao2_find_absent ast_str_case_hash nm s Hok Hnot)).
  rewrite Hmode. change (0 =? 0) with true. cbv iota.
  unfold granted in Hg.
  apply all_true_hd in Hg. destruct Hg as [H0 Hg].
  apply all_true_hd in Hg. destruct Hg as [H1 Hg].
  apply all_true_hd in Hg. destruct Hg as [H2 Hg].
  apply all_true_hd in Hg. destruct Hg as [H3 Hg].
  apply all_true_hd in Hg. destruct Hg as [H4 Hg].
  apply all_true_hd in Hg. destruct Hg as [H5 Hg].
  apply all_true_hd in Hg. destruct Hg as [H6 _].
  erewrite bind_eq;
    [|apply (listener_alloc_ok default_listener_callbacks s
               {| poll_thread := false; wake_up := 0; dead := 0 |}
               (tl (tl (oracle s))) H0);
      cbn [alloc default_listener_callbacks];
      now rewrite default_listener_alloc_eq, H1].
  cbv beta iota.
  erewrite bind_eq;
    [|eapply (create_with_listener_ok ast_str_case_hash nm _ (next_handle s) _
                {| poll_thread := false; wake_up := 0; dead := 0 |}
                {| poll_thread := true; wake_up := 0; dead := 0 |}
                (tl (tl (tl (tl (tl (tl (tl (oracle s)))))))) buckets);
      fields;
      [apply lookup_insert_eq|reflexivity|fields; unfold INT_MAX; lia|exact Hc
      |exact H2|exact H3|exact H4|exact H5
      |cbn [start default_listener_callbacks];
       now rewrite default_listener_start_eq, H6]].
  cbv beta iota. fields.
  erewrite bind_eq; [|apply ao2_ref_listener_keep; fields;
                      [apply lookup_insert_eq|fields; unfold INT_MAX; lia]].
  fields. rewrite !insert_insert_eq.
  now rewrite !skipn_S_tl.
Qed.

(** X7: asking for a name that is not registered, in the default mode and
    with every allocation granted, creates the processor: the call returns a
    new processor that has the name, an empty queue and zeroed statistics,
    and is not shutting down; the processor is linked in the bucket of its
    name and bound to a new default listener whose worker thread is started
    and which refers back to it.  The processor has exactly three references
    (the caller, the container and the listener) and the listener has one
    (the processor); seven answers of the environment are used. *)
Theorem X7_get_creates_and_registers
    (s : @state W default_taskprocessor_listener_pvt) (nm : string) (create : Z)
    (buckets : list (list handle)) :
  container_ok s ->
  ~ registered s nm ->
  ast_strlen_zero (Some nm) = false ->
  Z.land create TPS_REF_IF_EXISTS = 0 ->
  tps_singletons s = Some buckets ->
  granted 7 s ->
  exists s',
    ast_taskprocessor_get ast_str_case_hash (Some nm) create s
    = Some (Some (Pos.succ (next_handle s)), s') /\
    processors s'
    = <[Pos.succ (next_handle s) :=
          {| ref_counter := 3;
             user_data := {| name := Some nm;
                             stats := Some {| max_qsize := 0; _tasks_processed_count := 0 |};
                             tps_queue_size := 0; tps_queue := [];
                             listener := Some (next_handle s);
                             shutting_down := false |} |}]> (processors s) /\
    listeners s'
    = <[next_handle s :=
          {| ref_counter := 1;
             user_data := {| callbacks := default_listener_callbacks;
                             tps := Some (Pos.succ (next_handle s));
                             private_data :=
                               Some {| poll_thread := true; wake_up := 0; dead := 0 |} |} |}]>
        (listeners s) /\
    tps_singletons s'
    = Some (alter (fun b => b ++ [Pos.succ (next_handle s)])
                  (bucket_index buckets (ast_str_case_hash nm)) buckets) /\
    next_handle s' = Pos.succ (Pos.succ (next_handle s)) /\
    oracle s' = skipn 7 (oracle s) /\
    world s' = world s /\
    task_envelopes s' = task_envelopes s.
Proof.
  intros Hok Hnot Hnm Hmode Hc Hg.
  eexists. split; [exact (get_creates_state s nm create buckets Hok Hnot Hnm Hmode Hc Hg)|].
  fields. now repeat split.
Qed.

(** ** Failures of [ast_taskprocessor_get] *)

(** X8: when [ast_taskprocessor_get] has to create the processor and the
    allocation of the listener, of the processor or of the statistics fails,
    it returns null and leaves no object behind: the processors, the
    listeners and the container are as before. *)
Theorem X8_get_without_memory_leaves_nothing_behind
    (s : @state W default_taskprocessor_listener_pvt) (nm : string) (create : Z) :
  container_ok s ->
  ~ registered s nm ->
  ast_strlen_zero (Some nm) = false ->
  Z.land create TPS_REF_IF_EXISTS = 0 ->
  listeners s !! next_handle s = None ->
  processors s !! Pos.succ (next_handle s) = None ->
  hd true (oracle s) = false \/
  (hd true (oracle s) = true /\ hd true (tl (oracle s)) = true /\
   (hd true (tl (tl (oracle s))) = false \/
    (hd true (tl (tl (oracle s))) = true /\
     hd true (tl (tl (tl (oracle s)))) = false))) ->
  exists s',
    ast_taskprocessor_get ast_str_case_hash (Some nm) create s = Some (None, s') /\
    processors s' = processors s /\
    listeners s' = listeners s /\
    tps_singletons s' = tps_singletons s /\
    world s' = world s /\
    task_envelopes s' = task_envelopes s.
Proof.
  intros Hok Hnot Hnm Hmode Hl Hp Horc. unfold ast_taskprocessor_get. rewrite Hnm.
  rewrite (bind_eq _ _ _ _ _ (ao2_find_absent ast_str_case_hash nm s Hok Hnot)).
  rewrite Hmode. change (0 =? 0) with true. cbv iota.
  destruct Horc as [Hno|(H0 & H1 & Horc)].
  - rewrite (bind_eq _ _ _ _ _ (listener_alloc_no_memory _ s Hno)).
    eexists. split; [reflexivity|]. now repeat split.
  - erewrite bind_eq;
      [|apply (listener_alloc_ok default_listener_callbacks s
                 {| poll_thread := false; wake_up := 0; dead := 0 |}
                 (tl (tl (oracle s))) H0);
        cbn [alloc default_listener_callbacks];
        now rewrite default_listener_alloc_eq, H1].
    cbv beta iota.
    destruct Horc as [Hno|(H2 & Hno)].
    + erewrite bind_eq; [|apply create_with_listener_no_memory; exact Hno].
      fields.
      erewrite bind_eq;
        [|eapply ao2_ref_listener_last; fields;
          [apply lookup_insert_eq|reflexivity|reflexivity]].
      fields. eexists. split; [reflexivity|]. fields.
      rewrite delete_insert_eq, (delete_id _ _ Hl). now repeat split.
    + erewrite bind_eq; [|apply create_with_listener_no_stats; [exact H2|exact Hno]].
      fields.
      erewrite bind_eq;
        [|eapply ao2_ref_listener_last; fields;
          [apply lookup_insert_eq|reflexivity|reflexivity]].
      fields. eexists. split; [reflexivity|]. fields.
      rewrite delete_insert_eq, (delete_id _ _ Hl), (delete_id _ _ Hp). now repeat split.
Qed.

(** X12: when the private data of the default listener cannot be allocated,
    [ast_taskprocessor_listener_alloc] releases the listener while its
    private data is null, so that [listener_destroy] hands the null pointer
    to [default_listener_destroy], which reads through it: the allocation of
    the listener faults, and so does the call of [ast_taskprocessor_get]
    that asked for it. *)
Theorem X12_failed_private_data_is_destroyed_through_null
    (s : @state W default_taskprocessor_listener_pvt) (nm : string) (create : Z) :
  hd true (oracle s) = true ->
  hd true (tl (oracle s)) = false ->
  container_ok s ->
  ~ registered s nm ->
  ast_strlen_zero (Some nm) = false ->
  Z.land create TPS_REF_IF_EXISTS = 0 ->
  ast_taskprocessor_listener_alloc default_listener_callbacks s = None /\
  ast_taskprocessor_get ast_str_case_hash (Some nm) create s = None.
Proof.
  intros Hok Hno Hcont Hnot Hnm Hmode.
  assert (Hfault : ast_taskprocessor_listener_alloc default_listener_callbacks s = None).
  { apply (listener_alloc_no_private_data default_listener_callbacks s
             (tl (tl (oracle s))) Hok).
    cbn [alloc default_listener_callbacks].
    now rewrite default_listener_alloc_eq, Hno. }
  split; [exact Hfault|].
  unfold ast_taskprocessor_get. rewrite Hnm.
  rewrite (bind_eq _ _ _ _ _ (ao2_find_absent ast_str_case_hash nm s Hcont Hnot)).
  rewrite Hmode. change (0 =? 0) with true. cbv iota.
  unfold bind. now rewrite Hfault.
Qed.

(** ** Asking for a registered name *)

(** X13: asking for a name under which a processor is registered returns a
    registered processor of that name, compared without regard to the case of
    the letters, whatever the mode: the reference count of that processor
    goes up by one and nothing else in the state changes.  The processor
    returned is the first one of the name in the bucket of the name: no
    processor linked before it in that bucket has the name.  Hence, when no
    other processor of the bucket has the name, it is the one that was
    registered. *)
Theorem X13_get_returns_the_registered_processor
    (s : @state W default_taskprocessor_listener_pvt) (nm : string) (create : Z)
    (buckets : list (list handle)) (h0 : handle)
    (o0 : ao2 (@ast_taskprocessor W)) (n0 : string) :
  ast_strlen_zero (Some nm) = false ->
  tps_singletons s = Some buckets ->
  container_ok s ->
  (forall h o, processors s !! h = Some o -> 0 < ref_counter o < INT_MAX) ->
  In h0 (nth (bucket_index buckets (ast_str_case_hash nm)) buckets []) ->
  processors s !! h0 = Some o0 ->
  name (user_data o0) = Some n0 ->
  strcasecmp n0 nm = 0 ->
  exists h o n,
    ast_taskprocessor_get ast_str_case_hash (Some nm) create s
    = Some (Some h,
            with_processors (<[h := set_ref_counter (ref_counter o + 1) o]> (processors s))
                            s) /\
    processors s !! h = Some o /\
    name (user_data o) = Some n /\
    strcasecmp n nm = 0 /\
    (exists before after,
       nth (bucket_index buckets (ast_str_case_hash nm)) buckets [] = before ++ h :: after /\
       forall h' o' n', In h' before -> processors s !! h' = Some o' ->
                        name (user_data o') = Some n' -> strcasecmp n' nm <> 0) /\
    ((forall h' o' n',
        In h' (nth (bucket_index buckets (ast_str_case_hash nm)) buckets []) ->
        processors s !! h' = Some o' -> name (user_data o') = Some n' ->
        strcasecmp n' nm = 0 -> h' = h0) ->
     h = h0).
Proof.
  intros Hnm Hc Hok Hcount Hin0 Ho0 Hn0 Hcmp0.
  set (i := bucket_index buckets (ast_str_case_hash nm)) in *.
  assert (Hb : In (nth i buckets []) buckets).
  { destruct (Nat.lt_ge_cases i (length buckets)) as [Hlt|Hge].
    - now apply nth_In.
    - rewrite nth_overflow in Hin0 by exact Hge. destruct Hin0. }
  destruct (bucket_find_present nm (nth i buckets []) s)
    as (h & o & n & Hfind & Hin & Ho & Hn & Hcmp & Hfirst).
  - intros h Hin. destruct (Hok buckets _ h Hc Hb Hin) as (o & n & Ho & Hn).
    exists o, n. split; [exact Ho|]. split; [exact Hn|]. exact (Hcount h o Ho).
  - now exists h0, o0, n0.
  - exists h, o, n. split.
    + unfold ast_taskprocessor_get. rewrite Hnm.
      unfold ao2_find. unfold bind at 1. unfold bind at 1. unfold gets. rewrite Hc.
      unfold tps_hash_cb. change (Z.land OBJ_KEY OBJ_KEY =? 0) with false. cbv iota.
      fold i. now rewrite Hfind.
    + split; [exact Ho|]. split; [exact Hn|]. split; [exact Hcmp|].
      split; [exact Hfirst|].
      intros Huniq. exact (Huniq h o n Hin Ho Hn Hcmp).
Qed.


(** ** Asking twice *)

(** X17: two calls of [ast_taskprocessor_get] in a row.  A caller that asks
    for a name that is not registered and then asks for the same name again,
    in whatever mode, gets the same processor both times: the second call
    creates nothing, it only takes one more reference, so that the processor
    ends with four (two for the caller, the container and the listener).
    This is about [ast_taskprocessor_get] only:
    [ast_taskprocessor_create_with_listener] links a processor without a
    look at the names that are registered. *)
Theorem X17_second_get_returns_the_same_processor
    (s : @state W default_taskprocessor_listener_pvt) (nm : string) (create create' : Z)
    (buckets : list (list handle)) :
  container_ok s ->
  ~ registered s nm ->
  ast_strlen_zero (Some nm) = false ->
  Z.land create TPS_REF_IF_EXISTS = 0 ->
  tps_singletons s = Some buckets ->
  buckets <> [] ->
  granted 7 s ->
  (forall h o, processors s !! h = Some o -> 0 < ref_counter o < INT_MAX) ->
  exists s',
    (p1 <- ast_taskprocessor_get ast_str_case_hash (Some nm) create ;;
     p2 <- ast_taskprocessor_get ast_str_case_hash (Some nm) create' ;;
     ret (p1, p2)) s
    = Some ((Some (Pos.succ (next_handle s)), Some (Pos.succ (next_handle s))), s') /\
    processors s'
    = <[Pos.succ (next_handle s) :=
          {| ref_counter := 4;
             user_data := {| name := Some nm;
                             stats := Some {| max_qsize := 0; _tasks_processed_count := 0 |};
                             tps_queue_size := 0; tps_queue := [];
                             listener := Some (next_handle s);
                             shutting_down := false |} |}]> (processors s) /\
    listeners s'
    = <[next_handle s :=
          {| ref_counter := 1;
             user_data := {| callbacks := default_listener_callbacks;
                             tps := Some (Pos.succ (next_handle s));
                             private_data :=
                               Some {| poll_thread := true; wake_up := 0; dead := 0 |} |} |}]>
        (listeners s) /\
    tps_singletons s'
    = Some (alter (fun b => b ++ [Pos.succ (next_handle s)])
                  (bucket_index buckets (ast_str_case_hash nm)) buckets) /\
    next_handle s' = Pos.succ (Pos.succ (next_handle s)) /\
    oracle s' = skipn 7 (oracle s).
Proof.
  intros Hok Hnot Hnm Hmode Hc Hne Hg Hcount.
  rewrite (bind_eq _ _ _ _ _ (get_creates_state s nm create buckets Hok Hnot Hnm Hmode Hc Hg)).
  set (i := bucket_index buckets (ast_str_case_hash nm)) in *.
  set (h := (Pos.succ (next_handle s) : handle)) in *.
  set (t := {| name := Some nm;
               stats := Some {| max_qsize := 0; _tasks_processed_count := 0 |};
               tps_queue_size := 0; tps_queue := [];
               listener := Some (next_handle s); shutting_down := false |}).
  set (s1 := {| processors := _; listeners := _; next_handle := _; tps_singletons := _;
                task_envelopes := _; world := _; oracle := _ |}).
  assert (Hi : (i < length buckets)%nat) by (apply bucket_index_lt; exact Hne).
  assert (Hbucket : nth (bucket_index (alter (fun b => b ++ [h]) i buckets)
                                      (ast_str_case_hash nm))
                        (alter (fun b => b ++ [h]) i buckets) []
                    = nth i buckets [] ++ [h]).
  { unfold bucket_index. rewrite length_alter. fold (bucket_index buckets (ast_str_case_hash nm)).
    fold i. exact (nth_alter (fun b : list handle => b ++ [h]) [] i buckets Hi). }
  assert (Hold : forall h' : handle, h' <> h -> processors s1 !! h' = processors s !! h').
  { intros h' Hneq. subst s1. fields. now rewrite lookup_insert_ne by congruence. }
  assert (Hnew : processors s1 !! h = Some {| ref_counter := 3; user_data := t |}).
  { subst s1. fields. apply lookup_insert_eq. }
  assert (Hb : In (nth i buckets []) buckets) by (now apply nth_In).
  destruct (bucket_find_present nm (nth i buckets [] ++ [h]) s1)
    as (h' & o' & n' & Hfind & Hin & Ho' & Hn' & Hcmp' & _).
  { intros h' Hin. destruct (Pos.eq_dec h' h) as [->|Hneq].
    - exists {| ref_counter := 3; user_data := t |}, nm.
      split; [exact Hnew|]. split; [reflexivity|]. cbn. unfold INT_MAX. lia.
    - apply in_app_or in Hin. destruct Hin as [Hin|[<-|[]]]; [|contradiction].
      destruct (Hok buckets _ h' Hc Hb Hin) as (o & n & Ho & Hn).
      exists o, n. rewrite (Hold h' Hneq). split; [exact Ho|]. split; [exact Hn|].
      exact (Hcount h' o Ho). }
  { exists h, {| ref_counter := 3; user_data := t |}, nm.
    split; [apply in_or_app; right; now left|]. split; [exact Hnew|].
    split; [reflexivity|apply strcasecmp_refl]. }
  assert (Hsame : h' = h).
  { destruct (Pos.eq_dec h' h) as [E|Hneq]; [exact E|]. exfalso.
    apply in_app_or in Hin. destruct Hin as [Hin|[E|[]]]; [|now symmetry in E].
    rewrite (Hold h' Hneq) in Ho'. apply Hnot.
    now exists buckets, (nth i buckets []), h', o', n'. }
  subst h'. rewrite Hnew in Ho'. injection Ho' as <-.
  assert (Hget : ast_taskprocessor_get ast_str_case_hash (Some nm) create' s1
                 = Some (Some h,
                         with_processors
                           (<[h := {| ref_counter := 3 + 1; user_data := t |}]> (processors s1))
                           s1)).
  { unfold ast_taskprocessor_get. rewrite Hnm.
    unfold ao2_find. unfold bind at 1. unfold bind at 1. unfold gets.
    replace (tps_singletons s1) with (Some (alter (fun b => b ++ [h]) i buckets))
      by reflexivity.
    unfold tps_hash_cb. change (Z.land OBJ_KEY OBJ_KEY =? 0) with false. cbv iota.
    rewrite Hbucket, Hfind. reflexivity. }
  rewrite (bind_eq _ _ _ _ _ Hget).
  eexists. split; [reflexivity|]. subst s1. fields. rewrite insert_insert_eq.
  now repeat split.
Qed.

(** ** The shutdown of the default listener *)

(** [default_listener_shutdown] returns on a listener whose thread was
    created, with the wake-up taken and the order to die standing, and only
    on such a listener. *)
Lemma default_listener_shutdown_joins (pvt : default_taskprocessor_listener_pvt) :
  default_listener_shutdown pvt
  = if poll_thread pvt
    then Some {| poll_thread := false; wake_up := 0; dead := 1 |}
    else None.
Proof. unfold default_listener_shutdown. cbn. now destruct (poll_thread pvt). Qed.

End RegistryProperties.

(** * The properties on the concrete system *)

(** The concrete state is the one the code builds: the container is
    initialised and the processor "x" is asked for. *)
Lemma x_state_created :
  (ast_tps_init ;; ast_taskprocessor_get length_hash (Some "x"%string) TPS_REF_DEFAULT)
    empty_state = Some (Some 2%positive, x_state).
Proof. vm_compute. reflexivity. Qed.

Lemma C1_witness :
  bound x_state 2%positive x_processor 1%positive default_listener_callbacks x_pvt /\
  fresh x_processor /\
  granted 3 x_state /\
  exists s1,
    push_all (Some 2%positive) [log_task 10; log_task 20; log_task 30] x_state
    = Some ([0; 0; 0], s1) /\
    forall k, (k <= 3)%nat ->
      exists rs s2 t2 d2,
        execute_times k (Some 2%positive) s1 = Some (rs, s2) /\
        world s2 = run_callbacks (firstn k [log_task 10; log_task 20; log_task 30]) [] /\
        bound s2 2%positive t2 1%positive default_listener_callbacks d2 /\
        tps_queue t2 = skipn k [log_task 10; log_task 20; log_task 30].
Proof.
  assert (Hb : bound x_state 2%positive x_processor 1%positive
                     default_listener_callbacks x_pvt).
  { eexists _, _. repeat split; reflexivity. }
  assert (Hf : fresh x_processor) by (repeat split; reflexivity).
  assert (Hg : granted 3 x_state) by reflexivity.
  repeat split; try assumption; try reflexivity.
  exact (C1_execution_order_is_push_order x_state 2%positive 1%positive x_processor
           default_listener_callbacks x_pvt [log_task 10; log_task 20; log_task 30]
           Hb Hf Hg).
Defined.

(** The log of the concrete run: the three tasks ran in the order of the
    pushes. *)
Lemma x_state_log :
  fst <$> (push_all (Some 2%positive) [log_task 10; log_task 20; log_task 30] ;;
           execute_times 3 (Some 2%positive) ;;
           gets world) x_state
  = Some [10; 20; 30].
Proof. vm_compute. reflexivity. Qed.

Lemma x_state_one_pushed :
  ast_taskprocessor_push (Some 2%positive) (Some (log_callback 0)) 10 x_state
  = Some (0, x_state_one).
Proof. vm_compute. reflexivity. Qed.




Lemma C4_witness :
  bound x_state 2%positive x_processor 1%positive default_listener_callbacks x_pvt /\
  granted 1 x_state /\
  0 <= tps_queue_size x_processor < 2 ^ 32 /\
  exists s0 previous_size s1 s',
    ast_taskprocessor_push (Some 2%positive) (Some (log_callback 0)) 10 x_state
    = Some (0, s') /\
    tps_task_alloc (log_callback 0) 10 x_state = Some (Some (log_task 10), s0) /\
    locked (Some 2%positive) (push_locked (log_task 10)) s0 = Some (previous_size, s1) /\
    bound s1 2%positive (x_queued [log_task 10]) 1%positive default_listener_callbacks x_pvt /\
    call_listener (Some 1%positive) (fun c p => task_pushed c p 1) s1 = Some (tt, s') /\
    bound s' 2%positive (x_queued [log_task 10]) 1%positive default_listener_callbacks
          x_woken.
Proof.
  assert (Hb : bound x_state 2%positive x_processor 1%positive
                     default_listener_callbacks x_pvt).
  { eexists _, _. repeat split; reflexivity. }
  assert (Hg : granted 1 x_state) by reflexivity.
  assert (Hr : 0 <= tps_queue_size x_processor < 2 ^ 32) by (cbn; lia).
  split; [exact Hb|]. split; [exact Hg|]. split; [exact Hr|].
  exact (C4_task_pushed_gets_the_empty_edge x_state 2%positive 1%positive x_processor
           default_listener_callbacks x_pvt (log_callback 0) 10 Hb Hg Hr).
Defined.

Lemma C5_witness :
  bound x_state 2%positive x_processor 1%positive default_listener_callbacks x_pvt /\
  fresh x_processor /\
  granted 1 x_state /\
  1 <= 1 <= INT_MAX /\
  exists s1 rs s2 t2 d2,
    push_all (Some 2%positive) [log_task 10] x_state = Some ([0], s1) /\
    execute_times 1 (Some 2%positive) s1 = Some (rs, s2) /\
    bound s2 2%positive t2 1%positive default_listener_callbacks d2 /\
    tps_queue t2 = [] /\
    stats t2 = Some {| max_qsize := 0; _tasks_processed_count := 1 |}.
Proof.
  assert (Hb : bound x_state 2%positive x_processor 1%positive
                     default_listener_callbacks x_pvt).
  { eexists _, _. repeat split; reflexivity. }
  assert (Hf : fresh x_processor) by (repeat split; reflexivity).
  assert (Hg : granted 1 x_state) by reflexivity.
  assert (HK : 1 <= 1 <= INT_MAX) by (unfold INT_MAX; lia).
  split; [exact Hb|]. split; [exact Hf|]. split; [exact Hg|]. split; [exact HK|].
  exact (C5_burst_high_water_mark_is_one_less x_state 2%positive 1%positive x_processor
           default_listener_callbacks x_pvt [log_task 10] Hb Hf Hg HK).
Defined.

(** The failing input of C5 evaluated: one push, one execution, and the
    high-water mark reads 0. *)
Lemma C5_one_task_burst :
  fst <$> (ast_taskprocessor_push (Some 2%positive) (Some (log_callback 0)) 10 ;;
           ast_taskprocessor_execute (Some 2%positive) ;;
           o <- load_tps (Some 2%positive) ;;
           ret (stats (user_data o))) x_state
  = Some (Some {| max_qsize := 0; _tasks_processed_count := 1 |}).
Proof. vm_compute. reflexivity. Qed.

Lemma C7_witness :
  (Some 2%positive = None \/ Some (log_callback 0) = None \/
   (hd true (oracle (x_system x_processor x_pvt 0 [] [false])) = false /\
    exists h, Some 2%positive = Some h /\
              is_Some (processors (x_system x_processor x_pvt 0 [] [false]) !! h))) /\
  exists s',
    ast_taskprocessor_push (Some 2%positive) (Some (log_callback 0)) 10
      (x_system x_processor x_pvt 0 [] [false]) = Some (-1, s') /\
    processors s' = processors (x_system x_processor x_pvt 0 [] [false]) /\
    listeners s' = listeners (x_system x_processor x_pvt 0 [] [false]) /\
    world s' = world (x_system x_processor x_pvt 0 [] [false]) /\
    task_envelopes s' = task_envelopes (x_system x_processor x_pvt 0 [] [false]) /\
    tps_singletons s' = tps_singletons (x_system x_processor x_pvt 0 [] [false]) /\
    (Some 2%positive = None \/ Some (log_callback 0) = None ->
     s' = x_system x_processor x_pvt 0 [] [false]).
Proof.
  assert (H : Some 2%positive = None \/ Some (log_callback 0) = None \/
              (hd true (oracle (x_system x_processor x_pvt 0 [] [false])) = false /\
               exists h, Some 2%positive = Some h /\
                 is_Some (processors (x_system x_processor x_pvt 0 [] [false]) !! h))).
  { right. right. split; [reflexivity|]. exists 2%positive. split; [reflexivity|].
    eexists. reflexivity. }
  split; [exact H|].
  exact (C7_failed_push_changes_nothing (x_system x_processor x_pvt 0 [] [false])
           (Some 2%positive) (Some (log_callback 0)) 10 H).
Defined.

Lemma C10_witness :
  bound x_state_one 2%positive (x_queued [log_task 10]) 1%positive
        default_listener_callbacks x_woken /\
  processors x_state_one !! 2%positive
    = Some {| ref_counter := 3; user_data := x_queued [log_task 10] |} /\
  shutting_down (x_queued [log_task 10]) = false /\
  tps_queue (x_queued [log_task 10]) = [{| execute := log_callback 0; datap := 10 |}] /\
  stats (x_queued [log_task 10]) = Some {| max_qsize := 0; _tasks_processed_count := 0 |} /\
  (forall w, fst (log_callback 7 10 w) = fst (log_callback 0 10 w)) /\
  exists r s' t' d',
    ast_taskprocessor_execute (Some 2%positive) x_state_one = Some (r, s') /\
    ast_taskprocessor_execute (Some 2%positive)
      (x_system (x_queued [{| execute := log_callback 7; datap := 10 |}]) x_woken 1 [] [])
    = Some (r, s') /\
    world s' = [10] /\
    task_envelopes s' = 0 /\
    bound s' 2%positive t' 1%positive default_listener_callbacks d' /\
    tps_queue t' = [] /\
    stats t' = Some {| max_qsize := 0; _tasks_processed_count := 1 |}.
Proof.
  pose (o := {| ref_counter := 3; user_data := x_queued [log_task 10] |}
             : ao2 (@ast_taskprocessor (list Z))).
  assert (Hb : bound x_state_one 2%positive (user_data o) 1%positive
                     default_listener_callbacks x_woken).
  { eexists _, _. repeat split; reflexivity. }
  assert (Ho : processors x_state_one !! 2%positive = Some o) by reflexivity.
  assert (Hsd : shutting_down (user_data o) = false) by reflexivity.
  assert (Hq : tps_queue (user_data o) = [{| execute := log_callback 0; datap := 10 |}])
    by reflexivity.
  assert (Hst : stats (user_data o)
                = Some {| max_qsize := 0; _tasks_processed_count := 0 |}) by reflexivity.
  assert (Hfg : forall w : list Z, fst (log_callback 7 10 w) = fst (log_callback 0 10 w))
    by (intros w; reflexivity).
  repeat (split; [assumption|]).
  exact (C10_callback_status_is_ignored x_state_one 2%positive 1%positive o
           default_listener_callbacks x_woken (log_callback 0) (log_callback 7) 10 [] 0 0
           Hb Ho Hsd Hq Hst Hfg).
Defined.

Lemma C6_witness :
  processors x_state_shutting_down !! 2%positive
    = Some {| ref_counter := 3; user_data := x_shutting_down |} /\
  shutting_down x_shutting_down = true /\
  (2 < next_handle x_state_shutting_down)%positive /\
  (forall s' o',
     rtc (call length_hash) x_state_shutting_down s' ->
     processors s' !! 2%positive = Some o' ->
     shutting_down (user_data o') = true /\
     tps_taskprocessor_pop (Some 2%positive) s' = Some (None, s') /\
     ast_taskprocessor_execute (Some 2%positive) s' = Some (0, s')) /\
  (forall ls s',
     steps 2%positive ls x_state_shutting_down s' ->
     exists o',
       processors s' !! 2%positive = Some o' /\
       shutting_down (user_data o') = true /\
       count_label PopTask ls = O /\
       (count_label PushSection ls = O -> tps_queue (user_data o') = [log_task 10]) /\
       (count_label StatsSection ls = O ->
        stats (user_data o') = Some {| max_qsize := 0; _tasks_processed_count := 0 |})).
Proof.
  assert (Ho : processors x_state_shutting_down !! 2%positive
               = Some {| ref_counter := 3; user_data := x_shutting_down |}) by reflexivity.
  assert (Hsd : shutting_down x_shutting_down = true) by reflexivity.
  assert (Hh : (2 < next_handle x_state_shutting_down)%positive) by (cbn; lia).
  split; [exact Ho|]. split; [exact Hsd|]. split; [exact Hh|].
  exact (C6_shutting_down_is_terminal length_hash x_state_shutting_down 2%positive _
           Ho Hsd Hh).
Defined.

Lemma C8_witness :
  served length_hash x_state 2%positive 1%positive
         {| ref_counter := 3; user_data := x_processor |}
         {| ref_counter := 1;
            user_data := {| callbacks := default_listener_callbacks;
                            tps := Some 2%positive;
                            private_data := Some x_pvt |} |}
         x_pvt [[]; [2%positive]; []; []; []; []; []] 1 /\
  3 <= 3 <= INT_MAX /\
  1 <= 1 <= INT_MAX /\
  ast_taskprocessor_unreference length_hash None x_state = Some (None, x_state) /\
  (forall p (s1 : @state (list Z) default_taskprocessor_listener_pvt) r s1',
     ast_taskprocessor_unreference length_hash p s1 = Some (r, s1') -> r = None) /\
  (3 < 3 ->
   ast_taskprocessor_unreference length_hash (Some 2%positive) x_state =
   Some (None,
         with_processors
           (<[2%positive := {| ref_counter := 3 - 1; user_data := x_processor |}]>
              (processors x_state)) x_state)) /\
  (3 = 3 ->
   ast_taskprocessor_unreference length_hash (Some 2%positive) x_state =
   Some (None,
         with_listeners (delete 1%positive (listeners x_state))
           (with_processors (delete 2%positive (processors x_state))
              (with_tps_singletons (Some [[]; []; []; []; []; []; []]) x_state)))).
Proof.
  assert (Hs : served length_hash x_state 2%positive 1%positive
                 {| ref_counter := 3; user_data := x_processor |}
                 {| ref_counter := 1;
                    user_data := {| callbacks := default_listener_callbacks;
                                    tps := Some 2%positive;
                                    private_data := Some x_pvt |} |}
                 x_pvt [[]; [2%positive]; []; []; []; []; []] 1).
  { repeat split; try reflexivity.
    - exists "x"%string. split; reflexivity.
    - left. reflexivity. }
  assert (H3 : 3 <= 3 <= INT_MAX) by (unfold INT_MAX; lia).
  assert (H1 : 1 <= 1 <= INT_MAX) by (unfold INT_MAX; lia).
  split; [exact Hs|]. split; [exact H3|]. split; [exact H1|].
  exact (C8_unreference_finalizes_at_the_baseline length_hash x_state 2%positive
           1%positive _ _ x_pvt _ 1 Hs H3 H1).
Defined.

(** The two holders of "x": the first release only counts down, the second
    finalizes and leaves no processor, no listener and an empty container. *)
Lemma x_state_two_holders :
  (fun r => match r with
            | Some (_, s) => Some (map_to_list (processors s), map_to_list (listeners s),
                                   tps_singletons s)
            | None => None
            end)
    ((p <- ast_taskprocessor_get length_hash (Some "X"%string) TPS_REF_IF_EXISTS ;;
      ast_taskprocessor_unreference length_hash p ;;
      ast_taskprocessor_unreference length_hash p) x_state)
  = Some ([], [], Some [[]; []; []; []; []; []; []]).
Proof. vm_compute. reflexivity. Qed.

Lemma C9_witness :
  container_ok x_state /\
  ~ registered x_state "ghost" /\
  Z.land TPS_REF_IF_EXISTS TPS_REF_IF_EXISTS <> 0 /\
  ast_taskprocessor_get length_hash (Some "ghost"%string) TPS_REF_IF_EXISTS x_state
  = Some (None, x_state).
Proof.
  assert (Hok : container_ok x_state).
  { intros buckets bucket h Hc Hb Hh. injection Hc as <-.
    exists {| ref_counter := 3; user_data := x_processor |}, "x"%string.
    cbn in Hb. destruct Hb as [<-|[<-|[<-|[<-|[<-|[<-|[<-|[]]]]]]]]; cbn in Hh;
      try contradiction.
    destruct Hh as [<-|[]]. split; reflexivity. }
  assert (Hnot : ~ registered x_state "ghost").
  { intros (buckets & bucket & h & o & n & Hc & Hb & Hh & Ho & Hn & Hcmp).
    injection Hc as <-.
    cbn in Hb. destruct Hb as [<-|[<-|[<-|[<-|[<-|[<-|[<-|[]]]]]]]]; cbn in Hh;
      try contradiction.
    destruct Hh as [<-|[]]. vm_compute in Ho. injection Ho as <-.
    cbn in Hn. injection Hn as <-. vm_compute in Hcmp. discriminate. }
  assert (Hmode : Z.land TPS_REF_IF_EXISTS TPS_REF_IF_EXISTS <> 0) by discriminate.
  split; [exact Hok|]. split; [exact Hnot|]. split; [exact Hmode|].
  exact (C9_get_only_if_exists_has_no_effect length_hash x_state "ghost"
           TPS_REF_IF_EXISTS Hok Hnot Hmode).
Defined.

(** The worker of "x" after three pushes: it runs the three tasks in the
    order of the pushes and then waits. *)
Lemma x_worker_drains :
  (fun r => match r with
            | Some (w, s) => Some (w, world s, depth_of 2%positive s)
            | None => None
            end)
    ((push_all (Some 2%positive) [log_task 10; log_task 20; log_task 30] ;;
      tps_processing_function 10 (Some 1%positive)) x_state)
  = Some (WorkerWaiting, [10; 20; 30], 0).
Proof. vm_compute. reflexivity. Qed.

Lemma x_state_done_executed :
  ast_taskprocessor_execute (Some 2%positive) x_state_one = Some (0, x_state_done).
Proof. vm_compute. reflexivity. Qed.

(** The run of one push and one execution on "x". *)
Lemma x_push_then_execute :
  steps 2%positive push_then_execute x_state x_state_done.
Proof.
  apply (steps_app 2%positive [Unlocked; PushSection; Unlocked]
           [PopTask; Unlocked; Unlocked; StatsSection; Unlocked] x_state x_state_one).
  - apply (push_is_steps 2%positive (log_callback 0) 10). vm_compute. reflexivity.
  - apply (execute_task_is_steps 2%positive 0 (log_task 10) x_state_one x_state_done).
    + vm_compute. reflexivity.
    + exact x_state_done_executed.
Qed.

Lemma X1_witness :
  processors x_state !! 2%positive = Some {| ref_counter := 3; user_data := x_processor |} /\
  fresh x_processor /\
  steps 2%positive push_then_execute x_state x_state_done /\
  exists o st,
    processors x_state_done !! 2%positive = Some o /\
    stats (user_data o) = Some st /\
    _tasks_processed_count st = to_ulong (completed push_then_execute) /\
    (completed push_then_execute <= ULONG_MAX ->
     _tasks_processed_count st = completed push_then_execute).
Proof.
  assert (Ho : processors x_state !! 2%positive
               = Some {| ref_counter := 3; user_data := x_processor |}) by reflexivity.
  assert (Hf : fresh x_processor) by (repeat split; reflexivity).
  split; [exact Ho|]. split; [exact Hf|]. split; [exact x_push_then_execute|].
  exact (X1_processed_count_counts_completed_executions 2%positive push_then_execute
           x_state x_state_done _ Ho Hf x_push_then_execute).
Defined.

Lemma X2_witness :
  processors x_state !! 2%positive = Some {| ref_counter := 3; user_data := x_processor |} /\
  stats x_processor = Some {| max_qsize := 0; _tasks_processed_count := 0 |} /\
  steps 2%positive push_then_execute x_state x_state_done /\
  exists o st,
    processors x_state_done !! 2%positive = Some o /\
    stats (user_data o) = Some st /\
    max_qsize {| max_qsize := 0; _tasks_processed_count := 0 |} <= max_qsize st.
Proof.
  assert (Ho : processors x_state !! 2%positive
               = Some {| ref_counter := 3; user_data := x_processor |}) by reflexivity.
  assert (Hst : stats x_processor = Some {| max_qsize := 0; _tasks_processed_count := 0 |})
    by reflexivity.
  split; [exact Ho|]. split; [exact Hst|]. split; [exact x_push_then_execute|].
  exact (X2_high_water_mark_never_decreases 2%positive push_then_execute
           x_state x_state_done _ _ Ho Hst x_push_then_execute).
Defined.

(** A push section and a pop on "x", one after the other. *)
Lemma x_push_then_pop :
  trace 2%positive ([] ++ [log_task 10]) ([] ++ [log_task 10]) x_state x_state.
Proof.
  apply (trace_pop 2%positive [log_task 10] [] (log_task 10) x_state
           (x_system (x_queued [log_task 10]) x_pvt 0 [] []) x_state).
  - apply (trace_push 2%positive [] [] (log_task 10) 0 x_state x_state).
    + constructor.
    + vm_compute. reflexivity.
  - vm_compute. reflexivity.
Qed.

Lemma X3_witness :
  processors x_state !! 2%positive = Some {| ref_counter := 3; user_data := x_processor |} /\
  trace 2%positive ([] ++ [log_task 10]) ([] ++ [log_task 10]) x_state x_state /\
  exists o,
    processors x_state !! 2%positive = Some o /\
    tps_queue x_processor ++ ([] ++ [log_task 10])
    = ([] ++ [log_task 10]) ++ tps_queue (user_data o).
Proof.
  assert (Ho : processors x_state !! 2%positive
               = Some {| ref_counter := 3; user_data := x_processor |}) by reflexivity.
  split; [exact Ho|]. split; [exact x_push_then_pop|].
  exact (X3_pops_return_tasks_in_push_order 2%positive _ _ x_state x_state _
           Ho x_push_then_pop).
Defined.

Lemma X4_witness :
  bound x_state 2%positive x_processor 1%positive default_listener_callbacks x_pvt /\
  exists rs s' t' d',
    run_ops (Some 2%positive) x_calls x_state = Some (rs, s') /\
    length rs = length x_calls /\
    bound s' 2%positive t' 1%positive default_listener_callbacks d' /\
    task_envelopes s' - Z.of_nat (length (tps_queue t'))
    = task_envelopes x_state - Z.of_nat (length (tps_queue x_processor)).
Proof.
  assert (Hb : bound x_state 2%positive x_processor 1%positive
                     default_listener_callbacks x_pvt).
  { eexists _, _. repeat split; reflexivity. }
  split; [exact Hb|].
  exact (X4_envelopes_are_queued_or_freed x_calls x_state 2%positive 1%positive
           x_processor default_listener_callbacks x_pvt Hb).
Defined.

Lemma X5_witness :
  bound x_state_one 2%positive (x_queued [log_task 10]) 1%positive
        default_listener_callbacks x_woken /\
  listeners x_state_one !! 1%positive
  = Some {| ref_counter := 1;
            user_data := {| callbacks := default_listener_callbacks;
                            tps := Some 2%positive;
                            private_data := Some x_woken |} |} /\
  Z.of_nat (length [log_task 10]) <= INT_MAX /\
  exists s' t',
    tps_processing_function (length [log_task 10] + 2 + 0) (Some 1%positive) x_state_one
    = Some (if (wake_up x_woken =? 0) || (dead x_woken =? 0)
            then WorkerWaiting else WorkerExited, s') /\
    bound s' 2%positive t' 1%positive default_listener_callbacks
          {| poll_thread := poll_thread x_woken; wake_up := 0; dead := dead x_woken |} /\
    tps_queue t' = [] /\
    world s' = run_callbacks [log_task 10] (world x_state_one) /\
    task_envelopes s' = task_envelopes x_state_one - Z.of_nat (length [log_task 10]).
Proof.
  assert (Hb : bound x_state_one 2%positive (x_queued [log_task 10]) 1%positive
                     default_listener_callbacks x_woken).
  { eexists _, _. repeat split; reflexivity. }
  assert (Hlo : listeners x_state_one !! 1%positive
                = Some {| ref_counter := 1;
                          user_data := {| callbacks := default_listener_callbacks;
                                          tps := Some 2%positive;
                                          private_data := Some x_woken |} |})
    by reflexivity.
  assert (Hmax : Z.of_nat (length [log_task 10]) <= INT_MAX) by (vm_compute; discriminate).
  split; [exact Hb|]. split; [exact Hlo|]. split; [exact Hmax|].
  exact (X5_worker_runs_every_queued_task [log_task 10] 0 x_state_one 2%positive
           1%positive (x_queued [log_task 10]) x_woken _ Hb Hlo eq_refl eq_refl eq_refl
           eq_refl Hmax).
Defined.


(** The system of "x", whatever the environment will answer: its container
    is well formed and no processor is registered under "ghost". *)
Lemma x_container_ok (orc : list bool) :
  container_ok (x_system x_processor x_pvt 0 [] orc).
Proof.
  intros buckets bucket h Hc Hb Hh. injection Hc as <-.
  exists {| ref_counter := 3; user_data := x_processor |}, "x"%string.
  cbn in Hb. destruct Hb as [<-|[<-|[<-|[<-|[<-|[<-|[<-|[]]]]]]]]; cbn in Hh;
    try contradiction.
  destruct Hh as [<-|[]]. split; reflexivity.
Qed.

Lemma x_ghost_absent (orc : list bool) :
  ~ registered (x_system x_processor x_pvt 0 [] orc) "ghost".
Proof.
  intros (buckets & bucket & h & o & n & Hc & Hb & Hh & Ho & Hn & Hcmp).
  injection Hc as <-.
  cbn in Hb. destruct Hb as [<-|[<-|[<-|[<-|[<-|[<-|[<-|[]]]]]]]]; cbn in Hh;
    try contradiction.
  destruct Hh as [<-|[]]. vm_compute in Ho. injection Ho as <-.
  cbn in Hn. injection Hn as <-. vm_compute in Hcmp. discriminate.
Qed.

Lemma X7_witness :
  container_ok x_state /\
  ~ registered x_state "ghost" /\
  granted 7 x_state /\
  exists s',
    ast_taskprocessor_get length_hash (Some "ghost"%string) TPS_REF_DEFAULT x_state
    = Some (Some (Pos.succ (next_handle x_state)), s') /\
    processors s'
    = <[Pos.succ (next_handle x_state) :=
          {| ref_counter := 3;
             user_data := {| name := Some "ghost"%string;
                             stats := Some {| max_qsize := 0; _tasks_processed_count := 0 |};
                             tps_queue_size := 0; tps_queue := [];
                             listener := Some (next_handle x_state);
                             shutting_down := false |} |}]> (processors x_state) /\
    listeners s'
    = <[next_handle x_state :=
          {| ref_counter := 1;
             user_data := {| callbacks := default_listener_callbacks;
                             tps := Some (Pos.succ (next_handle x_state));
                             private_data :=
                               Some {| poll_thread := true; wake_up := 0; dead := 0 |} |} |}]>
        (listeners x_state) /\
    tps_singletons s'
    = Some (alter (fun b => b ++ [Pos.succ (next_handle x_state)])
                  (bucket_index [[]; [2%positive]; []; []; []; []; []]
                                (length_hash "ghost"))
                  [[]; [2%positive]; []; []; []; []; []]) /\
    next_handle s' = Pos.succ (Pos.succ (next_handle x_state)) /\
    oracle s' = skipn 7 (oracle x_state) /\
    world s' = world x_state /\
    task_envelopes s' = task_envelopes x_state.
Proof.
  assert (Hg : granted 7 x_state) by reflexivity.
  split; [exact (x_container_ok [])|]. split; [exact (x_ghost_absent [])|].
  split; [exact Hg|].
  exact (X7_get_creates_and_registers length_hash x_state "ghost" TPS_REF_DEFAULT
           [[]; [2%positive]; []; []; []; []; []]
           (x_container_ok []) (x_ghost_absent []) eq_refl eq_refl eq_refl Hg).
Defined.

Lemma X8_witness :
  container_ok (x_system x_processor x_pvt 0 [] [true; true; true; false]) /\
  ~ registered (x_system x_processor x_pvt 0 [] [true; true; true; false]) "ghost" /\
  exists s',
    ast_taskprocessor_get length_hash (Some "ghost"%string) TPS_REF_DEFAULT
      (x_system x_processor x_pvt 0 [] [true; true; true; false]) = Some (None, s') /\
    processors s' = processors x_state /\
    listeners s' = listeners x_state /\
    tps_singletons s' = tps_singletons x_state /\
    world s' = world x_state /\
    task_envelopes s' = task_envelopes x_state.
Proof.
  split; [apply x_container_ok|]. split; [apply x_ghost_absent|].
  apply (X8_get_without_memory_leaves_nothing_behind length_hash
           (x_system x_processor x_pvt 0 [] [true; true; true; false]) "ghost"
           TPS_REF_DEFAULT (x_container_ok _) (x_ghost_absent _) eq_refl eq_refl
           eq_refl eq_refl).
  right. split; [reflexivity|]. split; [reflexivity|]. right. split; reflexivity.
Defined.

Lemma X9_witness :
  ast_taskprocessor_create_with_listener length_hash "ghost" (Some 1%positive)
    (x_system x_processor x_pvt 0 [] [true; true; false]) = None /\
  exists s1,
    (p <- ao2_alloc_tps ;; ask_oracle ;;
     update_tps p (set_stats (Some {| max_qsize := 0; _tasks_processed_count := 0 |})) ;;
     ask_oracle ;; ao2_ref_tps p (-1))
      (x_system x_processor x_pvt 0 [] [true; true; false]) = Some (1, s1) /\
    processors s1 !! 3%positive = None /\
    ao2_cleanup_tps (Some 3%positive) s1 = None.
Proof.
  exact (X9_name_failure_releases_the_processor_twice length_hash "ghost"
           (Some 1%positive) (x_system x_processor x_pvt 0 [] [true; true; false])
           eq_refl eq_refl eq_refl).
Defined.

Lemma X10_witness :
  0 < 1 < INT_MAX /\
  exists s',
    ast_taskprocessor_create_with_listener length_hash "ghost" (Some 1%positive)
      (x_system x_processor x_pvt 0 [] [true; true; true; false]) = Some (None, s') /\
    processors s'
    = <[3%positive :=
          {| ref_counter := 1;
             user_data :=
               {| name := Some "ghost"%string;
                  stats := Some {| max_qsize := 0; _tasks_processed_count := 0 |};
                  tps_queue_size := 0; tps_queue := [];
                  listener := Some 1%positive; shutting_down := false |} |}]>
        (processors x_state) /\
    listeners s'
    = <[1%positive :=
          {| ref_counter := 1 + 1;
             user_data := {| callbacks := default_listener_callbacks;
                             tps := Some 3%positive;
                             private_data := Some x_pvt |} |}]> (listeners x_state) /\
    tps_singletons s' = tps_singletons x_state.
Proof.
  assert (Hc : 0 < 1 < INT_MAX) by (unfold INT_MAX; lia).
  split; [exact Hc|].
  exact (X10_link_failure_leaves_the_processor_behind length_hash "ghost"
           (x_system x_processor x_pvt 0 [] [true; true; true; false]) 1%positive
           {| ref_counter := 1;
              user_data := {| callbacks := default_listener_callbacks;
                              tps := Some 2%positive;
                              private_data := Some x_pvt |} |}
           eq_refl Hc eq_refl eq_refl eq_refl (or_intror eq_refl)).
Defined.


Lemma X12_witness :
  container_ok (x_system x_processor x_pvt 0 [] [true; false]) /\
  ~ registered (x_system x_processor x_pvt 0 [] [true; false]) "ghost" /\
  ast_taskprocessor_listener_alloc default_listener_callbacks
    (x_system x_processor x_pvt 0 [] [true; false]) = None /\
  ast_taskprocessor_get length_hash (Some "ghost"%string) TPS_REF_DEFAULT
    (x_system x_processor x_pvt 0 [] [true; false]) = None.
Proof.
  split; [apply x_container_ok|]. split; [apply x_ghost_absent|].
  exact (X12_failed_private_data_is_destroyed_through_null length_hash
           (x_system x_processor x_pvt 0 [] [true; false]) "ghost" TPS_REF_DEFAULT
           eq_refl eq_refl (x_container_ok _) (x_ghost_absent _) eq_refl eq_refl).
Defined.

Lemma x_counts_in_range (h : handle) (o : ao2 (@ast_taskprocessor (list Z))) :
  processors x_state !! h = Some o -> 0 < ref_counter o < INT_MAX.
Proof.
  intros H. change (processors x_state)
    with ({[ 2%positive := {| ref_counter := 3; user_data := x_processor |} ]}
          : gmap handle (ao2 (@ast_taskprocessor (list Z)))) in H.
  apply lookup_singleton_Some in H. destruct H as [_ <-]. cbn. unfold INT_MAX. lia.
Qed.

(** The processors of the twins. *)
Lemma x_twins_processors (h : handle) (o : ao2 (@ast_taskprocessor (list Z))) :
  processors x_twins !! h = Some o ->
  (h = 2%positive /\ o = {| ref_counter := 3; user_data := x_processor |}) \/
  (h = 4%positive /\ o = {| ref_counter := 3; user_data := x_twin |}).
Proof.
  intros H. change (processors x_twins)
    with (<[2%positive := {| ref_counter := 3; user_data := x_processor |}]>
            ({[ 4%positive := {| ref_counter := 3; user_data := x_twin |} ]}
             : gmap handle (ao2 (@ast_taskprocessor (list Z))))) in H.
  apply lookup_insert_Some in H. destruct H as [[<- <-]|[_ H]]; [now left|].
  apply lookup_singleton_Some in H. destruct H as [<- <-]. now right.
Qed.

Lemma x_twins_container_ok : container_ok x_twins.
Proof.
  intros buckets bucket h Hc Hb Hh. injection Hc as <-.
  cbn in Hb. destruct Hb as [<-|[<-|[<-|[<-|[<-|[<-|[<-|[]]]]]]]]; cbn in Hh;
    try contradiction.
  destruct Hh as [<-|[<-|[]]].
  - exists {| ref_counter := 3; user_data := x_processor |}, "x"%string.
    split; reflexivity.
  - exists {| ref_counter := 3; user_data := x_twin |}, "X"%string.
    split; reflexivity.
Qed.

(** Asked for "X", the registry of the twins hands out the processor "x",
    the first of the two in the bucket, and not the one named "X". *)
Lemma x_twins_first :
  fst <$> ast_taskprocessor_get length_hash (Some "X"%string) TPS_REF_DEFAULT x_twins
  = Some (Some 2%positive).
Proof. vm_compute. reflexivity. Qed.

Lemma X13_witness :
  container_ok x_twins /\
  (forall h o, processors x_twins !! h = Some o -> 0 < ref_counter o < INT_MAX) /\
  In 4%positive (nth (bucket_index [[]; [2%positive; 4%positive]; []; []; []; []; []]
                                   (length_hash "X"))
                     [[]; [2%positive; 4%positive]; []; []; []; []; []] []) /\
  strcasecmp "X" "X" = 0 /\
  exists h o n,
    ast_taskprocessor_get length_hash (Some "X"%string) TPS_REF_DEFAULT x_twins
    = Some (Some h,
            with_processors (<[h := set_ref_counter (ref_counter o + 1) o]>
                               (processors x_twins)) x_twins) /\
    processors x_twins !! h = Some o /\
    name (user_data o) = Some n /\
    strcasecmp n "X" = 0 /\
    (exists before after,
       nth (bucket_index [[]; [2%positive; 4%positive]; []; []; []; []; []]
                         (length_hash "X"))
           [[]; [2%positive; 4%positive]; []; []; []; []; []] [] = before ++ h :: after /\
       forall h' o' n', In h' before -> processors x_twins !! h' = Some o' ->
                        name (user_data o') = Some n' -> strcasecmp n' "X" <> 0) /\
    ((forall h' o' n',
        In h' (nth (bucket_index [[]; [2%positive; 4%positive]; []; []; []; []; []]
                                 (length_hash "X"))
                   [[]; [2%positive; 4%positive]; []; []; []; []; []] []) ->
        processors x_twins !! h' = Some o' -> name (user_data o') = Some n' ->
        strcasecmp n' "X" = 0 -> h' = 4%positive) ->
     h = 4%positive).
Proof.
  assert (Hcount : forall h o, processors x_twins !! h = Some o ->
                               0 < ref_counter o < INT_MAX).
  { intros h o H. destruct (x_twins_processors h o H) as [[_ ->]|[_ ->]];
      cbn; unfold INT_MAX; lia. }
  assert (Hin : In 4%positive
                  (nth (bucket_index [[]; [2%positive; 4%positive]; []; []; []; []; []]
                                     (length_hash "X"))
                       [[]; [2%positive; 4%positive]; []; []; []; []; []] []))
    by (right; left; reflexivity).
  assert (Hcmp : strcasecmp "X" "X" = 0) by reflexivity.
  split; [exact x_twins_container_ok|]. split; [exact Hcount|].
  split; [exact Hin|]. split; [exact Hcmp|].
  exact (X13_get_returns_the_registered_processor length_hash x_twins "X"
           TPS_REF_DEFAULT [[]; [2%positive; 4%positive]; []; []; []; []; []] 4%positive
           {| ref_counter := 3; user_data := x_twin |} "X"
           eq_refl eq_refl x_twins_container_ok Hcount Hin eq_refl eq_refl Hcmp).
Defined.


Lemma X15_witness :
  Forall2 (fun h nm => exists o, processors x_state !! h = Some o /\
                                 name (user_data o) = Some nm /\
                                 0 < ref_counter o < INT_MAX)
          (concat [[]; [2%positive]; []; []; []; []; []]) ["x"%string] /\
  Z.of_nat (length (concat [[]; [2%positive]; []; []; []; []; []])) <= INT_MAX /\
  Z.of_nat (String.length "X") <= INT_MAX /\
  tps_taskprocessor_tab_complete 3 "X" 0 x_state
  = match (if 3 =? 3
           then nth_error
                  (List.filter (fun nm => strncasecmp "X" nm (String.length "X") =? 0)
                               ["x"%string])
                  (Z.to_nat 0)
           else None) with
    | Some nm => Some (if hd true (oracle x_state) then Some nm else None,
                       with_oracle (tl (oracle x_state)) x_state)
    | None => Some (None, x_state)
    end.
Proof.
  assert (Hall : Forall2 (fun h nm => exists o, processors x_state !! h = Some o /\
                                                name (user_data o) = Some nm /\
                                                0 < ref_counter o < INT_MAX)
                         (concat [[]; [2%positive]; []; []; []; []; []]) ["x"%string]).
  { constructor; [|constructor].
    exists {| ref_counter := 3; user_data := x_processor |}.
    split; [reflexivity|]. split; [reflexivity|]. cbn. unfold INT_MAX. lia. }
  assert (Hlen : Z.of_nat (length (concat [[]; [2%positive]; []; []; []; []; []]))
                 <= INT_MAX) by (vm_compute; discriminate).
  assert (Hword : Z.of_nat (String.length "X") <= INT_MAX) by (vm_compute; discriminate).
  split; [exact Hall|]. split; [exact Hlen|]. split; [exact Hword|].
  exact (X15_tab_complete_returns_the_nth_match 3 "X" 0 x_state
           [[]; [2%positive]; []; []; []; []; []] ["x"%string] eq_refl Hall Hlen Hword).
Defined.

(** The completion of "X" on the system of "x" is "x". *)
Lemma x_tab_complete :
  tps_taskprocessor_tab_complete 3 "X" 0 x_state = Some (Some "x"%string, x_state).
Proof. vm_compute. reflexivity. Qed.

Lemma X16_witness :
  Forall2 (fun h t => exists o, processors x_state_done !! h = Some o /\ user_data o = t /\
                                0 < ref_counter o < INT_MAX)
          (concat [[]; [2%positive]; []; []; []; []; []]) [x_done] /\
  Forall2 (fun t row =>
             exists nm st,
               name t = Some nm /\ stats t = Some st /\
               row = ReportRow (ast_copy_string nm 256) (_tasks_processed_count st)
                               (to_ulong (tps_queue_size t)) (max_qsize st))
          [x_done] [ReportRow "x" 1 0 0] /\
  Z.of_nat (length (concat [[]; [2%positive]; []; []; []; []; []])) <= INT_MAX /\
  cli_tps_report CLI_HANDLER 3 3 x_state_done
  = Some (if 3 =? 3
          then (CLI_SUCCESS,
                ReportHeader :: [ReportRow "x" 1 0 0]
                  ++ [ReportFooter (Z.of_nat (length [ReportRow "x" 1 0 0]))])
          else (CLI_SHOWUSAGE, []), x_state_done).
Proof.
  assert (Hall : Forall2 (fun h t => exists o, processors x_state_done !! h = Some o /\
                                               user_data o = t /\
                                               0 < ref_counter o < INT_MAX)
                         (concat [[]; [2%positive]; []; []; []; []; []]) [x_done]).
  { constructor; [|constructor].
    exists {| ref_counter := 3; user_data := x_done |}.
    split; [reflexivity|]. split; [reflexivity|]. cbn. unfold INT_MAX. lia. }
  assert (Hrows : Forall2 (fun t row =>
                             exists nm st,
                               name t = Some nm /\ stats t = Some st /\
                               row = ReportRow (ast_copy_string nm 256)
                                               (_tasks_processed_count st)
                                               (to_ulong (tps_queue_size t)) (max_qsize st))
                          [x_done] [ReportRow "x" 1 0 0]).
  { constructor; [|constructor].
    exists "x"%string, {| max_qsize := 0; _tasks_processed_count := 1 |}.
    repeat split; reflexivity. }
  assert (Hlen : Z.of_nat (length (concat [[]; [2%positive]; []; []; []; []; []]))
                 <= INT_MAX) by (vm_compute; discriminate).
  split; [exact Hall|]. split; [exact Hrows|]. split; [exact Hlen|].
  exact (X16_report_lists_every_registered_processor 3 3 x_state_done
           [[]; [2%positive]; []; []; []; []; []] [x_done] [ReportRow "x" 1 0 0]
           eq_refl Hall Hrows Hlen).
Defined.

Lemma X17_witness :
  container_ok x_state /\
  ~ registered x_state "ghost" /\
  [[]; [2%positive]; []; []; []; []; []] <> ([] : list (list handle)) /\
  granted 7 x_state /\
  exists s',
    (p1 <- ast_taskprocessor_get length_hash (Some "ghost"%string) TPS_REF_DEFAULT ;;
     p2 <- ast_taskprocessor_get length_hash (Some "ghost"%string) TPS_REF_IF_EXISTS ;;
     ret (p1, p2)) x_state
    = Some ((Some (Pos.succ (next_handle x_state)), Some (Pos.succ (next_handle x_state))),
            s') /\
    processors s'
    = <[Pos.succ (next_handle x_state) :=
          {| ref_counter := 4;
             user_data := {| name := Some "ghost"%string;
                             stats := Some {| max_qsize := 0; _tasks_processed_count := 0 |};
                             tps_queue_size := 0; tps_queue := [];
                             listener := Some (next_handle x_state);
                             shutting_down := false |} |}]> (processors x_state) /\
    listeners s'
    = <[next_handle x_state :=
          {| ref_counter := 1;
             user_data := {| callbacks := default_listener_callbacks;
                             tps := Some (Pos.succ (next_handle x_state));
                             private_data :=
                               Some {| poll_thread := true; wake_up := 0; dead := 0 |} |} |}]>
        (listeners x_state) /\
    tps_singletons s'
    = Some (alter (fun b => b ++ [Pos.succ (next_handle x_state)])
                  (bucket_index [[]; [2%positive]; []; []; []; []; []]
                                (length_hash "ghost"))
                  [[]; [2%positive]; []; []; []; []; []]) /\
    next_handle s' = Pos.succ (Pos.succ (next_handle x_state)) /\
    oracle s' = skipn 7 (oracle x_state).
Proof.
  assert (Hne : [[]; [2%positive]; []; []; []; []; []] <> ([] : list (list handle)))
    by discriminate.
  assert (Hg : granted 7 x_state) by reflexivity.
  split; [exact (x_container_ok [])|]. split; [exact (x_ghost_absent [])|].
  split; [exact Hne|]. split; [exact Hg|].
  exact (X17_second_get_returns_the_same_processor length_hash x_state "ghost"
           TPS_REF_DEFAULT TPS_REF_IF_EXISTS [[]; [2%positive]; []; []; []; []; []]
           (x_container_ok []) (x_ghost_absent []) eq_refl eq_refl eq_refl Hne Hg
           x_counts_in_range).
Defined.

Lemma X18_witness :
  bound x_state_one 2%positive (x_queued [log_task 10]) 1%positive
        default_listener_callbacks x_woken /\
  Z.of_nat (length [log_task 10]) <= INT_MAX /\
  exists s' t',
    ast_taskprocessor_execute (Some 2%positive) x_state_one
    = Some (match ([] : list (@tps_task (list Z))) with [] => 0 | _ => 1 end, s') /\
    bound s' 2%positive t' 1%positive default_listener_callbacks
          (match ([] : list (@tps_task (list Z))) with
           | [] => emptied default_listener_callbacks x_woken
           | _ => x_woken
           end) /\
    tps_queue t' = [] /\
    world s' = fst (execute (log_task 10) (datap (log_task 10)) (world x_state_one)) /\
    task_envelopes s' = task_envelopes x_state_one - 1.
Proof.
  assert (Hb : bound x_state_one 2%positive (x_queued [log_task 10]) 1%positive
                     default_listener_callbacks x_woken).
  { eexists _, _. repeat split; reflexivity. }
  assert (Hmax : Z.of_nat (length [log_task 10]) <= INT_MAX) by (vm_compute; discriminate).
  split; [exact Hb|]. split; [exact Hmax|].
  exact (X18_emptied_runs_after_the_last_task x_state_one 2%positive 1%positive
           (x_queued [log_task 10]) default_listener_callbacks x_woken (log_task 10) []
           Hb eq_refl eq_refl eq_refl Hmax).
Defined.


Lemma X11_witness :
  0 < 1 < INT_MAX /\
  [[]; []; []; []; []; []; []] <> ([] : list (list handle)) /\
  ~ In (next_handle (y_listening [true; true; true; true; false]))
       (nth (bucket_index [[]; []; []; []; []; []; []] (length_hash "ghost"))
            [[]; []; []; []; []; []; []] []) /\
  -1 <> 0 /\
  ast_taskprocessor_create_with_listener length_hash "ghost" (Some 1%positive)
    (y_listening [true; true; true; true; false]) = None /\
  exists s1,
    (p <- ao2_alloc_tps ;;
     ask_oracle ;;
     update_tps p (set_stats (Some {| max_qsize := 0; _tasks_processed_count := 0 |})) ;;
     ask_oracle ;;
     update_tps p (set_name (Some "ghost"%string)) ;;
     ao2_ref_listener (Some 1%positive) 1 ;;
     update_tps p (set_listener (Some 1%positive)) ;;
     ao2_ref_tps p 1 ;;
     update_listener (Some 1%positive) (set_tps p) ;;
     ao2_link length_hash p ;;
     o <- load_tps p ;;
     call_start (listener (user_data o)) ;;
     ast_taskprocessor_unreference length_hash p)
      (y_listening [true; true; true; true; false]) = Some (None, s1) /\
    processors s1
    = delete (next_handle (y_listening [true; true; true; true; false]))
             (processors (y_listening [true; true; true; true; false])) /\
    tps_singletons s1 = Some [[]; []; []; []; []; []; []] /\
    listeners s1
    = <[1%positive :=
          {| ref_counter := ref_counter y_listener;
             user_data :=
               {| callbacks := callbacks (user_data y_listener);
                  tps := None;
                  private_data :=
                    Some (shutdown (callbacks (user_data y_listener)) 0) |} |}]>
        (listeners (y_listening [true; true; true; true; false])) /\
    ao2_cleanup_tps (Some (next_handle (y_listening [true; true; true; true; false]))) s1
    = None.
Proof.
  assert (Hc : 0 < 1 < INT_MAX) by (unfold INT_MAX; lia).
  assert (Hne : [[]; []; []; []; []; []; []] <> ([] : list (list handle)))
    by discriminate.
  assert (Hfresh : ~ In (next_handle (y_listening [true; true; true; true; false]))
                     (nth (bucket_index [[]; []; []; []; []; []; []] (length_hash "ghost"))
                          [[]; []; []; []; []; []; []] [])) by (intros []).
  assert (Hr : -1 <> 0) by discriminate.
  split; [exact Hc|]. split; [exact Hne|]. split; [exact Hfresh|]. split; [exact Hr|].
  exact (X11_start_failure_releases_a_destroyed_processor length_hash "ghost"
           (y_listening [true; true; true; true; false]) 1%positive y_listener 0 0 (-1) []
           [[]; []; []; []; []; []; []]
           eq_refl eq_refl Hc eq_refl Hne Hfresh eq_refl eq_refl eq_refl eq_refl eq_refl Hr).
Defined.

Lemma X14_witness :
  [[]; []; []; []; []; []; []] <> ([] : list (list handle)) /\
  ~ In (Pos.succ (next_handle (y_state [])))
       (nth (bucket_index [[]; []; []; []; []; []; []] (length_hash "ghost"))
            [[]; []; []; []; []; []; []] []) /\
  exists s1 s2,
    (l <- ast_taskprocessor_listener_alloc counting_callbacks ;;
     p <- ast_taskprocessor_create_with_listener length_hash "ghost" l ;;
     ast_taskprocessor_unreference length_hash p) (y_state []) = Some (None, s1) /\
    processors s1 = processors (y_state []) /\
    tps_singletons s1 = tps_singletons (y_state []) /\
    listeners s1
    = <[next_handle (y_state []) :=
          {| ref_counter := 1;
             user_data := {| callbacks := counting_callbacks; tps := None;
                             private_data := Some (shutdown counting_callbacks 1) |} |}]>
        (listeners (y_state [])) /\
    world s1 = world (y_state []) /\
    task_envelopes s1 = task_envelopes (y_state []) /\
    ao2_ref_listener (Some (next_handle (y_state []))) (-1) s1 = Some (1, s2) /\
    processors s2 = processors (y_state []) /\
    listeners s2 = listeners (y_state []) /\
    tps_singletons s2 = tps_singletons (y_state []).
Proof.
  assert (Hne : [[]; []; []; []; []; []; []] <> ([] : list (list handle)))
    by discriminate.
  assert (Hfresh : ~ In (Pos.succ (next_handle (y_state [])))
                     (nth (bucket_index [[]; []; []; []; []; []; []] (length_hash "ghost"))
                          [[]; []; []; []; []; []; []] [])) by (intros []).
  split; [exact Hne|]. split; [exact Hfresh|].
  exact (X14_create_then_release_restores_the_registry length_hash counting_callbacks
           "ghost" (y_state []) 0 1 [] [] [[]; []; []; []; []; []; []]
           eq_refl Hne eq_refl eq_refl Hfresh eq_refl eq_refl eq_refl eq_refl eq_refl
           eq_refl eq_refl).
Defined.

(** The run of the witness of X14: the listener of the user is left with the
    number 1001, one start and one shutdown. *)
Lemma y_created_and_released :
  (fun r => match r with
            | Some (p, s) => Some (p, map_to_list (processors s),
                                   private_data <$> (user_data <$> listeners s !! 1%positive),
                                   tps_singletons s)
            | None => None
            end)
    ((l <- ast_taskprocessor_listener_alloc counting_callbacks ;;
      p <- ast_taskprocessor_create_with_listener length_hash "ghost" l ;;
      ast_taskprocessor_unreference length_hash p) (y_state []))
  = Some (None, [], Some (Some 1001), Some [[]; []; []; []; []; []; []]).
Proof. vm_compute. reflexivity. Qed.
